(** * SyncSpace Teams: the row-level authorization model

    A shallow embedding of the SQL migrations of the repository (tables,
    predicate functions, row-level security policies, triggers) and of the
    two client pages that issue requests against them (the dashboard's
    [fetchTeams] and the team creation form's [handleSubmit]), followed by
    the properties the specification states about them.

    Conventions.  A table is the list of its rows, in insertion order.  A
    column declared [NOT NULL] has the type of its values, a nullable column
    is an [option].  SQL's three-valued logic is kept: a boolean expression
    evaluates to an [option bool], [None] being NULL.  [auth.uid()] is an
    [option uuid], NULL for a request that carries no session. *)

From Stdlib Require Import ZArith Lia Bool Ascii String.
From stdpp Require Import base option list strings gmap.

Local Open Scope string_scope.
Local Open Scope list_scope.

(** ** Values *)

Definition uuid := N.
Definition timestamptz := Z.
Definition text := string.

(** A [jsonb] value as the [->>] operator sees it: JSON null, a JSON
    string, or any other value, kept by the text [->>] renders it to. *)
Inductive jsonb_value :=
| JNull
| JString (s : text)
| JOther (rendering : text).

(** ** Three-valued logic *)

Definition sql_or (a b : option bool) : option bool :=
  match a, b with
  | Some true, _ => Some true
  | _, Some true => Some true
  | Some false, Some false => Some false
  | _, _ => None
  end.

Definition sql_and (a b : option bool) : option bool :=
  match a, b with
  | Some false, _ => Some false
  | _, Some false => Some false
  | Some true, Some true => Some true
  | _, _ => None
  end.

Definition sql_eq {A} `{EqDecision A} (a b : option A) : option bool :=
  match a, b with
  | Some x, Some y => Some (bool_decide (x = y))
  | _, _ => None
  end.

(** A [WHERE] clause, a policy qualification and a [WITH CHECK] option keep
    a row only when the expression is true: NULL counts as false. *)
Definition holds (v : option bool) : bool :=
  match v with
  | Some true => true
  | _ => false
  end.

(** [text IN (v1, ..., vn)] for non-null operands. *)
Definition sql_in (x : text) (vs : list text) : bool :=
  existsb (String.eqb x) vs.

(** ** Schema *)

(** [auth.users] belongs to the platform; these are the columns the
    migration reads. *)
Module Users.
Record row := {
  id : uuid;
  email : option text;
  raw_user_meta_data : option (gmap string jsonb_value);
}.
End Users.

Module Profiles.
Record row := {
  id : uuid;
  user_id : uuid;
  username : text;
  created_at : timestamptz;
  updated_at : timestamptz;
}.
End Profiles.

Module Teams.
Record row := {
  id : uuid;
  name : text;
  description : option text;
  owner_id : uuid;
  created_at : timestamptz;
  updated_at : timestamptz;
}.
End Teams.

Module TeamMembers.
Record row := {
  id : uuid;
  team_id : uuid;
  user_id : uuid;
  role : text;
  invited_by : option uuid;
  joined_at : timestamptz;
}.
End TeamMembers.

Module Tasks.
Record row := {
  id : uuid;
  team_id : uuid;
  title : text;
  description : option text;
  status : text;
  priority : text;
  due_date : option timestamptz;
  assigned_to : option uuid;
  created_by : uuid;
  created_at : timestamptz;
  updated_at : timestamptz;
}.
End Tasks.

Record DB := {
  auth_users : list Users.row;
  profiles : list Profiles.row;
  teams : list Teams.row;
  team_members : list TeamMembers.row;
  tasks : list Tasks.row;
}.

Definition empty_db : DB :=
  {| auth_users := []; profiles := []; teams := [];
     team_members := []; tasks := [] |}.

(** *** Declared constraints *)

Definition unique {A K} `{EqDecision K} (key : A → K) (l : list A) : bool :=
  bool_decide (NoDup (map key l)).

Definition references {K} `{EqDecision K} (k : K) (keys : list K) : bool :=
  bool_decide (k ∈ keys).

(** A nullable foreign key is not checked when NULL. *)
Definition references_opt {K} `{EqDecision K} (k : option K) (keys : list K) : bool :=
  match k with
  | None => true
  | Some k => references k keys
  end.

Definition user_ids (db : DB) : list uuid := map Users.id (auth_users db).
Definition team_ids (db : DB) : list uuid := map Teams.id (teams db).

Definition profiles_valid (db : DB) : bool :=
  unique Profiles.id (profiles db)
  && unique Profiles.user_id (profiles db)
  && unique Profiles.username (profiles db)
  && forallb (λ r, references (Profiles.user_id r) (user_ids db)) (profiles db).

Definition teams_valid (db : DB) : bool :=
  unique Teams.id (teams db)
  && forallb (λ r, references (Teams.owner_id r) (user_ids db)) (teams db).

Definition team_members_valid (db : DB) : bool :=
  unique TeamMembers.id (team_members db)
  && unique (λ r, (TeamMembers.team_id r, TeamMembers.user_id r)) (team_members db)
  && forallb (λ r,
        references (TeamMembers.team_id r) (team_ids db)
        && references (TeamMembers.user_id r) (user_ids db)
        && sql_in (TeamMembers.role r) ["owner"; "admin"; "member"]
        && references_opt (TeamMembers.invited_by r) (user_ids db))
      (team_members db).

Definition tasks_valid (db : DB) : bool :=
  unique Tasks.id (tasks db)
  && forallb (λ r,
        references (Tasks.team_id r) (team_ids db)
        && sql_in (Tasks.status r) ["todo"; "in_progress"; "review"; "done"]
        && sql_in (Tasks.priority r) ["low"; "medium"; "high"; "urgent"]
        && references_opt (Tasks.assigned_to r) (user_ids db)
        && references (Tasks.created_by r) (user_ids db))
      (tasks db).

(** Every declared constraint (primary keys, [UNIQUE], [CHECK],
    [REFERENCES]) holds. *)
Definition db_valid (db : DB) : bool :=
  unique Users.id (auth_users db)
  && profiles_valid db && teams_valid db
  && team_members_valid db && tasks_valid db.

(** ** Access predicate functions *)

(** [public.is_team_member(_user_id, _team_id)]:
    [SELECT EXISTS (SELECT 1 FROM public.team_members
                    WHERE user_id = _user_id AND team_id = _team_id)]. *)
Definition is_team_member (db : DB) (_user_id _team_id : option uuid) : bool :=
  existsb
    (λ r, holds (sql_and (sql_eq (Some (TeamMembers.user_id r)) _user_id)
                         (sql_eq (Some (TeamMembers.team_id r)) _team_id)))
    (team_members db).

(** [public.is_team_owner(_user_id, _team_id)]:
    [SELECT EXISTS (SELECT 1 FROM public.teams
                    WHERE owner_id = _user_id AND id = _team_id)]. *)
Definition is_team_owner (db : DB) (_user_id _team_id : option uuid) : bool :=
  existsb
    (λ r, holds (sql_and (sql_eq (Some (Teams.owner_id r)) _user_id)
                         (sql_eq (Some (Teams.id r)) _team_id)))
    (teams db).

(** ** Row-level policy set *)

Inductive command := ALL | SELECT | INSERT | UPDATE | DELETE.

#[global] Instance command_eq_dec : EqDecision command.
Proof. solve_decision. Defined.

(** A policy expression reads the database, [auth.uid()] and one row. *)
Definition expr (R : Type) : Type := DB → option uuid → R → option bool.

(** [CREATE POLICY pol_name ON ... FOR pol_for USING (...) WITH CHECK (...)];
    a clause the statement leaves out is [None]. *)
Record policy (R : Type) := {
  pol_name : string;
  pol_for : command;
  pol_using : option (expr R);
  pol_with_check : option (expr R);
}.
Arguments pol_name {R} _.
Arguments pol_for {R} _.
Arguments pol_using {R} _.
Arguments pol_with_check {R} _.

(** *** profiles *)

Definition Users_can_view_their_own_profile : policy Profiles.row :=
  {| pol_name := "Users can view their own profile";
     pol_for := SELECT;
     pol_using := Some (λ _ uid r, sql_eq uid (Some (Profiles.user_id r)));
     pol_with_check := None |}.

Definition Users_can_create_their_own_profile : policy Profiles.row :=
  {| pol_name := "Users can create their own profile";
     pol_for := INSERT;
     pol_using := None;
     pol_with_check := Some (λ _ uid r, sql_eq uid (Some (Profiles.user_id r))) |}.

Definition Users_can_update_their_own_profile : policy Profiles.row :=
  {| pol_name := "Users can update their own profile";
     pol_for := UPDATE;
     pol_using := Some (λ _ uid r, sql_eq uid (Some (Profiles.user_id r)));
     pol_with_check := None |}.

Definition profiles_policies : list (policy Profiles.row) :=
  [ Users_can_view_their_own_profile;
    Users_can_create_their_own_profile;
    Users_can_update_their_own_profile ].

(** *** teams *)

Definition Users_can_view_teams_they_belong_to : policy Teams.row :=
  {| pol_name := "Users can view teams they belong to";
     pol_for := SELECT;
     pol_using := Some (λ db uid r,
       sql_or (sql_eq uid (Some (Teams.owner_id r)))
              (Some (is_team_member db uid (Some (Teams.id r)))));
     pol_with_check := None |}.

Definition Users_can_create_teams : policy Teams.row :=
  {| pol_name := "Users can create teams";
     pol_for := INSERT;
     pol_using := None;
     pol_with_check := Some (λ _ uid r, sql_eq uid (Some (Teams.owner_id r))) |}.

Definition Team_owners_can_update_their_teams : policy Teams.row :=
  {| pol_name := "Team owners can update their teams";
     pol_for := UPDATE;
     pol_using := Some (λ _ uid r, sql_eq uid (Some (Teams.owner_id r)));
     pol_with_check := None |}.

Definition Team_owners_can_delete_their_teams : policy Teams.row :=
  {| pol_name := "Team owners can delete their teams";
     pol_for := DELETE;
     pol_using := Some (λ _ uid r, sql_eq uid (Some (Teams.owner_id r)));
     pol_with_check := None |}.

Definition teams_policies : list (policy Teams.row) :=
  [ Users_can_view_teams_they_belong_to;
    Users_can_create_teams;
    Team_owners_can_update_their_teams;
    Team_owners_can_delete_their_teams ].

(** *** team_members *)

Definition Users_can_view_team_members_of_teams_they_belong_to
  : policy TeamMembers.row :=
  {| pol_name := "Users can view team members of teams they belong to";
     pol_for := SELECT;
     pol_using := Some (λ db uid r,
       Some (is_team_member db uid (Some (TeamMembers.team_id r))));
     pol_with_check := None |}.

Definition Team_owners_can_manage_team_members : policy TeamMembers.row :=
  {| pol_name := "Team owners can manage team members";
     pol_for := ALL;
     pol_using := Some (λ db uid r,
       Some (is_team_owner db uid (Some (TeamMembers.team_id r))));
     pol_with_check := Some (λ db uid r,
       Some (is_team_owner db uid (Some (TeamMembers.team_id r)))) |}.

Definition Users_can_join_teams_when_invited : policy TeamMembers.row :=
  {| pol_name := "Users can join teams when invited";
     pol_for := INSERT;
     pol_using := None;
     pol_with_check := Some (λ _ uid r, sql_eq uid (Some (TeamMembers.user_id r))) |}.

Definition team_members_policies : list (policy TeamMembers.row) :=
  [ Users_can_view_team_members_of_teams_they_belong_to;
    Team_owners_can_manage_team_members;
    Users_can_join_teams_when_invited ].

(** *** tasks *)

Definition Users_can_view_tasks_from_teams_they_belong_to : policy Tasks.row :=
  {| pol_name := "Users can view tasks from teams they belong to";
     pol_for := SELECT;
     pol_using := Some (λ db uid r,
       Some (is_team_member db uid (Some (Tasks.team_id r))));
     pol_with_check := None |}.

Definition Team_members_can_create_tasks : policy Tasks.row :=
  {| pol_name := "Team members can create tasks";
     pol_for := INSERT;
     pol_using := None;
     pol_with_check := Some (λ db uid r,
       sql_and (Some (is_team_member db uid (Some (Tasks.team_id r))))
               (sql_eq uid (Some (Tasks.created_by r)))) |}.

Definition Team_members_can_update_tasks : policy Tasks.row :=
  {| pol_name := "Team members can update tasks";
     pol_for := UPDATE;
     pol_using := Some (λ db uid r,
       Some (is_team_member db uid (Some (Tasks.team_id r))));
     pol_with_check := None |}.

Definition Team_owners_can_delete_tasks : policy Tasks.row :=
  {| pol_name := "Team owners can delete tasks";
     pol_for := DELETE;
     pol_using := Some (λ db uid r,
       Some (is_team_owner db uid (Some (Tasks.team_id r))));
     pol_with_check := None |}.

Definition tasks_policies : list (policy Tasks.row) :=
  [ Users_can_view_tasks_from_teams_they_belong_to;
    Team_members_can_create_tasks;
    Team_members_can_update_tasks;
    Team_owners_can_delete_tasks ].

(** ** Triggers *)

(** [update_updated_at_column] is one function attached to three tables;
    what it needs of a row is its [updated_at] column. *)
Class HasUpdatedAt (R : Type) := {
  get_updated_at : R → timestamptz;
  set_updated_at : timestamptz → R → R;
}.

#[global] Instance profiles_updated_at : HasUpdatedAt Profiles.row := {|
  get_updated_at := Profiles.updated_at;
  set_updated_at t r :=
    {| Profiles.id := Profiles.id r;
       Profiles.user_id := Profiles.user_id r;
       Profiles.username := Profiles.username r;
       Profiles.created_at := Profiles.created_at r;
       Profiles.updated_at := t |};
|}.

#[global] Instance teams_updated_at : HasUpdatedAt Teams.row := {|
  get_updated_at := Teams.updated_at;
  set_updated_at t r :=
    {| Teams.id := Teams.id r;
       Teams.name := Teams.name r;
       Teams.description := Teams.description r;
       Teams.owner_id := Teams.owner_id r;
       Teams.created_at := Teams.created_at r;
       Teams.updated_at := t |};
|}.

#[global] Instance tasks_updated_at : HasUpdatedAt Tasks.row := {|
  get_updated_at := Tasks.updated_at;
  set_updated_at t r :=
    {| Tasks.id := Tasks.id r;
       Tasks.team_id := Tasks.team_id r;
       Tasks.title := Tasks.title r;
       Tasks.description := Tasks.description r;
       Tasks.status := Tasks.status r;
       Tasks.priority := Tasks.priority r;
       Tasks.due_date := Tasks.due_date r;
       Tasks.assigned_to := Tasks.assigned_to r;
       Tasks.created_by := Tasks.created_by r;
       Tasks.created_at := Tasks.created_at r;
       Tasks.updated_at := t |};
|}.

(** [NEW.updated_at = now(); RETURN NEW;] *)
Definition update_updated_at_column {R} `{HasUpdatedAt R}
    (now : timestamptz) (NEW : R) : R :=
  set_updated_at now NEW.

(** ** Statements under row-level security *)

(** What the engine needs to know of a table with row-level security
    enabled: where its rows live in the database, its policies, its
    [BEFORE UPDATE ... FOR EACH ROW] trigger (the identity when it has none)
    and what [ON DELETE CASCADE] removes with its rows. *)
Record table (R : Type) := {
  t_rows : DB → list R;
  t_put : list R → DB → DB;
  t_policies : list (policy R);
  t_before_update : timestamptz → R → R;
  t_on_delete : list R → DB → DB;
}.
Arguments t_rows {R} _ _.
Arguments t_put {R} _ _ _.
Arguments t_policies {R} _.
Arguments t_before_update {R} _ _ _.
Arguments t_on_delete {R} _ _ _.

(** The result of a data-modifying statement.  A denial carries nothing:
    neither the policy nor the reason. *)
Inductive outcome (A : Type) :=
| Done (a : A)
| PermissionDenied
| ConstraintViolation.
Arguments Done {A} _.
Arguments PermissionDenied {A}.
Arguments ConstraintViolation {A}.

(** A policy applies to a command when it is declared [FOR ALL] or for
    that command. *)
Definition applies {R} (c : command) (p : policy R) : bool :=
  bool_decide (pol_for p = ALL) || bool_decide (pol_for p = c).

(** Permissive policies are combined with [OR]; without any, the default
    is to deny. *)
Definition any_of (vs : list (option bool)) : option bool :=
  foldr sql_or (Some false) vs.

(** The security qualification of command [c]: the [USING] clauses of the
    policies that apply. *)
Definition security_qual {R} (ps : list (policy R)) (c : command)
    (db : DB) (uid : option uuid) (r : R) : bool :=
  holds (any_of
    (omap (λ p, (λ e : expr R, e db uid r) <$> pol_using p)
          (List.filter (applies c) ps))).

(** The check option of command [c] on a new row: the [WITH CHECK] clauses
    of the policies that apply, a policy without one giving its [USING]
    clause. *)
Definition with_check {R} (ps : list (policy R)) (c : command)
    (db : DB) (uid : option uuid) (r : R) : bool :=
  holds (any_of
    (omap (λ p, (λ e : expr R, e db uid r) <$>
                match pol_with_check p with
                | Some e => Some e
                | None => pol_using p
                end)
          (List.filter (applies c) ps))).

Section Statements.
Context {R : Type} (T : table R).

(** [SELECT ... FROM T WHERE cond] as [uid]: the rows the [SELECT]
    policies let through.  Reading never fails and writes nothing. *)
Definition rls_select (uid : option uuid) (cond : R → bool) (db : DB) : list R :=
  List.filter (λ r, cond r && security_qual (t_policies T) SELECT db uid r)
              (t_rows T db).

(** [SELECT count( * ) ...], the [count: 'exact', head: true] request. *)
Definition rls_count (uid : option uuid) (cond : R → bool) (db : DB) : nat :=
  length (rls_select uid cond db).

(** [INSERT INTO T VALUES (NEW)], with [RETURNING *] when [returning]:
    the new row must pass the [INSERT] check and, when it is returned,
    the [SELECT] policies; then the declared constraints must hold. *)
Definition rls_insert (uid : option uuid) (returning : bool) (NEW : R)
    (db : DB) : outcome (list R) * DB :=
  if with_check (t_policies T) INSERT db uid NEW
     && (negb returning || security_qual (t_policies T) SELECT db uid NEW)
  then
    let db' := t_put T (t_rows T db ++ [NEW]) db in
    if db_valid db'
    then (Done (if returning then [NEW] else []), db')
    else (ConstraintViolation, db)
  else (PermissionDenied, db).

(** The rows an [UPDATE ... WHERE cond] or [DELETE ... WHERE cond] of
    command [c] works on: [cond] reads the row, so the [SELECT] policies
    filter next to those of the command.  A row filtered out is skipped
    silently.  These are the statements a client request makes: it always
    carries a filter.  A statement that reads no column at all, to which
    the engine applies the policies of the command alone, is not among
    them. *)
Definition targeted (c : command) (uid : option uuid) (cond : R → bool)
    (db : DB) (r : R) : bool :=
  cond r
  && security_qual (t_policies T) SELECT db uid r
  && security_qual (t_policies T) c db uid r.

(** [UPDATE T SET ... WHERE cond] at time [now]: each targeted row is
    replaced by [set] of it, passed through the [BEFORE UPDATE] trigger;
    every new row must pass the [UPDATE] check and the [SELECT] policies,
    and the declared constraints must hold, or nothing is written.  The
    result is the number of rows updated. *)
Definition rls_update (uid : option uuid) (now : timestamptz)
    (cond : R → bool) (set : R → R) (db : DB) : outcome nat * DB :=
  let NEW r := t_before_update T now (set r) in
  if forallb (λ r, negb (targeted UPDATE uid cond db r)
                   || (with_check (t_policies T) UPDATE db uid (NEW r)
                       && security_qual (t_policies T) SELECT db uid (NEW r)))
             (t_rows T db)
  then
    let db' :=
      t_put T (map (λ r, if targeted UPDATE uid cond db r then NEW r else r)
                   (t_rows T db)) db in
    if db_valid db'
    then (Done (length (List.filter (targeted UPDATE uid cond db) (t_rows T db))), db')
    else (ConstraintViolation, db)
  else (PermissionDenied, db).

(** [DELETE FROM T WHERE cond]: the targeted rows go, and with them what
    [ON DELETE CASCADE] attaches to them. *)
Definition rls_delete (uid : option uuid) (cond : R → bool) (db : DB)
    : outcome nat * DB :=
  let gone := List.filter (targeted DELETE uid cond db) (t_rows T db) in
  let db' :=
    t_on_delete T gone
      (t_put T (List.filter (λ r, negb (targeted DELETE uid cond db r)) (t_rows T db))
             db) in
  if db_valid db'
  then (Done (length gone), db')
  else (ConstraintViolation, db).
End Statements.

(** *** The four tables *)

Definition profiles_table : table Profiles.row :=
  {| t_rows := profiles;
     t_put rows db :=
       {| auth_users := auth_users db; profiles := rows; teams := teams db;
          team_members := team_members db; tasks := tasks db |};
     t_policies := profiles_policies;
     t_before_update := update_updated_at_column;
     t_on_delete _ db := db |}.

(** Deleting a team deletes its memberships and its tasks
    ([REFERENCES public.teams(id) ON DELETE CASCADE]). *)
Definition teams_on_delete (gone : list Teams.row) (db : DB) : DB :=
  let dead (t : uuid) := bool_decide (t ∈ map Teams.id gone) in
  {| auth_users := auth_users db; profiles := profiles db; teams := teams db;
     team_members :=
       List.filter (λ m, negb (dead (TeamMembers.team_id m))) (team_members db);
     tasks := List.filter (λ k, negb (dead (Tasks.team_id k))) (tasks db) |}.

Definition teams_table : table Teams.row :=
  {| t_rows := teams;
     t_put rows db :=
       {| auth_users := auth_users db; profiles := profiles db; teams := rows;
          team_members := team_members db; tasks := tasks db |};
     t_policies := teams_policies;
     t_before_update := update_updated_at_column;
     t_on_delete := teams_on_delete |}.

(** [team_members] has no [updated_at] column and no trigger. *)
Definition team_members_table : table TeamMembers.row :=
  {| t_rows := team_members;
     t_put rows db :=
       {| auth_users := auth_users db; profiles := profiles db; teams := teams db;
          team_members := rows; tasks := tasks db |};
     t_policies := team_members_policies;
     t_before_update _ r := r;
     t_on_delete _ db := db |}.

Definition tasks_table : table Tasks.row :=
  {| t_rows := tasks;
     t_put rows db :=
       {| auth_users := auth_users db; profiles := profiles db; teams := teams db;
          team_members := team_members db; tasks := rows |};
     t_policies := tasks_policies;
     t_before_update := update_updated_at_column;
     t_on_delete _ db := db |}.

(** [SELECT public.is_team_member(u, t)] run as a statement of its own:
    the function is [STABLE], it returns its value and the database it
    was given. *)
Definition call_stable {A} (f : DB → A) (db : DB) : A * DB := (f db, db).

(** ** New-account bootstrap *)

(** [j ->> key]: the value under [key] as text; NULL when [j] is NULL,
    when the key is missing and when the value is JSON null. *)
Definition json_get_text (j : option (gmap string jsonb_value)) (key : string)
    : option text :=
  m ← j;
  v ← m !! key;
  match v with
  | JNull => None
  | JString s => Some s
  | JOther s => Some s
  end.

Definition coalesce {A} (a b : option A) : option A :=
  match a with
  | Some x => Some x
  | None => b
  end.

(** The fields of [s] between occurrences of the delimiter [d]. *)
Fixpoint split_on (d : ascii) (s : string) : list string :=
  match s with
  | EmptyString => [EmptyString]
  | String c rest =>
      if bool_decide (c = d) then EmptyString :: split_on d rest
      else match split_on d rest with
           | field :: fields => String c field :: fields
           | [] => [String c EmptyString]
           end
  end.

(** [split_part(s, d, n)] for a one-character delimiter and [n >= 1]: the
    [n]-th field, the empty text when there are fewer. *)
Definition split_part (s : text) (d : ascii) (n : nat) : text :=
  nth (n - 1) (split_on d s) EmptyString.

(** The handle the trigger stores:
    [COALESCE(NEW.raw_user_meta_data->>'username', split_part(NEW.email, '@', 1))];
    [split_part] of a NULL email is NULL. *)
Definition new_user_username (NEW : Users.row) : option text :=
  coalesce (json_get_text (Users.raw_user_meta_data NEW) "username")
           ((λ e, split_part e "@"%char 1) <$> Users.email NEW).

(** [public.handle_new_user()].  It is [SECURITY DEFINER]: its insert runs
    with the rights of the function's owner and is not subject to the
    policies of [profiles]; the constraints apply.  [id], [created_at] and
    [updated_at] take their defaults, [fresh] being the value
    [gen_random_uuid()] draws. *)
Definition handle_new_user (NEW : Users.row) (fresh : uuid) (now : timestamptz)
    (db : DB) : outcome unit * DB :=
  match new_user_username NEW with
  | None => (ConstraintViolation, db)
  | Some handle =>
      let row :=
        {| Profiles.id := fresh;
           Profiles.user_id := Users.id NEW;
           Profiles.username := handle;
           Profiles.created_at := now;
           Profiles.updated_at := now |} in
      let db' := t_put profiles_table (profiles db ++ [row]) db in
      if db_valid db' then (Done (), db') else (ConstraintViolation, db)
  end.

(** Creating an account: the platform inserts the row into [auth.users]
    and [on_auth_user_created] fires [AFTER INSERT]; an error raised by the
    trigger aborts the insertion. *)
Definition create_account (NEW : Users.row) (fresh : uuid) (now : timestamptz)
    (db : DB) : outcome unit * DB :=
  let db1 :=
    {| auth_users := auth_users db ++ [NEW]; profiles := profiles db;
       teams := teams db; team_members := team_members db; tasks := tasks db |} in
  if db_valid db1 then
    match handle_new_user NEW fresh now db1 with
    | (Done _, db2) => (Done (), db2)
    | (PermissionDenied, _) => (PermissionDenied, db)
    | (ConstraintViolation, _) => (ConstraintViolation, db)
    end
  else (ConstraintViolation, db).

(** ** Client pages *)

(** JavaScript's [trim] removes white space and line terminators at both
    ends: U+0009 to U+000D, U+0020, U+00A0, U+1680, U+2000 to U+200A,
    U+2028, U+2029, U+202F, U+205F, U+3000 and U+FEFF.  A text is the
    sequence of its UTF-8 bytes, so these characters are one, two or three
    bytes long. *)
Definition is_space (c : ascii) : bool :=
  let n := nat_of_ascii c in
  (Nat.leb 9 n && Nat.leb n 13) || Nat.eqb n 32.

(** U+00A0 is [C2 A0]. *)
Definition is_space2 (c1 c2 : ascii) : bool :=
  Nat.eqb (nat_of_ascii c1) 194 && Nat.eqb (nat_of_ascii c2) 160.

(** U+1680 is [E1 9A 80]; U+2000 to U+200A are [E2 80 80] to [E2 80 8A];
    U+2028, U+2029 and U+202F are [E2 80 A8], [E2 80 A9] and [E2 80 AF];
    U+205F is [E2 81 9F]; U+3000 is [E3 80 80]; U+FEFF is [EF BB BF]. *)
Definition is_space3 (c1 c2 c3 : ascii) : bool :=
  let n1 := nat_of_ascii c1 in
  let n2 := nat_of_ascii c2 in
  let n3 := nat_of_ascii c3 in
  (Nat.eqb n1 225 && Nat.eqb n2 154 && Nat.eqb n3 128)
  || (Nat.eqb n1 226 && Nat.eqb n2 128
      && ((Nat.leb 128 n3 && Nat.leb n3 138)
          || Nat.eqb n3 168 || Nat.eqb n3 169 || Nat.eqb n3 175))
  || (Nat.eqb n1 226 && Nat.eqb n2 129 && Nat.eqb n3 159)
  || (Nat.eqb n1 227 && Nat.eqb n2 128 && Nat.eqb n3 128)
  || (Nat.eqb n1 239 && Nat.eqb n2 187 && Nat.eqb n3 191).

Fixpoint trim_start (s : string) : string :=
  match s with
  | EmptyString => EmptyString
  | String c1 rest1 =>
      if is_space c1 then trim_start rest1
      else
        match rest1 with
        | EmptyString => s
        | String c2 rest2 =>
            if is_space2 c1 c2 then trim_start rest2
            else
              match rest2 with
              | EmptyString => s
              | String c3 rest3 =>
                  if is_space3 c1 c2 c3 then trim_start rest3 else s
              end
        end
  end.

Definition reverse_text (s : string) : string :=
  string_of_list_ascii (rev (list_ascii_of_string s)).

(** [trim_start] on a text given last byte first. *)
Fixpoint trim_start_reversed (s : string) : string :=
  match s with
  | EmptyString => EmptyString
  | String c1 rest1 =>
      if is_space c1 then trim_start_reversed rest1
      else
        match rest1 with
        | EmptyString => s
        | String c2 rest2 =>
            if is_space2 c2 c1 then trim_start_reversed rest2
            else
              match rest2 with
              | EmptyString => s
              | String c3 rest3 =>
                  if is_space3 c3 c2 c1 then trim_start_reversed rest3 else s
              end
        end
  end.

Definition trim_end (s : string) : string :=
  reverse_text (trim_start_reversed (reverse_text s)).

Definition trim (s : string) : string := trim_end (trim_start s).

(** *** CreateTeam.tsx *)

Record FormData := {
  fd_name : string;
  fd_description : string;
}.

Inductive submit_result :=
| NotSignedIn                    (* [if (!user) return] *)
| ValidationError                (* "Team name is required" *)
| TeamError                      (* [throw teamError] *)
| MemberError                    (* [throw memberError] *)
| TeamCreated (team_id : uuid).  (* [navigate(`/teams/${teamData.id}`)] *)

(** [handleSubmit].  The two inserts are two requests, each its own
    transaction, at times [now1] and [now2]; [fresh_team] and
    [fresh_member] are the ids [gen_random_uuid()] draws.  The first asks
    for the row back ([.select().single()]), the second does not. *)
Definition handleSubmit (user : option uuid) (formData : FormData)
    (fresh_team fresh_member : uuid) (now1 now2 : timestamptz) (db : DB)
    : submit_result * DB :=
  match user with
  | None => (NotSignedIn, db)
  | Some user_id =>
      if bool_decide (trim (fd_name formData) = EmptyString)
      then (ValidationError, db)
      else
        let new_team :=
          {| Teams.id := fresh_team;
             Teams.name := trim (fd_name formData);
             Teams.description :=
               (if bool_decide (trim (fd_description formData) = EmptyString)
                then None else Some (trim (fd_description formData)));
             Teams.owner_id := user_id;
             Teams.created_at := now1;
             Teams.updated_at := now1 |} in
        match rls_insert teams_table (Some user_id) true new_team db with
        | (Done [teamData], db1) =>
            let new_member :=
              {| TeamMembers.id := fresh_member;
                 TeamMembers.team_id := Teams.id teamData;
                 TeamMembers.user_id := user_id;
                 TeamMembers.role := "owner";
                 TeamMembers.invited_by := None;
                 TeamMembers.joined_at := now2 |} in
            match rls_insert team_members_table (Some user_id) false new_member db1 with
            | (Done _, db2) => (TeamCreated (Teams.id teamData), db2)
            | (_, db2) => (MemberError, db2)
            end
        | (_, db1) => (TeamError, db1)
        end
  end.

(** *** The dashboard *)

Record DashboardTeam := {
  team : Teams.row;
  member_count : nat;
  task_count : nat;
}.

(** What a request answers: [{ data, error }]. *)
Record answer (A : Type) := {
  data : option A;
  error : option text;
}.
Arguments data {A} _.
Arguments error {A} _.

(** The callback of [teamsData.map]: the two count requests for one team,
    each run as the user, under the [SELECT] policies. *)
Definition team_with_counts (user : option uuid) (db : DB) (t : Teams.row)
    : DashboardTeam :=
  {| team := t;
     member_count :=
       rls_count team_members_table user
         (λ m, bool_decide (TeamMembers.team_id m = Teams.id t)) db;
     task_count :=
       rls_count tasks_table user
         (λ k, bool_decide (Tasks.team_id k = Teams.id t)) db |}.

(** [fetchTeams].  The request for the teams is answered by the REST
    layer; [teamsAnswer] is what it answers, whatever it makes of the
    request's [select] and [or], and the count requests that follow run
    here against one state of the database.  With an error the function
    throws, the [catch] shows a notice and the page's list is left as it
    was: that, and the early [return] without a user, is [None]. *)
Definition fetchTeams (user : option uuid) (teamsAnswer : answer (list Teams.row))
    (db : DB) : option (list DashboardTeam) :=
  match user with
  | None => None
  | Some _ =>
      match error teamsAnswer with
      | Some teamsError => None
      | None =>
          let teamsData :=
            match data teamsAnswer with
            | Some rows => rows
            | None => []
            end in
          Some (map (team_with_counts user db) teamsData)
      end
  end.

(** [isTeamOwner]: [team.owner_id === user?.id]; without a user the
    right-hand side is [undefined] and the comparison is false. *)
Definition isTeamOwner (user : option uuid) (t : DashboardTeam) : bool :=
  match user with
  | Some user_id => bool_decide (Teams.owner_id (team t) = user_id)
  | None => false
  end.

(** The "Quick Stats" cards, rendered when the list is not empty:
    [teams.length], the [reduce] that sums [task_count], and the length of
    the [filter] on [owner_id]. *)
Record QuickStats := {
  teams_joined : nat;
  total_tasks : nat;
  teams_owned : nat;
}.

Definition quickStats (user : option uuid) (shown : list DashboardTeam)
    : option QuickStats :=
  if Nat.ltb 0 (length shown)
  then Some {| teams_joined := length shown;
               total_tasks := foldl (λ acc t, acc + task_count t)%nat 0%nat shown;
               teams_owned := length (List.filter (isTeamOwner user) shown) |}
  else None.

(** The submit button of the form:
    [disabled={loading || !formData.name.trim()}]. *)
Definition submit_disabled (loading : bool) (formData : FormData) : bool :=
  loading || bool_decide (trim (fd_name formData) = EmptyString).

(** ** Vocabulary of the statements *)

(** A Membership row exists for the pair. *)
Definition has_membership (db : DB) (actor : option uuid) (team_id : uuid) : Prop :=
  ∃ m, m ∈ team_members db
       ∧ Some (TeamMembers.user_id m) = actor
       ∧ TeamMembers.team_id m = team_id.

(** The team exists and its owner reference is the actor. *)
Definition owns (db : DB) (actor : option uuid) (team_id : uuid) : Prop :=
  ∃ t, t ∈ teams db ∧ Teams.id t = team_id ∧ Some (Teams.owner_id t) = actor.

(** Every successful [UPDATE] on [T] leaves each row it touched with
    [updated_at] equal to the time of the update, whatever the request's
    [set] wrote into that column, and leaves the other rows as they
    were; the new [updated_at] is not below the old one when the old one
    was not ahead of the clock. *)
Definition refreshed_by_update {R} `{HasUpdatedAt R} (T : table R) : Prop :=
  ∀ uid now cond set db n db',
    rls_update T uid now cond set db = (Done n, db') →
    Forall2
      (λ old new,
         if targeted T UPDATE uid cond db old
         then new = update_updated_at_column now (set old)
              ∧ get_updated_at new = now
              ∧ ((get_updated_at old ≤ now)%Z →
                 (get_updated_at old ≤ get_updated_at new)%Z)
         else new = old)
      (t_rows T db) (t_rows T db').

(** [d] occurs in [s]. *)
Fixpoint occurs (d : ascii) (s : string) : bool :=
  match s with
  | EmptyString => false
  | String c rest => bool_decide (c = d) || occurs d rest
  end.

(** [h] is the part of [s] before its first [d]: all of [s] when [d] does
    not occur in it. *)
Definition part_before (d : ascii) (s h : string) : Prop :=
  occurs d h = false
  ∧ (s = h ∨ ∃ rest, s = String.append h (String d rest)).

(** What a denial amounts to on table [T], command by command.  A new row
    that fails the insert check is refused with [PermissionDenied] and the
    database is as before.  Reading, updating or deleting where the
    command's policy is false on every row the request addresses returns no
    row, or affects none, and the database is as before.  An update whose
    new row fails the update check is refused whole.  And whatever else a
    request touches, a row on which the policy is false is still there
    afterwards, as it was. *)
Definition denial_is_clean {R} (T : table R) : Prop :=
  (∀ uid returning NEW db,
     with_check (t_policies T) INSERT db uid NEW = false →
     rls_insert T uid returning NEW db = (PermissionDenied, db))
  ∧ (∀ uid cond db,
       (∀ r, r ∈ t_rows T db → cond r = true →
             security_qual (t_policies T) SELECT db uid r = false) →
       rls_select T uid cond db = [])
  ∧ (∀ uid now cond set db,
       (∀ r, r ∈ t_rows T db → cond r = true →
             security_qual (t_policies T) UPDATE db uid r = false) →
       snd (rls_update T uid now cond set db) = db
       ∧ (db_valid db = true → fst (rls_update T uid now cond set db) = Done 0%nat))
  ∧ (∀ uid now cond set db r,
       r ∈ t_rows T db →
       targeted T UPDATE uid cond db r = true →
       with_check (t_policies T) UPDATE db uid (t_before_update T now (set r)) = false →
       rls_update T uid now cond set db = (PermissionDenied, db))
  ∧ (∀ uid cond db,
       (∀ r, r ∈ t_rows T db → cond r = true →
             security_qual (t_policies T) DELETE db uid r = false) →
       snd (rls_delete T uid cond db) = db
       ∧ (db_valid db = true → fst (rls_delete T uid cond db) = Done 0%nat))
  ∧ (∀ uid now cond set db r,
       r ∈ t_rows T db →
       security_qual (t_policies T) UPDATE db uid r = false →
       r ∈ t_rows T (snd (rls_update T uid now cond set db)))
  ∧ (∀ uid cond db r,
       r ∈ t_rows T db →
       security_qual (t_policies T) DELETE db uid r = false →
       r ∈ t_rows T (snd (rls_delete T uid cond db))).

(** Every team of an answer is a row of [teams] that the [SELECT]
    policy lets the user read: the REST layer runs as the user. *)
Definition readable (user : option uuid) (db : DB) (rows : list Teams.row) : Prop :=
  ∀ t, t ∈ rows → t ∈ rls_select teams_table user (λ _, true) db.

(** The rows of a team, by its id. *)
Definition members_of (team_id : uuid) (db : DB) : list TeamMembers.row :=
  List.filter (λ m, bool_decide (TeamMembers.team_id m = team_id)) (team_members db).

Definition tasks_of (team_id : uuid) (db : DB) : list Tasks.row :=
  List.filter (λ k, bool_decide (Tasks.team_id k = team_id)) (tasks db).

(** ** Sample states

    Three accounts and the team "Eng", used to run the definitions. *)

Definition alice : Users.row :=
  {| Users.id := 1%N; Users.email := Some "alice@example.org";
     Users.raw_user_meta_data := None |}.

Definition bob : Users.row :=
  {| Users.id := 2%N; Users.email := Some "bob@example.org";
     Users.raw_user_meta_data := Some {[ "username" := JString "bobby" ]} |}.

Definition carol : Users.row :=
  {| Users.id := 3%N; Users.email := Some "carol@example.org";
     Users.raw_user_meta_data := None |}.

Definition eng : Teams.row :=
  {| Teams.id := 10%N; Teams.name := "Eng"; Teams.description := None;
     Teams.owner_id := 1%N; Teams.created_at := 100%Z; Teams.updated_at := 100%Z |}.

Definition bob_in_eng : TeamMembers.row :=
  {| TeamMembers.id := 11%N; TeamMembers.team_id := 10%N;
     TeamMembers.user_id := 2%N; TeamMembers.role := "member";
     TeamMembers.invited_by := None; TeamMembers.joined_at := 110%Z |}.

Definition new_task (id created_by : uuid) : Tasks.row :=
  {| Tasks.id := id; Tasks.team_id := 10%N; Tasks.title := "Write the report";
     Tasks.description := None; Tasks.status := "todo"; Tasks.priority := "medium";
     Tasks.due_date := None; Tasks.assigned_to := None;
     Tasks.created_by := created_by;
     Tasks.created_at := 120%Z; Tasks.updated_at := 120%Z |}.

(** The three accounts as their creation leaves them. *)
Definition db_accounts : DB :=
  snd (create_account carol 103%N 30%Z
    (snd (create_account bob 102%N 20%Z
      (snd (create_account alice 101%N 10%Z empty_db))))).

Definition profile_of (id user_id : uuid) (username : text) (at_ : timestamptz)
    : Profiles.row :=
  {| Profiles.id := id; Profiles.user_id := user_id; Profiles.username := username;
     Profiles.created_at := at_; Profiles.updated_at := at_ |}.

(** Alice owns "Eng" and holds no Membership row in it; Bob is a member
    and created a task; Carol is neither. *)
Definition db_eng : DB :=
  {| auth_users := [alice; bob; carol];
     profiles := [profile_of 101%N 1%N "alice" 10%Z;
                  profile_of 102%N 2%N "bobby" 20%Z;
                  profile_of 103%N 3%N "carol" 30%Z];
     teams := [eng];
     team_members := [bob_in_eng];
     tasks := [new_task 20%N 2%N] |}.

(** A second team of Alice's, "Ops", inserted with an [updated_at] of the
    caller's choosing, and a later request renaming it that again supplies
    its own [updated_at]. *)
Definition ops : Teams.row :=
  {| Teams.id := 13%N; Teams.name := "Ops"; Teams.description := None;
     Teams.owner_id := 1%N; Teams.created_at := 150%Z; Teams.updated_at := 1000%Z |}.

Definition db_ops : DB := snd (rls_insert teams_table (Some 1%N) true ops db_eng).

Definition is_ops (t : Teams.row) : bool := bool_decide (Teams.id t = 13%N).

Definition rename_ops (t : Teams.row) : Teams.row :=
  {| Teams.id := Teams.id t; Teams.name := "Operations";
     Teams.description := Teams.description t; Teams.owner_id := Teams.owner_id t;
     Teams.created_at := Teams.created_at t; Teams.updated_at := 5000%Z |}.

(** A request moving a task to "in_progress". *)
Definition start_task (k : Tasks.row) : Tasks.row :=
  {| Tasks.id := Tasks.id k; Tasks.team_id := Tasks.team_id k;
     Tasks.title := Tasks.title k; Tasks.description := Tasks.description k;
     Tasks.status := "in_progress"; Tasks.priority := Tasks.priority k;
     Tasks.due_date := Tasks.due_date k; Tasks.assigned_to := Tasks.assigned_to k;
     Tasks.created_by := Tasks.created_by k;
     Tasks.created_at := Tasks.created_at k; Tasks.updated_at := Tasks.updated_at k |}.

(** A text of one no-break space, U+00A0. *)
Definition no_break_space : string :=
  String (ascii_of_nat 194) (String (ascii_of_nat 160) EmptyString).

(** An account that signs up with an empty ['username'] in its metadata. *)
Definition dave : Users.row :=
  {| Users.id := 4%N; Users.email := Some "dave@example.org";
     Users.raw_user_meta_data := Some {[ "username" := JString "" ]} |}.

(** * Properties *)

(** ** Three-valued logic and the predicate functions *)

Lemma holds_sql_eq_l {A} `{EqDecision A} (a : option A) (x : A) :
  holds (sql_eq a (Some x)) = bool_decide (a = Some x).
Proof.
  destruct a as [y|]; unfold sql_eq, holds;
    repeat case_bool_decide; congruence.
Qed.

Lemma holds_sql_eq_r {A} `{EqDecision A} (a : option A) (x : A) :
  holds (sql_eq (Some x) a) = bool_decide (Some x = a).
Proof.
  destruct a as [y|]; unfold sql_eq, holds;
    repeat case_bool_decide; congruence.
Qed.

Lemma holds_sql_and (a b : option bool) :
  holds (sql_and a b) = holds a && holds b.
Proof. by destruct a as [[]|], b as [[]|]. Qed.

Lemma is_team_member_true db actor team_id :
  is_team_member db actor (Some team_id) = true ↔ has_membership db actor team_id.
Proof.
  unfold is_team_member, has_membership. rewrite existsb_exists.
  split.
  - intros (m & Hin & Hm). exists m.
    rewrite holds_sql_and, !holds_sql_eq_r, andb_true_iff,
      !bool_decide_eq_true in Hm.
    destruct Hm as [Hu Ht]. apply list_elem_of_In in Hin.
    split_and!; [done | done | congruence].
  - intros (m & Hin & Hu & Ht). exists m.
    apply list_elem_of_In in Hin. split; [done|].
    rewrite holds_sql_and, !holds_sql_eq_r, andb_true_iff, !bool_decide_eq_true.
    split; congruence.
Qed.

Lemma is_team_owner_true db actor team_id :
  is_team_owner db actor (Some team_id) = true ↔ owns db actor team_id.
Proof.
  unfold is_team_owner, owns. rewrite existsb_exists.
  split.
  - intros (t & Hin & Ht). exists t.
    rewrite holds_sql_and, !holds_sql_eq_r, andb_true_iff,
      !bool_decide_eq_true in Ht.
    destruct Ht as [Ho Hi]. apply list_elem_of_In in Hin.
    split_and!; [done | congruence | done].
  - intros (t & Hin & Hi & Ho). exists t.
    apply list_elem_of_In in Hin. split; [done|].
    rewrite holds_sql_and, !holds_sql_eq_r, andb_true_iff, !bool_decide_eq_true.
    split; congruence.
Qed.

(** A NULL argument matches no row. *)
Lemma is_team_member_null_team db actor : is_team_member db actor None = false.
Proof.
  unfold is_team_member. induction (team_members db) as [|m l IH]; [done|].
  cbn [existsb]. rewrite IH, holds_sql_and. cbn. by rewrite andb_false_r.
Qed.

(** ** What each command's policies amount to *)

Lemma tasks_select_qual db uid k :
  security_qual tasks_policies SELECT db uid k
  = is_team_member db uid (Some (Tasks.team_id k)).
Proof. unfold security_qual. simpl. by destruct (is_team_member _ _ _). Qed.

Lemma tasks_update_qual db uid k :
  security_qual tasks_policies UPDATE db uid k
  = is_team_member db uid (Some (Tasks.team_id k)).
Proof. unfold security_qual. simpl. by destruct (is_team_member _ _ _). Qed.

Lemma tasks_update_check db uid k :
  with_check tasks_policies UPDATE db uid k
  = is_team_member db uid (Some (Tasks.team_id k)).
Proof. unfold with_check. simpl. by destruct (is_team_member _ _ _). Qed.

Lemma tasks_delete_qual db uid k :
  security_qual tasks_policies DELETE db uid k
  = is_team_owner db uid (Some (Tasks.team_id k)).
Proof. unfold security_qual. simpl. by destruct (is_team_owner _ _ _). Qed.

Lemma tasks_insert_check db uid k :
  with_check tasks_policies INSERT db uid k
  = is_team_member db uid (Some (Tasks.team_id k))
    && bool_decide (uid = Some (Tasks.created_by k)).
Proof.
  unfold with_check. simpl. rewrite <- holds_sql_eq_l.
  by destruct (is_team_member _ _ _), (sql_eq _ _) as [[]|].
Qed.

Lemma team_members_insert_check db uid m :
  with_check team_members_policies INSERT db uid m
  = is_team_owner db uid (Some (TeamMembers.team_id m))
    || bool_decide (uid = Some (TeamMembers.user_id m)).
Proof.
  unfold with_check. simpl. rewrite <- holds_sql_eq_l.
  by destruct (is_team_owner _ _ _), (sql_eq _ _) as [[]|].
Qed.

Lemma team_members_select_qual db uid m :
  security_qual team_members_policies SELECT db uid m
  = is_team_member db uid (Some (TeamMembers.team_id m))
    || is_team_owner db uid (Some (TeamMembers.team_id m)).
Proof.
  unfold security_qual. simpl.
  by destruct (is_team_member _ _ _), (is_team_owner _ _ _).
Qed.

Lemma team_members_owner_qual db uid m c :
  c = UPDATE ∨ c = DELETE →
  security_qual team_members_policies c db uid m
  = is_team_owner db uid (Some (TeamMembers.team_id m)).
Proof.
  intros [-> | ->]; unfold security_qual; simpl; by destruct (is_team_owner _ _ _).
Qed.

Lemma team_members_update_check db uid m :
  with_check team_members_policies UPDATE db uid m
  = is_team_owner db uid (Some (TeamMembers.team_id m)).
Proof. unfold with_check. simpl. by destruct (is_team_owner _ _ _). Qed.

Lemma teams_select_qual db uid t :
  security_qual teams_policies SELECT db uid t
  = bool_decide (uid = Some (Teams.owner_id t))
    || is_team_member db uid (Some (Teams.id t)).
Proof.
  unfold security_qual. simpl. rewrite <- holds_sql_eq_l.
  by destruct (is_team_member _ _ _), (sql_eq _ _) as [[]|].
Qed.

Lemma teams_owner_qual db uid t c :
  c = UPDATE ∨ c = DELETE →
  security_qual teams_policies c db uid t
  = bool_decide (uid = Some (Teams.owner_id t)).
Proof.
  intros [-> | ->]; unfold security_qual; simpl; rewrite <- holds_sql_eq_l;
    by destruct (sql_eq _ _) as [[]|].
Qed.

Lemma teams_insert_check db uid t :
  with_check teams_policies INSERT db uid t
  = bool_decide (uid = Some (Teams.owner_id t)).
Proof.
  unfold with_check. simpl. rewrite <- holds_sql_eq_l.
  by destruct (sql_eq _ _) as [[]|].
Qed.

(** ** Statements that succeed, statements that are denied *)

Section Denied.
Context {R : Type} (T : table R).

Lemma rls_insert_denied uid returning NEW db :
  with_check (t_policies T) INSERT db uid NEW = false →
  rls_insert T uid returning NEW db = (PermissionDenied, db).
Proof. intros H. unfold rls_insert. by rewrite H. Qed.

Lemma rls_insert_not_denied uid NEW db :
  with_check (t_policies T) INSERT db uid NEW = true →
  fst (rls_insert T uid false NEW db) ≠ PermissionDenied.
Proof.
  intros H. unfold rls_insert. rewrite H. simpl.
  by destruct (db_valid _).
Qed.
End Denied.

Lemma rls_select_elem {R} (T : table R) uid cond db r :
  r ∈ rls_select T uid cond db
  ↔ r ∈ t_rows T db ∧ cond r = true
    ∧ security_qual (t_policies T) SELECT db uid r = true.
Proof.
  unfold rls_select. rewrite !list_elem_of_In, filter_In, andb_true_iff. tauto.
Qed.

Lemma rls_insert_done {R} (T : table R) uid returning NEW db rows db' :
  rls_insert T uid returning NEW db = (Done rows, db') →
  db' = t_put T (t_rows T db ++ [NEW]) db
  ∧ db_valid db' = true
  ∧ rows = (if returning then [NEW] else [])
  ∧ with_check (t_policies T) INSERT db uid NEW = true.
Proof.
  unfold rls_insert.
  destruct (with_check _ _ _ _ _) eqn:Hc; [|discriminate].
  destruct (negb returning || _); [|discriminate].
  cbn [andb]. destruct (db_valid _) eqn:Hv; [|discriminate].
  intros [= <- <-]. done.
Qed.

(** No statement leaves a valid database invalid: a state reached
    from [empty_db] by requests satisfies the declared constraints. *)
Lemma statements_preserve_validity {R} (T : table R) db :
  db_valid db = true →
  (∀ uid returning NEW, db_valid (snd (rls_insert T uid returning NEW db)) = true)
  ∧ (∀ uid now cond set, db_valid (snd (rls_update T uid now cond set db)) = true)
  ∧ (∀ uid cond, db_valid (snd (rls_delete T uid cond db)) = true).
Proof.
  intros Hv. split_and!.
  - intros uid returning NEW. unfold rls_insert.
    destruct (_ && _); [|exact Hv].
    destruct (db_valid (t_put _ _ _)) eqn:Hv'; [exact Hv' | exact Hv].
  - intros uid now cond set. unfold rls_update.
    destruct (forallb _ _); [|exact Hv].
    destruct (db_valid (t_put _ _ _)) eqn:Hv'; [exact Hv' | exact Hv].
  - intros uid cond. unfold rls_delete.
    destruct (db_valid (t_on_delete _ _ _)) eqn:Hv'; [exact Hv' | exact Hv].
Qed.

Lemma pages_preserve_validity db :
  db_valid db = true →
  (∀ NEW fresh now, db_valid (snd (create_account NEW fresh now db)) = true)
  ∧ (∀ user formData fresh_team fresh_member now1 now2,
       db_valid (snd (handleSubmit user formData fresh_team fresh_member now1 now2 db))
       = true).
Proof.
  intros Hv. split.
  - intros NEW fresh now. unfold create_account, handle_new_user.
    match goal with |- context [if db_valid ?d then _ else _] =>
      destruct (db_valid d); [|exact Hv]
    end.
    destruct (new_user_username NEW); [|exact Hv].
    destruct (db_valid (t_put _ _ _)) eqn:Hv'; [exact Hv' | exact Hv].
  - intros user formData fresh_team fresh_member now1 now2. unfold handleSubmit.
    destruct user as [u|]; [|exact Hv]. case_bool_decide; [exact Hv|].
    destruct (statements_preserve_validity teams_table db Hv) as (Hins & _).
    match goal with |- context [rls_insert teams_table ?a ?b ?c db] =>
      specialize (Hins a b c); destruct (rls_insert teams_table a b c db) as [o db1]
    end.
    cbn [snd] in Hins.
    destruct o as [[|teamData [|]]| |]; try exact Hins.
    destruct (statements_preserve_validity team_members_table db1 Hins) as (Hins' & _).
    match goal with |- context [rls_insert team_members_table ?a ?b ?c db1] =>
      specialize (Hins' a b c); destruct (rls_insert team_members_table a b c db1) as [o db2]
    end.
    cbn [snd] in Hins'. destruct o; exact Hins'.
Qed.

Lemma filter_none {A} (f : A → bool) (l : list A) :
  (∀ x, In x l → f x = false) → List.filter f l = [].
Proof.
  induction l as [|x l IH]; [done|]. intros Hf. cbn [List.filter].
  rewrite (Hf x) by (by left). apply IH. intros y Hy. apply Hf. by right.
Qed.

Lemma filter_keep_all {A} (f : A → bool) (l : list A) :
  (∀ x, In x l → f x = true) → List.filter f l = l.
Proof.
  induction l as [|x l IH]; [done|]. intros Hf. cbn [List.filter].
  rewrite (Hf x) by (by left). f_equal. apply IH. intros y Hy. apply Hf. by right.
Qed.

Section Clean.
Context {R : Type} (T : table R).
Hypothesis put_rows : ∀ db, t_put T (t_rows T db) db = db.
Hypothesis rows_put : ∀ rows db, t_rows T (t_put T rows db) = rows.
Hypothesis on_delete_nil : ∀ db, t_on_delete T [] db = db.
Hypothesis rows_on_delete : ∀ gone db, t_rows T (t_on_delete T gone db) = t_rows T db.

Lemma none_targeted c uid cond db :
  (∀ r, r ∈ t_rows T db → cond r = true →
        security_qual (t_policies T) c db uid r = false) →
  ∀ r, In r (t_rows T db) → targeted T c uid cond db r = false.
Proof.
  intros Hdenied r Hin. unfold targeted.
  destruct (cond r) eqn:Hc; [|done].
  rewrite (Hdenied r) by (done || by apply list_elem_of_In).
  by rewrite andb_false_r.
Qed.

Lemma rls_update_none uid now cond set db :
  (∀ r, In r (t_rows T db) → targeted T UPDATE uid cond db r = false) →
  snd (rls_update T uid now cond set db) = db
  ∧ (db_valid db = true → fst (rls_update T uid now cond set db) = Done 0%nat).
Proof.
  intros Hnone. unfold rls_update.
  assert (Hall : forallb
    (λ r, negb (targeted T UPDATE uid cond db r)
          || (with_check (t_policies T) UPDATE db uid (t_before_update T now (set r))
              && security_qual (t_policies T) SELECT db uid (t_before_update T now (set r))))
    (t_rows T db) = true).
  { apply forallb_forall. intros r Hin. by rewrite (Hnone r Hin). }
  rewrite Hall.
  assert (Hmap : map (λ r, if targeted T UPDATE uid cond db r
                           then t_before_update T now (set r) else r)
                     (t_rows T db) = t_rows T db).
  { rewrite <- (map_id (t_rows T db)) at 2. apply map_ext_in.
    intros r Hin. by rewrite (Hnone r Hin). }
  assert (Hfilter : List.filter (targeted T UPDATE uid cond db) (t_rows T db) = [])
    by (by apply filter_none).
  rewrite Hmap, put_rows, Hfilter.
  destruct (db_valid db); split; done.
Qed.

Lemma rls_delete_none uid cond db :
  (∀ r, In r (t_rows T db) → targeted T DELETE uid cond db r = false) →
  snd (rls_delete T uid cond db) = db
  ∧ (db_valid db = true → fst (rls_delete T uid cond db) = Done 0%nat).
Proof.
  intros Hnone. unfold rls_delete.
  assert (Hgone : List.filter (targeted T DELETE uid cond db) (t_rows T db) = [])
    by (by apply filter_none).
  assert (Hkept : List.filter (λ r, negb (targeted T DELETE uid cond db r)) (t_rows T db)
                  = t_rows T db).
  { apply filter_keep_all. intros r Hin. by rewrite (Hnone r Hin). }
  rewrite Hgone, Hkept, put_rows, on_delete_nil.
  destruct (db_valid db); split; done.
Qed.

Lemma rls_update_check_fails uid now cond set db r :
  r ∈ t_rows T db →
  targeted T UPDATE uid cond db r = true →
  with_check (t_policies T) UPDATE db uid (t_before_update T now (set r)) = false →
  rls_update T uid now cond set db = (PermissionDenied, db).
Proof.
  intros Hin Ht Hc. unfold rls_update.
  destruct (forallb _ _) eqn:Hall; [|done].
  rewrite forallb_forall in Hall. apply list_elem_of_In in Hin.
  specialize (Hall r Hin). by rewrite Ht, Hc in Hall.
Qed.

Lemma rls_update_keeps_denied uid now cond set db r :
  r ∈ t_rows T db →
  security_qual (t_policies T) UPDATE db uid r = false →
  r ∈ t_rows T (snd (rls_update T uid now cond set db)).
Proof.
  intros Hin Hq. unfold rls_update.
  destruct (forallb _ _); [|done]. destruct (db_valid _); [|done].
  cbn [snd]. rewrite rows_put. apply list_elem_of_fmap. exists r.
  split; [|done]. unfold targeted. by rewrite Hq, andb_false_r.
Qed.

Lemma rls_delete_keeps_denied uid cond db r :
  r ∈ t_rows T db →
  security_qual (t_policies T) DELETE db uid r = false →
  r ∈ t_rows T (snd (rls_delete T uid cond db)).
Proof.
  intros Hin Hq. unfold rls_delete.
  destruct (db_valid _); [|done].
  cbn [snd]. rewrite rows_on_delete, rows_put.
  apply list_elem_of_In, filter_In. split; [by apply list_elem_of_In|].
  unfold targeted. by rewrite Hq, andb_false_r.
Qed.

Lemma clean_denial : denial_is_clean T.
Proof.
  unfold denial_is_clean. split_and!.
  - apply rls_insert_denied.
  - intros uid cond db Hdenied. unfold rls_select.
    apply filter_none. intros r Hin.
    destruct (cond r) eqn:Hc; [|done].
    rewrite (Hdenied r) by (done || by apply list_elem_of_In). done.
  - intros uid now cond set db Hdenied.
    apply rls_update_none. by apply none_targeted.
  - apply rls_update_check_fails.
  - intros uid cond db Hdenied.
    apply rls_delete_none. by apply none_targeted.
  - apply rls_update_keeps_denied.
  - apply rls_delete_keeps_denied.
Qed.
End Clean.


Lemma teams_on_delete_nil db : teams_on_delete [] db = db.
Proof.
  unfold teams_on_delete. destruct db as [us ps ts ms ks]. cbn.
  f_equal; by apply filter_keep_all.
Qed.

(** ** Declared constraints *)

Lemma unique_snoc {A K} `{EqDecision K} (key : A → K) (l : list A) (x : A) :
  unique key l = true → key x ∉ map key l → unique key (l ++ [x]) = true.
Proof.
  unfold unique. rewrite !bool_decide_eq_true, map_app. intros Hl Hx.
  apply NoDup_app. split_and!; [done | | apply NoDup_singleton].
  intros k Hk Hk'. apply list_elem_of_singleton in Hk'. by subst k.
Qed.

(** What it takes for one more Membership row to satisfy the declared
    constraints. *)
Lemma db_valid_add_member db (m : TeamMembers.row) :
  db_valid db = true →
  TeamMembers.id m ∉ map TeamMembers.id (team_members db) →
  ¬ has_membership db (Some (TeamMembers.user_id m)) (TeamMembers.team_id m) →
  TeamMembers.team_id m ∈ team_ids db →
  TeamMembers.user_id m ∈ user_ids db →
  sql_in (TeamMembers.role m) ["owner"; "admin"; "member"] = true →
  references_opt (TeamMembers.invited_by m) (user_ids db) = true →
  db_valid (t_put team_members_table (team_members db ++ [m]) db) = true.
Proof.
  intros Hv Hid Hnew Ht Hu Hrole Hinv.
  unfold db_valid in *. rewrite !andb_true_iff in Hv.
  destruct Hv as ((((Husers & Hp) & Htm) & Hm) & Hk).
  rewrite !andb_true_iff. split_and!; try done.
  unfold team_members_valid in *. cbn [t_put team_members_table team_members] in *.
  rewrite !andb_true_iff in Hm. destruct Hm as ((Hmid & Hmpair) & Hall).
  rewrite !andb_true_iff. split_and!.
  - by apply unique_snoc.
  - apply unique_snoc; [done|].
    intros Hdup. apply list_elem_of_fmap in Hdup as (m' & Heq & Hin).
    apply Hnew. exists m'. inversion Heq. split_and!; [done | congruence | done].
  - rewrite forallb_app. apply andb_true_iff. split; [done|].
    cbn [forallb]. rewrite !andb_true_iff. unfold references.
    split_and!; try done; by apply bool_decide_eq_true_2.
Qed.

Lemma unique_snoc_inv {A K} `{EqDecision K} (key : A → K) (l : list A) (x : A) :
  unique key (l ++ [x]) = true → ∀ y, y ∈ l → key y ≠ key x.
Proof.
  unfold unique. rewrite bool_decide_eq_true, map_app.
  intros Hnd y Hy Heq. apply NoDup_app in Hnd as (_ & Hdisj & _).
  apply (Hdisj (key y)).
  - apply list_elem_of_fmap. by exists y.
  - rewrite Heq. apply list_elem_of_here.
Qed.

(** ** The sample state

    [db_eng] is what these requests leave: the three sign-ups, Alice
    inserting "Eng" as its owner, Bob inserting his own Membership row, Bob
    filing a task. *)
Lemma db_eng_reachable :
  rls_insert tasks_table (Some 2%N) false (new_task 20%N 2%N)
    (snd (rls_insert team_members_table (Some 2%N) false bob_in_eng
       (snd (rls_insert teams_table (Some 1%N) true eng db_accounts))))
  = (Done [], db_eng)
  ∧ db_valid db_eng = true.
Proof. by vm_compute. Qed.

(** ** Ownership and membership in the policies *)

(** C1, as the specification states it, fails: Alice owns "Eng" without a
    Membership row, and the task select, insert and update policies all
    evaluate to false for her on the tasks of "Eng". *)
Lemma owner_without_membership_denied_on_tasks :
  db_valid db_eng = true
  ∧ is_team_owner db_eng (Some 1%N) (Some 10%N) = true
  ∧ is_team_member db_eng (Some 1%N) (Some 10%N) = false
  ∧ security_qual tasks_policies SELECT db_eng (Some 1%N) (new_task 20%N 2%N) = false
  ∧ with_check tasks_policies INSERT db_eng (Some 1%N) (new_task 21%N 1%N) = false
  ∧ security_qual tasks_policies UPDATE db_eng (Some 1%N) (new_task 20%N 2%N) = false
  ∧ rls_select tasks_table (Some 1%N) (λ _, true) db_eng = [].
Proof. by vm_compute. Qed.

(** C1 (amended): the owner of a team is authorized without a Membership
    row by the policies that test ownership, which are all the team
    policies, all the membership policies and the task delete policy.  The
    task select, insert and update policies test membership only: for the
    owner they evaluate to true exactly when the owner also holds a
    Membership row in the team (insert requiring in addition that the
    creator is the actor). *)
Theorem owner_authorization_by_policy db actor (t : Teams.row) :
  t ∈ teams db →
  actor = Some (Teams.owner_id t) →
  (∀ c, c ∈ [SELECT; UPDATE; DELETE] →
        security_qual teams_policies c db actor t = true)
  ∧ with_check teams_policies INSERT db actor t = true
  ∧ (∀ m, TeamMembers.team_id m = Teams.id t →
          (∀ c, c ∈ [SELECT; UPDATE; DELETE] →
                security_qual team_members_policies c db actor m = true)
          ∧ with_check team_members_policies INSERT db actor m = true
          ∧ with_check team_members_policies UPDATE db actor m = true)
  ∧ (∀ k, Tasks.team_id k = Teams.id t →
          security_qual tasks_policies DELETE db actor k = true
          ∧ (security_qual tasks_policies SELECT db actor k = true
             ↔ has_membership db actor (Teams.id t))
          ∧ (security_qual tasks_policies UPDATE db actor k = true
             ↔ has_membership db actor (Teams.id t))
          ∧ (with_check tasks_policies INSERT db actor k = true
             ↔ has_membership db actor (Teams.id t)
               ∧ actor = Some (Tasks.created_by k))).
Proof.
  intros Hin ->.
  assert (Hown : is_team_owner db (Some (Teams.owner_id t)) (Some (Teams.id t)) = true).
  { apply is_team_owner_true. by exists t. }
  split_and!.
  - intros c Hc.
    assert (c = SELECT ∨ c = UPDATE ∨ c = DELETE) as [-> | Hc'].
    { rewrite !elem_of_cons, elem_of_nil in Hc. tauto. }
    + rewrite teams_select_qual. by rewrite bool_decide_eq_true_2.
    + rewrite teams_owner_qual by done. by rewrite bool_decide_eq_true_2.
  - rewrite teams_insert_check. by rewrite bool_decide_eq_true_2.
  - intros m Hm. split_and!.
    + intros c Hc.
      assert (c = SELECT ∨ c = UPDATE ∨ c = DELETE) as [-> | Hc'].
      { rewrite !elem_of_cons, elem_of_nil in Hc. tauto. }
      * rewrite team_members_select_qual, Hm, Hown. apply orb_true_r.
      * rewrite team_members_owner_qual by done. by rewrite Hm.
    + rewrite team_members_insert_check, Hm, Hown. done.
    + rewrite team_members_update_check, Hm. done.
  - intros k Hk. split_and!.
    + rewrite tasks_delete_qual, Hk. done.
    + rewrite tasks_select_qual, Hk. apply is_team_member_true.
    + rewrite tasks_update_qual, Hk. apply is_team_member_true.
    + rewrite tasks_insert_check, Hk, andb_true_iff, bool_decide_eq_true.
      by rewrite is_team_member_true.
Qed.

Lemma owner_authorization_by_policy_witness :
  security_qual tasks_policies DELETE db_eng (Some 1%N) (new_task 20%N 2%N) = true
  ∧ (security_qual tasks_policies SELECT db_eng (Some 1%N) (new_task 20%N 2%N) = true
     ↔ has_membership db_eng (Some 1%N) 10%N).
Proof.
  destruct (owner_authorization_by_policy db_eng (Some 1%N) eng) as (_ & _ & _ & H).
  - apply list_elem_of_here.
  - reflexivity.
  - destruct (H (new_task 20%N 2%N)) as (Hd & Hs & _); [reflexivity|].
    exact (conj Hd Hs).
Defined.

(** C2: [is_team_member] returns true exactly when [team_members] holds a
    row with that [user_id] and [team_id], and run as a statement it hands
    back the database unchanged. *)
Theorem is_team_member_iff_membership_row db (actor : option uuid) (team_id : uuid) :
  (is_team_member db actor (Some team_id) = true
   ↔ ∃ m, m ∈ team_members db
          ∧ Some (TeamMembers.user_id m) = actor
          ∧ TeamMembers.team_id m = team_id)
  ∧ (is_team_member db actor (Some team_id) = false
     ↔ ¬ ∃ m, m ∈ team_members db
              ∧ Some (TeamMembers.user_id m) = actor
              ∧ TeamMembers.team_id m = team_id)
  ∧ snd (call_stable (λ db, is_team_member db actor (Some team_id)) db) = db.
Proof.
  pose proof (is_team_member_true db actor team_id) as H.
  unfold has_membership in H. split_and!; [done | | done].
  rewrite <- H. by destruct (is_team_member _ _ _).
Qed.

(** C3: a Membership row for somebody else, inserted by an actor who does
    not own the team, fails the insert check of [team_members]; the
    statement is denied and the database, its [team_members] included, is
    as before. *)
Theorem membership_insert_for_other_rejected db actor returning (NEW : TeamMembers.row) :
  actor ≠ Some (TeamMembers.user_id NEW) →
  ¬ owns db actor (TeamMembers.team_id NEW) →
  with_check team_members_policies INSERT db actor NEW = false
  ∧ rls_insert team_members_table actor returning NEW db = (PermissionDenied, db)
  ∧ team_members (snd (rls_insert team_members_table actor returning NEW db))
    = team_members db.
Proof.
  intros Hother Hnot.
  assert (Hc : with_check team_members_policies INSERT db actor NEW = false).
  { rewrite team_members_insert_check, orb_false_iff. split.
    - rewrite <- not_true_iff_false, is_team_owner_true. done.
    - by apply bool_decide_eq_false_2. }
  pose proof (rls_insert_denied team_members_table actor returning NEW db Hc) as Hd.
  split_and!; [done | done | by rewrite Hd].
Qed.

(** Carol, who does not own "Eng", tries to add Bob's row a second time
    under a new id. *)
Lemma membership_insert_for_other_rejected_witness :
  rls_insert team_members_table (Some 3%N) false bob_in_eng db_eng
  = (PermissionDenied, db_eng).
Proof.
  refine (proj1 (proj2
    (membership_insert_for_other_rejected db_eng (Some 3%N) false bob_in_eng _ _))).
  - discriminate.
  - intros (t & Hin & _ & Ho). apply list_elem_of_singleton in Hin. subst t.
    discriminate Ho.
Defined.

(** ** Tasks *)

(** C4: the insert check of [tasks] passes exactly when the actor holds a
    Membership row in the new task's team and is its [created_by]; a task
    whose [created_by] is somebody else is denied and nothing is written. *)
Theorem task_insert_policy_iff db actor (NEW : Tasks.row) :
  (with_check tasks_policies INSERT db actor NEW = true
   ↔ has_membership db actor (Tasks.team_id NEW)
     ∧ actor = Some (Tasks.created_by NEW))
  ∧ (actor ≠ Some (Tasks.created_by NEW) →
     ∀ returning,
       rls_insert tasks_table actor returning NEW db = (PermissionDenied, db)).
Proof.
  split.
  - rewrite tasks_insert_check, andb_true_iff, bool_decide_eq_true.
    by rewrite is_team_member_true.
  - intros Hforged returning. apply rls_insert_denied. simpl.
    rewrite tasks_insert_check, andb_false_iff. right.
    by apply bool_decide_eq_false_2.
Qed.

(** Bob, a member of "Eng", files a task as if Carol had created it. *)
Lemma task_insert_policy_iff_witness :
  rls_insert tasks_table (Some 2%N) false (new_task 21%N 3%N) db_eng
  = (PermissionDenied, db_eng).
Proof.
  refine (proj2 (task_insert_policy_iff db_eng (Some 2%N) (new_task 21%N 3%N)) _ false).
  discriminate.
Defined.

(** An update of tasks that leaves each task in its team is never
    refused: a row passes the check as it becomes if it passed the policy
    as it was. *)
Lemma tasks_update_not_denied db actor now cond set :
  (∀ r, Tasks.team_id (set r) = Tasks.team_id r) →
  fst (rls_update tasks_table actor now cond set db) ≠ PermissionDenied.
Proof.
  intros Hteam. unfold rls_update.
  assert (Hall : forallb
    (λ r, negb (targeted tasks_table UPDATE actor cond db r)
          || (with_check (t_policies tasks_table) UPDATE db actor
                (t_before_update tasks_table now (set r))
              && security_qual (t_policies tasks_table) SELECT db actor
                   (t_before_update tasks_table now (set r))))
    (t_rows tasks_table db) = true).
  { apply forallb_forall. intros r _.
    destruct (targeted tasks_table UPDATE actor cond db r) eqn:Ht; [|done].
    unfold targeted in Ht. rewrite !andb_true_iff in Ht. destruct Ht as [_ Hq].
    cbn [t_policies tasks_table] in *.
    rewrite tasks_update_qual in Hq.
    rewrite tasks_update_check, tasks_select_qual.
    change (Tasks.team_id (t_before_update tasks_table now (set r)))
      with (Tasks.team_id (set r)).
    by rewrite Hteam, Hq. }
  rewrite Hall. by destruct (db_valid _).
Qed.

(** C5: the update policy of [tasks] lets the actor through, on the row as
    it is and on the row as it becomes, exactly when the actor holds a
    Membership row in that row's team; the delete policy exactly when the
    actor owns that team.  A member who is not the owner passes the first
    and fails the second: an update of theirs addresses the task and is
    not refused, and the task survives any deletion of theirs. *)
Theorem task_update_delete_policy db actor (k : Tasks.row) :
  (security_qual tasks_policies UPDATE db actor k = true
   ↔ has_membership db actor (Tasks.team_id k))
  ∧ (with_check tasks_policies UPDATE db actor k = true
     ↔ has_membership db actor (Tasks.team_id k))
  ∧ (security_qual tasks_policies DELETE db actor k = true
     ↔ owns db actor (Tasks.team_id k))
  ∧ (has_membership db actor (Tasks.team_id k) →
     ¬ owns db actor (Tasks.team_id k) →
     security_qual tasks_policies UPDATE db actor k = true
     ∧ with_check tasks_policies UPDATE db actor k = true
     ∧ security_qual tasks_policies DELETE db actor k = false
     ∧ (∀ now cond set,
          cond k = true →
          (∀ r, Tasks.team_id (set r) = Tasks.team_id r) →
          targeted tasks_table UPDATE actor cond db k = true
          ∧ fst (rls_update tasks_table actor now cond set db) ≠ PermissionDenied)
     ∧ (∀ cond,
          k ∈ tasks db →
          k ∈ tasks (snd (rls_delete tasks_table actor cond db)))).
Proof.
  rewrite tasks_update_qual, tasks_update_check, tasks_delete_qual.
  rewrite <- is_team_member_true, <- is_team_owner_true.
  split_and!; [done | done | done |].
  intros Hm Ho. apply not_true_is_false in Ho.
  split_and!; [done | done | done | |].
  - intros now cond set Hcond Hteam. split.
    + unfold targeted. cbn [t_policies tasks_table].
      by rewrite Hcond, tasks_select_qual, tasks_update_qual, Hm.
    + by apply tasks_update_not_denied.
  - intros cond Hin.
    apply (rls_delete_keeps_denied tasks_table); [done | done | done |].
    cbn [t_policies tasks_table]. by rewrite tasks_delete_qual.
Qed.

(** Bob is a member of "Eng" and does not own it: he moves its task to
    "in_progress", and cannot delete it. *)
Lemma task_update_delete_policy_witness :
  let is_20 := λ k, bool_decide (Tasks.id k = 20%N) in
  security_qual tasks_policies UPDATE db_eng (Some 2%N) (new_task 20%N 2%N) = true
  ∧ security_qual tasks_policies DELETE db_eng (Some 2%N) (new_task 20%N 2%N) = false
  ∧ fst (rls_update tasks_table (Some 2%N) 600%Z is_20 start_task db_eng)
    ≠ PermissionDenied
  ∧ new_task 20%N 2%N ∈ tasks (snd (rls_delete tasks_table (Some 2%N) is_20 db_eng))
  ∧ map (λ k, (Tasks.status k, Tasks.updated_at k))
        (tasks (snd (rls_update tasks_table (Some 2%N) 600%Z is_20 start_task db_eng)))
    = [("in_progress", 600%Z)].
Proof.
  intros is_20.
  destruct (proj2 (proj2 (proj2
    (task_update_delete_policy db_eng (Some 2%N) (new_task 20%N 2%N)))))
    as (Hu & _ & Hd & Hupd & Hdel).
  - exists bob_in_eng. split_and!; [apply list_elem_of_here | reflexivity | reflexivity].
  - intros (t & Hin & _ & Ho). apply list_elem_of_singleton in Hin. subst t.
    discriminate Ho.
  - split_and!; [exact Hu | exact Hd | | | reflexivity].
    + apply (Hupd 600%Z is_20 start_task); [reflexivity | by intros []].
    + apply Hdel, list_elem_of_here.
Defined.

(** ** The timestamp trigger *)

Section UpdatedAt.
Context {R : Type} `{HasUpdatedAt R} (T : table R).
Hypothesis get_set : ∀ t r, get_updated_at (set_updated_at t r) = t.
Hypothesis rows_put : ∀ rows db, t_rows T (t_put T rows db) = rows.
Hypothesis trigger :
  ∀ now r, t_before_update T now r = update_updated_at_column now r.

Lemma rls_update_done uid now cond set db n db' :
  rls_update T uid now cond set db = (Done n, db') →
  t_rows T db'
  = map (λ r, if targeted T UPDATE uid cond db r
              then update_updated_at_column now (set r) else r)
        (t_rows T db).
Proof.
  unfold rls_update. destruct (forallb _ _); [|discriminate].
  destruct (db_valid _); [|discriminate].
  intros [= _ <-]. rewrite rows_put.
  apply map_ext. intros r. by rewrite trigger.
Qed.

Lemma trigger_refreshes : refreshed_by_update T.
Proof.
  intros uid now cond set db n db' Hrun.
  rewrite (rls_update_done _ _ _ _ _ _ _ Hrun).
  induction (t_rows T db) as [|r rows IH]; [constructor|].
  cbn [map]. constructor; [|exact IH].
  destruct (targeted T UPDATE uid cond db r); [|done].
  unfold update_updated_at_column. rewrite get_set. done.
Qed.
End UpdatedAt.

(** C6, as the specification states it, fails in its last part.  Alice
    inserts "Ops" with [updated_at] 1000 of her choosing (the trigger does
    not fire on [INSERT]) and renames it at time 200, sending [updated_at]
    5000: the stored value becomes 200, the time of the update, which is
    below the previous 1000. *)
Lemma updated_at_can_decrease :
  rls_insert teams_table (Some 1%N) true ops db_eng = (Done [ops], db_ops)
  ∧ db_valid db_ops = true
  ∧ map Teams.updated_at (List.filter is_ops (teams db_ops)) = [1000%Z]
  ∧ fst (rls_update teams_table (Some 1%N) 200%Z is_ops rename_ops db_ops) = Done 1
  ∧ map Teams.updated_at
      (List.filter is_ops
         (teams (snd (rls_update teams_table (Some 1%N) 200%Z is_ops rename_ops db_ops))))
    = [200%Z]
  ∧ ¬ (1000 ≤ 200)%Z.
Proof. split_and!; [by vm_compute .. | lia]. Qed.

(** C6 (amended): every update applied to a Profile, Team or Task row
    stores as [updated_at] the time of the update, overriding the value the
    caller supplied; that value is greater than or equal to the row's
    previous [updated_at] whenever the previous one was not later than the
    time of the update. *)
Theorem update_sets_updated_at_to_now :
  refreshed_by_update profiles_table
  ∧ refreshed_by_update teams_table
  ∧ refreshed_by_update tasks_table.
Proof. split_and!; by apply trigger_refreshes. Qed.

(** The renaming of "Ops" at time 2000, after the [updated_at] it was
    inserted with. *)
Lemma update_sets_updated_at_to_now_witness :
  Forall2
    (λ old new,
       if targeted teams_table UPDATE (Some 1%N) is_ops db_ops old
       then new = update_updated_at_column 2000%Z (rename_ops old)
            ∧ Teams.updated_at new = 2000%Z
            ∧ ((Teams.updated_at old ≤ 2000)%Z →
               (Teams.updated_at old ≤ Teams.updated_at new)%Z)
       else new = old)
    (teams db_ops)
    (teams (snd (rls_update teams_table (Some 1%N) 2000%Z is_ops rename_ops db_ops))).
Proof.
  apply (proj1 (proj2 update_sets_updated_at_to_now)
           (Some 1%N) 2000%Z is_ops rename_ops db_ops 1).
  reflexivity.
Defined.

(** ** The bootstrap trigger *)

Lemma split_on_first d s :
  ∃ h fields, split_on d s = h :: fields ∧ part_before d s h.
Proof.
  induction s as [|c rest (h & fields & Hsplit & Hocc & Hpart)]; cbn [split_on].
  - exists EmptyString, []. repeat split. by left.
  - case_bool_decide as Hc.
    + subst c. exists EmptyString, (split_on d rest). repeat split.
      right. by exists rest.
    + rewrite Hsplit. exists (String c h), fields. repeat split.
      * cbn [occurs]. by rewrite bool_decide_eq_false_2, Hocc.
      * destruct Hpart as [-> | (rest' & ->)]; [by left|].
        right. by exists rest'.
Qed.

Lemma split_part_first d s : part_before d s (split_part s d 1).
Proof.
  destruct (split_on_first d s) as (h & fields & Hsplit & Hpart).
  unfold split_part. by rewrite Hsplit.
Qed.

(** C7, as the specification states it, fails on the handle being
    non-empty: Dave signs up with the metadata [{"username": ""}], the
    account is created and its Profile row carries the empty handle. *)
Lemma bootstrap_stores_empty_handle :
  new_user_username dave = Some ""
  ∧ fst (create_account dave 30%N 300%Z db_eng) = Done ()
  ∧ map Profiles.username (profiles db_eng) = ["alice"; "bobby"; "carol"]
  ∧ map Profiles.username (profiles (snd (create_account dave 30%N 300%Z db_eng)))
    = ["alice"; "bobby"; "carol"; ""].
Proof. by vm_compute. Qed.

(** C7 (amended): creating an account either fails and leaves the
    database as it was, or inserts exactly one Profile row, for the new
    account, whose handle no other Profile row carries; the handle is the
    ['username'] of the supplied metadata when there is one that is not
    null, and otherwise the part of the account's email address before its
    first ['@'].  The handle is stored as derived, empty when that text is
    empty. *)
Theorem create_account_inserts_profile NEW fresh now db :
  match create_account NEW fresh now db with
  | (Done _, db') =>
      ∃ handle,
        profiles db'
        = profiles db ++
            [{| Profiles.id := fresh; Profiles.user_id := Users.id NEW;
                Profiles.username := handle;
                Profiles.created_at := now; Profiles.updated_at := now |}]
        ∧ auth_users db' = auth_users db ++ [NEW]
        ∧ (∀ p, p ∈ profiles db →
                Profiles.username p ≠ handle ∧ Profiles.user_id p ≠ Users.id NEW)
        ∧ match json_get_text (Users.raw_user_meta_data NEW) "username" with
          | Some supplied => handle = supplied
          | None => ∃ e, Users.email NEW = Some e ∧ part_before "@" e handle
          end
  | (_, db') => db' = db
  end.
Proof.
  unfold create_account.
  destruct (db_valid _) eqn:Hv1; [|done].
  unfold handle_new_user.
  destruct (new_user_username NEW) as [handle|] eqn:Hname; [|done].
  destruct (db_valid (t_put _ _ _)) eqn:Hv2; [|done].
  exists handle. cbn [t_put profiles_table profiles auth_users].
  split_and!; [done | done | |].
  - intros p Hp.
    unfold db_valid, profiles_valid in Hv2.
    cbn [t_put profiles_table profiles auth_users] in Hv2.
    rewrite !andb_true_iff in Hv2.
    destruct Hv2 as ((((_ & ((_ & Huser) & Hhandle) & _) & _) & _) & _).
    split.
    + exact (unique_snoc_inv _ _ _ Hhandle p Hp).
    + exact (unique_snoc_inv _ _ _ Huser p Hp).
  - unfold new_user_username, coalesce in Hname.
    destruct (json_get_text _ _) as [supplied|]; [congruence|].
    destruct (Users.email NEW) as [e|]; [|discriminate].
    exists e. split; [done|].
    injection Hname as <-. apply split_part_first.
Qed.

(** Bob signs up with a ['username'] in his metadata, Alice without. *)
Lemma create_account_inserts_profile_witness :
  (∃ handle,
     profiles (snd (create_account bob 31%N 310%Z empty_db))
     = [{| Profiles.id := 31%N; Profiles.user_id := 2%N; Profiles.username := handle;
           Profiles.created_at := 310%Z; Profiles.updated_at := 310%Z |}]
     ∧ handle = "bobby")
  ∧ map Profiles.username (profiles (snd (create_account alice 32%N 320%Z empty_db)))
    = ["alice"].
Proof.
  split; [|reflexivity].
  pose proof (create_account_inserts_profile bob 31%N 310%Z empty_db) as H.
  vm_compute in H. destruct H as (handle & Hrows & _ & _ & Hh).
  exists handle. split; [|exact Hh].
  rewrite Hh. reflexivity.
Defined.

(** ** The dashboard's member count *)

(** A user who passes the [SELECT] policy of a team sees every Membership
    row of that team. *)
Lemma team_visible_members_visible db uid (t : Teams.row) (m : TeamMembers.row) :
  t ∈ teams db →
  security_qual teams_policies SELECT db uid t = true →
  TeamMembers.team_id m = Teams.id t →
  security_qual team_members_policies SELECT db uid m = true.
Proof.
  intros Hin Hq Hm. rewrite team_members_select_qual, Hm.
  rewrite teams_select_qual in Hq.
  apply orb_true_iff in Hq as [Ho | Hmem]; apply orb_true_iff; [right | by left].
  apply bool_decide_eq_true in Ho. apply is_team_owner_true. by exists t.
Qed.

Lemma visible_member_count db uid (t : Teams.row) :
  t ∈ teams db →
  security_qual teams_policies SELECT db uid t = true →
  rls_count team_members_table uid
    (λ m, bool_decide (TeamMembers.team_id m = Teams.id t)) db
  = length (List.filter (λ m, bool_decide (TeamMembers.team_id m = Teams.id t))
                        (team_members db)).
Proof.
  intros Hin Hq. unfold rls_count, rls_select. f_equal.
  apply filter_ext_in. intros m _.
  destruct (bool_decide _) eqn:Hm; [|done].
  apply bool_decide_eq_true in Hm. cbn [andb t_policies team_members_table].
  by apply (team_visible_members_visible db uid t m).
Qed.

Lemma fetchTeams_entry user teamsAnswer db shown entry :
  fetchTeams user teamsAnswer db = Some shown →
  entry ∈ shown →
  ∃ rows t,
    data teamsAnswer = Some rows ∧ t ∈ rows ∧ entry = team_with_counts user db t.
Proof.
  unfold fetchTeams. destruct user as [u|]; [|discriminate].
  destruct (error teamsAnswer); [discriminate|].
  intros [= <-] Hentry.
  apply list_elem_of_fmap in Hentry as (t & -> & Ht).
  destruct (data teamsAnswer) as [rows|]; [|by apply elem_of_nil in Ht].
  by exists rows, t.
Qed.

(** What a successful [handleSubmit] leaves behind. *)
Lemma handleSubmit_created user formData fresh_team fresh_member now1 now2 db team_id db' :
  handleSubmit user formData fresh_team fresh_member now1 now2 db
  = (TeamCreated team_id, db') →
  ∃ user_id new_team new_member,
    user = Some user_id
    ∧ team_id = fresh_team
    ∧ Teams.id new_team = fresh_team
    ∧ Teams.owner_id new_team = user_id
    ∧ new_member
      = {| TeamMembers.id := fresh_member; TeamMembers.team_id := fresh_team;
           TeamMembers.user_id := user_id; TeamMembers.role := "owner";
           TeamMembers.invited_by := None; TeamMembers.joined_at := now2 |}
    ∧ teams db' = teams db ++ [new_team]
    ∧ team_members db' = team_members db ++ [new_member]
    ∧ db_valid db' = true.
Proof.
  unfold handleSubmit. destruct user as [u|]; [|discriminate].
  case_bool_decide; [discriminate|].
  destruct (rls_insert teams_table _ _ _ _) as [[rows| |] db1] eqn:Hteam;
    try discriminate.
  apply rls_insert_done in Hteam as (-> & _ & -> & _).
  destruct (rls_insert team_members_table _ _ _ _) as [[rows| |] db2] eqn:Hmember;
    try discriminate.
  apply rls_insert_done in Hmember as (-> & Hv & _ & _).
  intros [= <- <-]. eexists u, _, _.
  split_and!; [done | done | | | reflexivity | done | done | done]; reflexivity.
Qed.

(** C8: the member count the dashboard shows for a team is the number of
    Membership rows recorded for that team, the owner's being counted only
    if there is one: this holds for every entry of the list [fetchTeams]
    builds, whatever the answer to its request for the teams, as long as
    the answer is made of teams the user may read; when that request
    fails no list is built.  A team created through the CreateTeam page
    can be read by its owner, and the count computed for it includes the
    owner's own Membership row, of role owner. *)
Theorem member_count_counts_membership_rows :
  (∀ user teamsAnswer db shown entry,
     (∀ rows, data teamsAnswer = Some rows → readable user db rows) →
     fetchTeams user teamsAnswer db = Some shown →
     entry ∈ shown →
     member_count entry
     = length (List.filter
                 (λ m, bool_decide (TeamMembers.team_id m = Teams.id (team entry)))
                 (team_members db)))
  ∧ (∀ user teamsAnswer db,
       is_Some (error teamsAnswer) → fetchTeams user teamsAnswer db = None)
  ∧ (∀ user formData fresh_team fresh_member now1 now2 db team_id db',
       handleSubmit user formData fresh_team fresh_member now1 now2 db
       = (TeamCreated team_id, db') →
       ∃ new_team own_row,
         new_team ∈ rls_select teams_table user (λ _, true) db'
         ∧ Teams.id new_team = team_id
         ∧ Some (Teams.owner_id new_team) = user
         ∧ Some (TeamMembers.user_id own_row) = user
         ∧ TeamMembers.role own_row = "owner"
         ∧ own_row ∈ List.filter
                       (λ m, bool_decide (TeamMembers.team_id m = team_id))
                       (team_members db')
         ∧ member_count (team_with_counts user db' new_team)
           = length (List.filter
                       (λ m, bool_decide (TeamMembers.team_id m = team_id))
                       (team_members db'))
         ∧ (1 ≤ member_count (team_with_counts user db' new_team))%nat
         ∧ (∀ rows shown,
              new_team ∈ rows →
              fetchTeams user {| data := Some rows; error := None |} db' = Some shown →
              team_with_counts user db' new_team ∈ shown)).
Proof.
  split_and!.
  - intros user teamsAnswer db shown entry Hreadable Hfetch Hentry.
    destruct (fetchTeams_entry _ _ _ _ _ Hfetch Hentry) as (rows & t & Hdata & Ht & ->).
    apply (Hreadable rows Hdata), rls_select_elem in Ht as (Hin & _ & Hq).
    cbn [team member_count team_with_counts]. by apply visible_member_count.
  - intros user teamsAnswer db [teamsError Herror]. unfold fetchTeams.
    destruct user; [|done]. by rewrite Herror.
  - intros user formData fresh_team fresh_member now1 now2 db team_id db' Hsubmit.
    apply handleSubmit_created in Hsubmit
      as (u & new_team & new_member & -> & -> & Hid & Howner & Hmember & Hteams & Hrows & _).
    assert (Hteam_in : new_team ∈ teams db').
    { rewrite Hteams. apply elem_of_app. right. apply list_elem_of_here. }
    assert (Hmember_in : new_member ∈ team_members db').
    { rewrite Hrows. apply elem_of_app. right. apply list_elem_of_here. }
    assert (Hq : security_qual teams_policies SELECT db' (Some u) new_team = true).
    { rewrite teams_select_qual, Howner. by rewrite bool_decide_eq_true_2. }
    assert (Hcounted : new_member ∈ List.filter
              (λ m, bool_decide (TeamMembers.team_id m = fresh_team)) (team_members db')).
    { apply list_elem_of_In, filter_In. split; [by apply list_elem_of_In|].
      apply bool_decide_eq_true_2. by rewrite Hmember. }
    assert (Hn : member_count (team_with_counts (Some u) db' new_team)
                 = length (List.filter
                     (λ m, bool_decide (TeamMembers.team_id m = fresh_team))
                     (team_members db'))).
    { cbn [member_count team_with_counts].
      rewrite (visible_member_count db' (Some u) new_team Hteam_in Hq). by rewrite Hid. }
    exists new_team, new_member. split_and!.
    + by apply rls_select_elem.
    + done.
    + by rewrite Howner.
    + by rewrite Hmember.
    + by rewrite Hmember.
    + done.
    + done.
    + rewrite Hn. apply list_elem_of_In in Hcounted.
      destruct (List.filter _ _); [destruct Hcounted | simpl; lia].
    + intros rows shown Hin. unfold fetchTeams. cbn [data error]. intros [= <-].
      apply list_elem_of_fmap. by exists new_team.
Qed.

(** Alice creates "Design" from the form and reads its count; Bob's
    dashboard for an answer that lists "Eng"; a request that fails. *)
Lemma member_count_counts_membership_rows_witness :
  let form := {| fd_name := "  Design "; fd_description := "" |} in
  let db' := snd (handleSubmit (Some 1%N) form 40%N 41%N 400%Z 401%Z db_eng) in
  fst (handleSubmit (Some 1%N) form 40%N 41%N 400%Z 401%Z db_eng) = TeamCreated 40%N
  ∧ (∃ new_team,
       new_team ∈ rls_select teams_table (Some 1%N) (λ _, true) db'
       ∧ Teams.id new_team = 40%N
       ∧ member_count (team_with_counts (Some 1%N) db' new_team) = 1%nat)
  ∧ fetchTeams (Some 2%N) {| data := Some [eng]; error := None |} db_eng
    = Some [{| team := eng; member_count := 1; task_count := 1 |}]
  ∧ member_count {| team := eng; member_count := 1; task_count := 1 |}
    = length (List.filter (λ m, bool_decide (TeamMembers.team_id m = 10%N))
                          (team_members db_eng))
  ∧ fetchTeams (Some 2%N) {| data := None; error := Some "Bad Request" |} db_eng = None.
Proof.
  intros form db'.
  destruct member_count_counts_membership_rows as (Hcount & Hfail & Hcreated).
  split_and!.
  - reflexivity.
  - destruct (Hcreated (Some 1%N) form 40%N 41%N 400%Z 401%Z db_eng 40%N db')
      as (new_team & own_row & Hread & Hid & _ & _ & _ & _ & Hn & _); [reflexivity|].
    exists new_team. split_and!; [exact Hread | exact Hid |].
    rewrite Hn. reflexivity.
  - reflexivity.
  - apply (Hcount (Some 2%N) {| data := Some [eng]; error := None |} db_eng
             [{| team := eng; member_count := 1; task_count := 1 |}]).
    + intros rows [= <-] t Ht. apply list_elem_of_singleton in Ht. subst t.
      apply list_elem_of_here.
    + reflexivity.
    + apply list_elem_of_here.
  - apply Hfail. by eexists.
Defined.

(** ** Denied requests *)

(** C9: on each of the four tables, a request whose governing policy is
    false writes nothing and shows nothing.  A denied insertion is refused
    with a denial that carries no reason; a read, update or deletion
    addressed to rows the policy denies returns or affects no row; in all
    of these the database is as before, so the timestamp trigger has
    stored nothing; and a row the policy denies survives any update or
    deletion unchanged.  In particular an actor without a Membership row
    in a team reads an empty list of that team's tasks. *)
Theorem denied_operation_changes_nothing :
  denial_is_clean profiles_table
  ∧ denial_is_clean teams_table
  ∧ denial_is_clean team_members_table
  ∧ denial_is_clean tasks_table
  ∧ (∀ db actor team_id,
       ¬ has_membership db actor team_id →
       rls_select tasks_table actor
         (λ k, bool_decide (Tasks.team_id k = team_id)) db = []).
Proof.
  split_and!.
  - apply clean_denial; try done. by intros [].
  - apply clean_denial; try done; [by intros [] | apply teams_on_delete_nil].
  - apply clean_denial; try done. by intros [].
  - apply clean_denial; try done. by intros [].
  - intros db actor team_id Hnot.
    apply (proj1 (proj2 (clean_denial tasks_table
             ltac:(by intros []) ltac:(done) ltac:(done) ltac:(done)))).
    intros k _ Hk. apply bool_decide_eq_true in Hk.
    cbn [t_policies tasks_table]. rewrite tasks_select_qual, Hk.
    apply not_true_is_false. by rewrite is_team_member_true.
Qed.

(** Carol holds no Membership row in "Eng" and does not own it: she reads
    no task of it, her update and her deletion of its tasks affect none,
    and her insertion of a task is refused. *)
Lemma denied_operation_changes_nothing_witness :
  rls_select tasks_table (Some 3%N) (λ k, bool_decide (Tasks.team_id k = 10%N)) db_eng
  = []
  ∧ rls_update tasks_table (Some 3%N) 500%Z (λ _, true) (λ k, k) db_eng
    = (Done 0%nat, db_eng)
  ∧ rls_delete tasks_table (Some 3%N) (λ _, true) db_eng = (Done 0%nat, db_eng)
  ∧ rls_insert tasks_table (Some 3%N) false (new_task 22%N 3%N) db_eng
    = (PermissionDenied, db_eng).
Proof.
  destruct denied_operation_changes_nothing
    as (_ & _ & _ & (Hins & _ & Hupd & _ & Hdel & _) & Hread).
  assert (Hnot : ¬ has_membership db_eng (Some 3%N) 10%N).
  { intros (m & Hin & Hu & _). apply list_elem_of_singleton in Hin. subst m.
    discriminate Hu. }
  assert (Hdenied : ∀ c, c = UPDATE ∨ c = DELETE →
    ∀ r, r ∈ t_rows tasks_table db_eng → (λ _ : Tasks.row, true) r = true →
         security_qual (t_policies tasks_table) c db_eng (Some 3%N) r = false).
  { intros c Hc r Hin _. apply list_elem_of_singleton in Hin. subst r.
    destruct Hc as [-> | ->]; reflexivity. }
  split_and!.
  - exact (Hread db_eng (Some 3%N) 10%N Hnot).
  - destruct (Hupd (Some 3%N) 500%Z (λ _, true) (λ k, k) db_eng
                (Hdenied UPDATE (or_introl eq_refl))) as [Hs Hf].
    rewrite (surjective_pairing (rls_update _ _ _ _ _ _)), Hs, Hf; reflexivity.
  - destruct (Hdel (Some 3%N) (λ _, true) db_eng
                (Hdenied DELETE (or_intror eq_refl))) as [Hs Hf].
    rewrite (surjective_pairing (rls_delete _ _ _ _)), Hs, Hf; reflexivity.
  - apply Hins. reflexivity.
Defined.

(** ** Joining a team *)

(** C10: for an authenticated actor, a Membership row whose [user_id] is
    the actor passes the insert check of [team_members] in every state of
    the database and for every team: the check reads nothing but the new
    row's [user_id], whether or not the actor was invited or can see the
    team.  The insertion is never denied, and it goes through whenever the
    declared constraints allow the row (the team and the account exist, the
    pair is new), making the actor a member. *)
Theorem self_join_passes_insert_policy db (NEW : TeamMembers.row) :
  let actor := Some (TeamMembers.user_id NEW) in
  with_check [Users_can_join_teams_when_invited] INSERT db actor NEW = true
  ∧ with_check team_members_policies INSERT db actor NEW = true
  ∧ fst (rls_insert team_members_table actor false NEW db) ≠ PermissionDenied
  ∧ (db_valid db = true →
     TeamMembers.id NEW ∉ map TeamMembers.id (team_members db) →
     ¬ has_membership db actor (TeamMembers.team_id NEW) →
     TeamMembers.team_id NEW ∈ team_ids db →
     TeamMembers.user_id NEW ∈ user_ids db →
     sql_in (TeamMembers.role NEW) ["owner"; "admin"; "member"] = true →
     references_opt (TeamMembers.invited_by NEW) (user_ids db) = true →
     ∃ db', rls_insert team_members_table actor false NEW db = (Done [], db')
            ∧ team_members db' = team_members db ++ [NEW]
            ∧ has_membership db' actor (TeamMembers.team_id NEW)).
Proof.
  intros actor.
  assert (Hc : with_check team_members_policies INSERT db actor NEW = true).
  { rewrite team_members_insert_check, bool_decide_eq_true_2 by done.
    apply orb_true_r. }
  split_and!.
  - unfold with_check. simpl. by rewrite bool_decide_eq_true_2.
  - done.
  - by apply (rls_insert_not_denied team_members_table).
  - intros Hv Hid Hnew Ht Hu Hrole Hinv.
    pose proof (db_valid_add_member db NEW Hv Hid Hnew Ht Hu Hrole Hinv) as Hv'.
    eexists. unfold rls_insert.
    change (t_policies team_members_table) with team_members_policies.
    change (t_rows team_members_table db) with (team_members db).
    rewrite Hc, Hv'. cbn [negb orb andb].
    split_and!; [reflexivity | reflexivity |].
    exists NEW. cbn [t_put team_members_table team_members].
    split_and!; [| done | done].
    apply elem_of_app. right. apply list_elem_of_here.
Qed.

(** Carol knows the id of "Eng", adds herself, and reads its tasks. *)
Lemma self_join_passes_insert_policy_witness :
  let carol_in_eng :=
    {| TeamMembers.id := 12%N; TeamMembers.team_id := 10%N;
       TeamMembers.user_id := 3%N; TeamMembers.role := "member";
       TeamMembers.invited_by := None; TeamMembers.joined_at := 130%Z |} in
  rls_select tasks_table (Some 3%N) (λ _, true) db_eng = []
  ∧ ∃ db', rls_insert team_members_table (Some 3%N) false carol_in_eng db_eng
           = (Done [], db')
           ∧ team_members db' = [bob_in_eng; carol_in_eng]
           ∧ has_membership db' (Some 3%N) 10%N
           ∧ rls_select tasks_table (Some 3%N) (λ _, true) db' = [new_task 20%N 2%N].
Proof.
  intros carol_in_eng. split; [reflexivity|].
  destruct (proj2 (proj2 (proj2 (self_join_passes_insert_policy db_eng carol_in_eng))))
    as (db' & Hrun & Hrows & Hmem).
  - reflexivity.
  - intros Hin. apply list_elem_of_singleton in Hin. discriminate Hin.
  - intros (m & Hin & Hu & _). apply list_elem_of_singleton in Hin. subst m.
    discriminate Hu.
  - apply list_elem_of_here.
  - apply list_elem_of_further, list_elem_of_further, list_elem_of_here.
  - reflexivity.
  - reflexivity.
  - exists db'. split_and!; [exact Hrun | exact Hrows | exact Hmem |].
    pose proof (f_equal snd Hrun) as E. cbn [snd] in E. rewrite <- E.
    reflexivity.
Defined.

(** * Further properties of the migration and the pages *)

(** ** Constraints in a valid database *)

Lemma unique_inj {A K} `{EqDecision K} (key : A → K) (l : list A) (x y : A) :
  unique key l = true → x ∈ l → y ∈ l → key x = key y → x = y.
Proof.
  unfold unique. rewrite bool_decide_eq_true.
  induction l as [|z l IH]; intros Hnd Hx Hy Hk.
  - by apply elem_of_nil in Hx.
  - cbn [map] in Hnd. apply NoDup_cons in Hnd as [Hz Hnd].
    apply elem_of_cons in Hx as [-> | Hx]; apply elem_of_cons in Hy as [-> | Hy].
    + done.
    + exfalso. apply Hz. rewrite Hk. apply list_elem_of_fmap. by exists y.
    + exfalso. apply Hz. rewrite <- Hk. apply list_elem_of_fmap. by exists x.
    + by apply IH.
Qed.

Lemma unique_filter {A K} `{EqDecision K} (key : A → K) (f : A → bool) (l : list A) :
  unique key l = true → unique key (List.filter f l) = true.
Proof.
  unfold unique. rewrite !bool_decide_eq_true.
  induction l as [|z l IH]; [done|]. cbn [map List.filter]. intros Hnd.
  apply NoDup_cons in Hnd as [Hz Hnd]. destruct (f z).
  - cbn [map]. apply NoDup_cons. split; [|by apply IH].
    intros Hin. apply Hz. apply list_elem_of_fmap in Hin as (y & Hy & Hin).
    apply list_elem_of_fmap. exists y. split; [done|].
    apply list_elem_of_In, filter_In in Hin as [Hin _]. by apply list_elem_of_In.
  - by apply IH.
Qed.

Lemma db_valid_teams db :
  db_valid db = true →
  unique Teams.id (teams db) = true
  ∧ ∀ t, t ∈ teams db → Teams.owner_id t ∈ user_ids db.
Proof.
  unfold db_valid, teams_valid. rewrite !andb_true_iff.
  intros ((((_ & _) & Hu & Hall) & _) & _). split; [done|].
  intros t Ht. rewrite forallb_forall in Hall.
  apply list_elem_of_In in Ht. specialize (Hall t Ht).
  by apply bool_decide_eq_true in Hall.
Qed.

Lemma db_valid_team_members db :
  db_valid db = true →
  unique TeamMembers.id (team_members db) = true
  ∧ unique (λ r, (TeamMembers.team_id r, TeamMembers.user_id r)) (team_members db) = true
  ∧ ∀ m, m ∈ team_members db →
         TeamMembers.team_id m ∈ team_ids db
         ∧ TeamMembers.user_id m ∈ user_ids db
         ∧ sql_in (TeamMembers.role m) ["owner"; "admin"; "member"] = true.
Proof.
  unfold db_valid, team_members_valid. rewrite !andb_true_iff.
  intros (((_ & _) & (Hid & Hpair) & Hall) & _). split_and!; [done | done |].
  intros m Hm. rewrite forallb_forall in Hall.
  apply list_elem_of_In in Hm. specialize (Hall m Hm).
  rewrite !andb_true_iff in Hall. destruct Hall as (((Ht & Hu) & Hr) & _).
  split_and!; [by apply bool_decide_eq_true in Ht | by apply bool_decide_eq_true in Hu | done].
Qed.

Lemma db_valid_tasks db :
  db_valid db = true →
  unique Tasks.id (tasks db) = true
  ∧ ∀ k, k ∈ tasks db →
         Tasks.team_id k ∈ team_ids db
         ∧ sql_in (Tasks.status k) ["todo"; "in_progress"; "review"; "done"] = true
         ∧ sql_in (Tasks.priority k) ["low"; "medium"; "high"; "urgent"] = true
         ∧ Tasks.created_by k ∈ user_ids db.
Proof.
  unfold db_valid, tasks_valid. rewrite !andb_true_iff.
  intros (_ & Hid & Hall). split; [done|].
  intros k Hk. rewrite forallb_forall in Hall.
  apply list_elem_of_In in Hk. specialize (Hall k Hk).
  rewrite !andb_true_iff in Hall. destruct Hall as ((((Ht & Hs) & Hp) & _) & Hc).
  split_and!; [by apply bool_decide_eq_true in Ht | done | done
              | by apply bool_decide_eq_true in Hc].
Qed.

Lemma db_valid_profiles db :
  db_valid db = true →
  unique Profiles.id (profiles db) = true
  ∧ unique Profiles.user_id (profiles db) = true
  ∧ unique Profiles.username (profiles db) = true
  ∧ ∀ p, p ∈ profiles db → Profiles.user_id p ∈ user_ids db.
Proof.
  unfold db_valid, profiles_valid. rewrite !andb_true_iff.
  intros ((((_ & ((Hid & Hu) & Hn) & Hall) & _) & _) & _).
  split_and!; [done | done | done |].
  intros p Hp. rewrite forallb_forall in Hall.
  apply list_elem_of_In in Hp. specialize (Hall p Hp).
  by apply bool_decide_eq_true in Hall.
Qed.

(** ** The predicate functions *)

Lemma is_team_member_null_user db team_id : is_team_member db None team_id = false.
Proof.
  unfold is_team_member. induction (team_members db) as [|m l IH]; [done|].
  cbn [existsb]. rewrite IH, holds_sql_and. cbn. done.
Qed.

Lemma is_team_owner_null_user db team_id : is_team_owner db None team_id = false.
Proof.
  unfold is_team_owner. induction (teams db) as [|t l IH]; [done|].
  cbn [existsb]. rewrite IH, holds_sql_and. cbn. done.
Qed.

(** X1: [is_team_owner] is true exactly when [teams] holds a row with that
    id whose [owner_id] is the actor, and in a database that satisfies its
    constraints a team has one owner: two actors for whom it is true are
    the same. *)
Theorem is_team_owner_one_owner db (a b : option uuid) (team_id : uuid) :
  (is_team_owner db a (Some team_id) = true
   ↔ ∃ t, t ∈ teams db ∧ Teams.id t = team_id ∧ Some (Teams.owner_id t) = a)
  ∧ (db_valid db = true →
     is_team_owner db a (Some team_id) = true →
     is_team_owner db b (Some team_id) = true →
     a = b).
Proof.
  split; [apply is_team_owner_true|].
  intros Hv Ha Hb.
  apply is_team_owner_true in Ha as (t & Ht & Hid & <-).
  apply is_team_owner_true in Hb as (t' & Ht' & Hid' & <-).
  destruct (db_valid_teams db Hv) as [Hu _].
  by rewrite (unique_inj Teams.id (teams db) t t' Hu Ht Ht') by congruence.
Qed.

Lemma is_team_owner_one_owner_witness :
  is_team_owner db_eng (Some 1%N) (Some 10%N) = true
  ∧ Some 1%N = Some (Teams.owner_id eng).
Proof.
  split; [reflexivity|].
  apply (proj2 (is_team_owner_one_owner db_eng (Some 1%N)
                  (Some (Teams.owner_id eng)) 10%N)); reflexivity.
Defined.

(** ** More of what the policies amount to *)

Lemma profiles_qual db uid p c :
  c = SELECT ∨ c = UPDATE →
  security_qual profiles_policies c db uid p
  = bool_decide (uid = Some (Profiles.user_id p)).
Proof.
  intros [-> | ->]; unfold security_qual; simpl; rewrite <- holds_sql_eq_l;
    by destruct (sql_eq _ _) as [[]|].
Qed.

Lemma profiles_check db uid p c :
  c = INSERT ∨ c = UPDATE →
  with_check profiles_policies c db uid p
  = bool_decide (uid = Some (Profiles.user_id p)).
Proof.
  intros [-> | ->]; unfold with_check; simpl; rewrite <- holds_sql_eq_l;
    by destruct (sql_eq _ _) as [[]|].
Qed.

Lemma teams_update_check db uid t :
  with_check teams_policies UPDATE db uid t
  = bool_decide (uid = Some (Teams.owner_id t)).
Proof.
  unfold with_check. simpl. rewrite <- holds_sql_eq_l.
  by destruct (sql_eq _ _) as [[]|].
Qed.

Lemma rls_update_done_inv {R} (T : table R) uid now cond set db n db' :
  rls_update T uid now cond set db = (Done n, db') →
  (∀ r, r ∈ t_rows T db → targeted T UPDATE uid cond db r = true →
        with_check (t_policies T) UPDATE db uid (t_before_update T now (set r)) = true
        ∧ security_qual (t_policies T) SELECT db uid (t_before_update T now (set r)) = true)
  ∧ db' = t_put T (map (λ r, if targeted T UPDATE uid cond db r
                             then t_before_update T now (set r) else r)
                       (t_rows T db)) db
  ∧ db_valid db' = true
  ∧ n = length (List.filter (targeted T UPDATE uid cond db) (t_rows T db)).
Proof.
  unfold rls_update. destruct (forallb _ _) eqn:Hall; [|discriminate].
  destruct (db_valid _) eqn:Hv; [|discriminate].
  intros [= <- <-]. split_and!; [|done|done|done].
  intros r Hin Ht. rewrite forallb_forall in Hall.
  apply list_elem_of_In in Hin. specialize (Hall r Hin).
  rewrite Ht in Hall. cbn [negb orb] in Hall. by apply andb_true_iff in Hall.
Qed.

(** X2: a request without a session is refused everything.  With
    [auth.uid()] NULL no policy of any of the four tables lets any command
    through, on any row: such a request reads no row and its insertions are
    denied. *)
Theorem anonymous_requests_denied db :
  (∀ c p, security_qual profiles_policies c db None p = false
          ∧ with_check profiles_policies c db None p = false)
  ∧ (∀ c t, security_qual teams_policies c db None t = false
            ∧ with_check teams_policies c db None t = false)
  ∧ (∀ c m, security_qual team_members_policies c db None m = false
            ∧ with_check team_members_policies c db None m = false)
  ∧ (∀ c k, security_qual tasks_policies c db None k = false
            ∧ with_check tasks_policies c db None k = false)
  ∧ (∀ cond, rls_select profiles_table None cond db = [])
  ∧ (∀ cond, rls_select teams_table None cond db = [])
  ∧ (∀ cond, rls_select team_members_table None cond db = [])
  ∧ (∀ cond, rls_select tasks_table None cond db = [])
  ∧ (∀ returning NEW,
       rls_insert profiles_table None returning NEW db = (PermissionDenied, db))
  ∧ (∀ returning NEW,
       rls_insert teams_table None returning NEW db = (PermissionDenied, db))
  ∧ (∀ returning NEW,
       rls_insert team_members_table None returning NEW db = (PermissionDenied, db))
  ∧ (∀ returning NEW,
       rls_insert tasks_table None returning NEW db = (PermissionDenied, db)).
Proof.
  assert (Hp : ∀ c p, security_qual profiles_policies c db None p = false
                      ∧ with_check profiles_policies c db None p = false).
  { intros c p. by destruct c. }
  assert (Ht : ∀ c t, security_qual teams_policies c db None t = false
                      ∧ with_check teams_policies c db None t = false).
  { intros c t. destruct c; unfold security_qual, with_check; simpl;
      rewrite ?is_team_member_null_user; done. }
  assert (Hm : ∀ c m, security_qual team_members_policies c db None m = false
                      ∧ with_check team_members_policies c db None m = false).
  { intros c m. destruct c; unfold security_qual, with_check; simpl;
      rewrite ?is_team_member_null_user, ?is_team_owner_null_user; done. }
  assert (Hk : ∀ c k, security_qual tasks_policies c db None k = false
                      ∧ with_check tasks_policies c db None k = false).
  { intros c k. destruct c; unfold security_qual, with_check; simpl;
      rewrite ?is_team_member_null_user, ?is_team_owner_null_user; done. }
  split_and!; [exact Hp | exact Ht | exact Hm | exact Hk | .. ].
  - intros cond. apply filter_none. intros p _.
    cbn [t_policies profiles_table]. rewrite (proj1 (Hp SELECT p)). apply andb_false_r.
  - intros cond. apply filter_none. intros t _.
    cbn [t_policies teams_table]. rewrite (proj1 (Ht SELECT t)). apply andb_false_r.
  - intros cond. apply filter_none. intros m _.
    cbn [t_policies team_members_table]. rewrite (proj1 (Hm SELECT m)). apply andb_false_r.
  - intros cond. apply filter_none. intros k _.
    cbn [t_policies tasks_table]. rewrite (proj1 (Hk SELECT k)). apply andb_false_r.
  - intros returning NEW. apply rls_insert_denied, Hp.
  - intros returning NEW. apply rls_insert_denied, Ht.
  - intros returning NEW. apply rls_insert_denied, Hm.
  - intros returning NEW. apply rls_insert_denied, Hk.
Qed.

Lemma same_key_at_most_one {A K} `{EqDecision K} (key : A → K) (k : K) (l : list A) :
  unique key l = true → (∀ x, x ∈ l → key x = k) → (length l ≤ 1)%nat.
Proof.
  unfold unique. rewrite bool_decide_eq_true. intros Hnd Hk.
  destruct l as [|x [|y l]]; [simpl; lia | simpl; lia |].
  exfalso. cbn [map] in Hnd. apply NoDup_cons in Hnd as [Hx _]. apply Hx.
  rewrite (Hk x) by apply list_elem_of_here.
  rewrite <- (Hk y) by apply list_elem_of_further, list_elem_of_here.
  apply list_elem_of_here.
Qed.

(** X3: a user reads no Profile row but their own, so at most one in a
    database that satisfies its constraints; and the row of somebody else
    is not among what they can update. *)
Theorem profile_visible_to_its_user_only db actor cond :
  (∀ p, p ∈ rls_select profiles_table actor cond db →
        actor = Some (Profiles.user_id p))
  ∧ (db_valid db = true →
     (length (rls_select profiles_table actor cond db) ≤ 1)%nat)
  ∧ (∀ p, actor ≠ Some (Profiles.user_id p) →
          targeted profiles_table UPDATE actor cond db p = false).
Proof.
  assert (Hown : ∀ p, p ∈ rls_select profiles_table actor cond db →
                      actor = Some (Profiles.user_id p)).
  { intros p Hp. apply rls_select_elem in Hp as (_ & _ & Hq).
    cbn [t_policies profiles_table] in Hq.
    rewrite profiles_qual in Hq by (by left). by apply bool_decide_eq_true in Hq. }
  split_and!; [done | |].
  - intros Hv. destruct actor as [u|].
    + apply (same_key_at_most_one Profiles.user_id u).
      * apply unique_filter. by destruct (db_valid_profiles db Hv) as (_ & Hu & _).
      * intros p Hp. specialize (Hown p Hp). congruence.
    + destruct (rls_select _ _ _ _) as [|p l]; [simpl; lia|].
      by specialize (Hown p (list_elem_of_here _ _)).
  - intros p Hp. unfold targeted. cbn [t_policies profiles_table].
    rewrite !profiles_qual by (by left || by right).
    rewrite bool_decide_eq_false_2 by done. by rewrite !andb_false_r.
Qed.

Lemma profile_visible_to_its_user_only_witness :
  rls_select profiles_table (Some 2%N) (λ _, true) db_eng
  = [profile_of 102%N 2%N "bobby" 20%Z]
  ∧ (length (rls_select profiles_table (Some 2%N) (λ _, true) db_eng) ≤ 1)%nat.
Proof.
  split; [reflexivity|].
  apply (proj1 (proj2 (profile_visible_to_its_user_only db_eng (Some 2%N) (λ _, true)))).
  reflexivity.
Defined.

(** X4: [profiles] has no policy for [DELETE]: nobody deletes a Profile
    row, whatever rows the request addresses. *)
Theorem profiles_never_deleted db actor cond :
  (∀ p, security_qual profiles_policies DELETE db actor p = false)
  ∧ snd (rls_delete profiles_table actor cond db) = db.
Proof.
  assert (Hq : ∀ p, security_qual profiles_policies DELETE db actor p = false) by done.
  assert (Hs : snd (rls_delete profiles_table actor cond db) = db).
  { apply (rls_delete_none profiles_table); [by intros [] | done |].
    intros p _. unfold targeted. cbn [t_policies profiles_table].
    rewrite Hq. apply andb_false_r. }
  done.
Qed.

Lemma Forall2_map_self {A} (P : A → A → Prop) (f : A → A) (l : list A) :
  (∀ x, x ∈ l → P x (f x)) → Forall2 P l (map f l).
Proof.
  induction l as [|x l IH]; intros HP; [constructor|].
  cbn [map]. constructor.
  - apply HP, list_elem_of_here.
  - apply IH. intros y Hy. by apply HP, list_elem_of_further.
Qed.

(** X5: an update never hands a row to somebody else.  The update
    policies of [teams] and [profiles] have no [WITH CHECK], so their
    [USING] clause is checked on the new row too: a request that changes a
    team's [owner_id], or a profile's [user_id], is refused whole, and
    after any successful update every row has the owner it had. *)
Theorem update_keeps_owner db actor now :
  (∀ cond set t,
     t ∈ teams db →
     targeted teams_table UPDATE actor cond db t = true →
     Teams.owner_id (set t) ≠ Teams.owner_id t →
     rls_update teams_table actor now cond set db = (PermissionDenied, db))
  ∧ (∀ cond set n db',
       rls_update teams_table actor now cond set db = (Done n, db') →
       map Teams.owner_id (teams db') = map Teams.owner_id (teams db))
  ∧ (∀ cond set p,
       p ∈ profiles db →
       targeted profiles_table UPDATE actor cond db p = true →
       Profiles.user_id (set p) ≠ Profiles.user_id p →
       rls_update profiles_table actor now cond set db = (PermissionDenied, db))
  ∧ (∀ cond set n db',
       rls_update profiles_table actor now cond set db = (Done n, db') →
       map Profiles.user_id (profiles db') = map Profiles.user_id (profiles db)).
Proof.
  assert (Hteam : ∀ cond t, targeted teams_table UPDATE actor cond db t = true →
                            actor = Some (Teams.owner_id t)).
  { intros cond t Ht. unfold targeted in Ht. rewrite !andb_true_iff in Ht.
    destruct Ht as [_ Hq]. cbn [t_policies teams_table] in Hq.
    rewrite teams_owner_qual in Hq by (by left). by apply bool_decide_eq_true in Hq. }
  assert (Hprof : ∀ cond p, targeted profiles_table UPDATE actor cond db p = true →
                            actor = Some (Profiles.user_id p)).
  { intros cond p Ht. unfold targeted in Ht. rewrite !andb_true_iff in Ht.
    destruct Ht as [_ Hq]. cbn [t_policies profiles_table] in Hq.
    rewrite profiles_qual in Hq by (by right). by apply bool_decide_eq_true in Hq. }
  split_and!.
  - intros cond set t Hin Ht Hchange.
    apply (rls_update_check_fails teams_table _ _ _ _ _ t Hin Ht).
    cbn [t_policies teams_table]. rewrite teams_update_check.
    apply bool_decide_eq_false_2. rewrite (Hteam cond t Ht).
    change (Teams.owner_id (t_before_update teams_table now (set t)))
      with (Teams.owner_id (set t)). congruence.
  - intros cond set n db' Hrun.
    apply rls_update_done_inv in Hrun as (Hcheck & -> & _ & _).
    cbn [t_put teams_table teams t_rows]. rewrite map_map.
    apply map_ext_in. intros t Hin. apply list_elem_of_In in Hin.
    destruct (targeted teams_table UPDATE actor cond db t) eqn:Ht; [|done].
    destruct (Hcheck t Hin Ht) as [Hc _].
    cbn [t_policies teams_table] in Hc. rewrite teams_update_check in Hc.
    apply bool_decide_eq_true in Hc. rewrite (Hteam cond t Ht) in Hc. congruence.
  - intros cond set p Hin Ht Hchange.
    apply (rls_update_check_fails profiles_table _ _ _ _ _ p Hin Ht).
    cbn [t_policies profiles_table]. rewrite profiles_check by (by right).
    apply bool_decide_eq_false_2. rewrite (Hprof cond p Ht).
    change (Profiles.user_id (t_before_update profiles_table now (set p)))
      with (Profiles.user_id (set p)). congruence.
  - intros cond set n db' Hrun.
    apply rls_update_done_inv in Hrun as (Hcheck & -> & _ & _).
    cbn [t_put profiles_table profiles t_rows]. rewrite map_map.
    apply map_ext_in. intros p Hin. apply list_elem_of_In in Hin.
    destruct (targeted profiles_table UPDATE actor cond db p) eqn:Ht; [|done].
    destruct (Hcheck p Hin Ht) as [Hc _].
    cbn [t_policies profiles_table] in Hc. rewrite profiles_check in Hc by (by right).
    apply bool_decide_eq_true in Hc. rewrite (Hprof cond p Ht) in Hc. congruence.
Qed.

(** Alice tries to make Bob the owner of "Eng"; renaming it goes through. *)
Lemma update_keeps_owner_witness :
  let give_to_bob (t : Teams.row) :=
    {| Teams.id := Teams.id t; Teams.name := Teams.name t;
       Teams.description := Teams.description t; Teams.owner_id := 2%N;
       Teams.created_at := Teams.created_at t; Teams.updated_at := Teams.updated_at t |} in
  rls_update teams_table (Some 1%N) 700%Z (λ _, true) give_to_bob db_eng
  = (PermissionDenied, db_eng)
  ∧ map Teams.owner_id
      (teams (snd (rls_update teams_table (Some 1%N) 700%Z (λ _, true) rename_ops db_eng)))
    = [1%N].
Proof.
  intros give_to_bob.
  destruct (update_keeps_owner db_eng (Some 1%N) 700%Z) as (Hrefused & Hkept & _).
  split.
  - apply (Hrefused (λ _, true) give_to_bob eng);
      [apply list_elem_of_here | reflexivity | discriminate].
  - apply (Hkept (λ _, true) rename_ops 1%nat). reflexivity.
Defined.

(** X6: a task cannot be moved into a team its mover does not belong to:
    the update is refused whole.  After a successful update every task the
    request changed was, and is, in a team of the actor's. *)
Theorem task_move_needs_membership db actor now cond set :
  (∀ k, k ∈ tasks db →
        targeted tasks_table UPDATE actor cond db k = true →
        ¬ has_membership db actor (Tasks.team_id (set k)) →
        rls_update tasks_table actor now cond set db = (PermissionDenied, db))
  ∧ (∀ n db',
       rls_update tasks_table actor now cond set db = (Done n, db') →
       Forall2
         (λ old new,
            new = old
            ∨ (has_membership db actor (Tasks.team_id old)
               ∧ has_membership db actor (Tasks.team_id new)))
         (tasks db) (tasks db')).
Proof.
  split.
  - intros k Hin Ht Hnot.
    apply (rls_update_check_fails tasks_table _ _ _ _ _ k Hin Ht).
    cbn [t_policies tasks_table]. rewrite tasks_update_check.
    change (Tasks.team_id (t_before_update tasks_table now (set k)))
      with (Tasks.team_id (set k)).
    apply not_true_is_false. by rewrite is_team_member_true.
  - intros n db' Hrun.
    apply rls_update_done_inv in Hrun as (Hcheck & -> & _ & _).
    cbn [t_put tasks_table tasks t_rows]. apply Forall2_map_self.
    intros k Hin. destruct (targeted tasks_table UPDATE actor cond db k) eqn:Ht;
      [right | by left].
    destruct (Hcheck k Hin Ht) as [Hc _].
    cbn [t_policies tasks_table] in Hc. rewrite tasks_update_check in Hc.
    apply is_team_member_true in Hc. split; [|done].
    unfold targeted in Ht. rewrite !andb_true_iff in Ht. destruct Ht as [_ Hq].
    cbn [t_policies tasks_table] in Hq. rewrite tasks_update_qual in Hq.
    by apply is_team_member_true.
Qed.

(** Bob tries to move the task of "Eng" into a team 13 he is not in. *)
Lemma task_move_needs_membership_witness :
  let move (k : Tasks.row) :=
    {| Tasks.id := Tasks.id k; Tasks.team_id := 13%N;
       Tasks.title := Tasks.title k; Tasks.description := Tasks.description k;
       Tasks.status := Tasks.status k; Tasks.priority := Tasks.priority k;
       Tasks.due_date := Tasks.due_date k; Tasks.assigned_to := Tasks.assigned_to k;
       Tasks.created_by := Tasks.created_by k;
       Tasks.created_at := Tasks.created_at k; Tasks.updated_at := Tasks.updated_at k |} in
  rls_update tasks_table (Some 2%N) 700%Z (λ _, true) move db_ops
  = (PermissionDenied, db_ops).
Proof.
  intros move.
  apply (proj1 (task_move_needs_membership db_ops (Some 2%N) 700%Z (λ _, true) move)
           (new_task 20%N 2%N)).
  - apply list_elem_of_here.
  - reflexivity.
  - intros (m & Hin & _ & Ht). apply list_elem_of_singleton in Hin. subst m.
    discriminate Ht.
Defined.

(** ** Deleting a team *)

Lemma forallb_filter_sub {A} (p q : A → bool) (f : A → bool) (l : list A) :
  (∀ x, In x l → f x = true → p x = true → q x = true) →
  forallb p l = true → forallb q (List.filter f l) = true.
Proof.
  intros Hpq Hall. rewrite forallb_forall in Hall. apply forallb_forall.
  intros x Hx. apply filter_In in Hx as [Hin Hf]. by apply Hpq, Hall.
Qed.

Lemma team_delete_valid db (gone_pred : Teams.row → bool) :
  db_valid db = true →
  db_valid
    (teams_on_delete (List.filter gone_pred (teams db))
       (t_put teams_table (List.filter (λ t, negb (gone_pred t)) (teams db)) db))
  = true.
Proof.
  intros Hv.
  assert (Hkept : ∀ x, x ∈ team_ids db →
            x ∉ map Teams.id (List.filter gone_pred (teams db)) →
            x ∈ map Teams.id (List.filter (λ t, negb (gone_pred t)) (teams db))).
  { intros x Hx Hnot. apply list_elem_of_fmap in Hx as (t & -> & Ht).
    apply list_elem_of_fmap. exists t. split; [done|].
    apply list_elem_of_In, filter_In. split; [by apply list_elem_of_In|].
    destruct (gone_pred t) eqn:Hg; [|done]. exfalso. apply Hnot.
    apply list_elem_of_fmap. exists t. split; [done|].
    apply list_elem_of_In, filter_In. split; [by apply list_elem_of_In | done]. }
  unfold db_valid in *. rewrite !andb_true_iff in Hv.
  destruct Hv as ((((Husers & Hp) & Ht) & Hm) & Hk).
  rewrite !andb_true_iff. split_and!.
  - done.
  - done.
  - unfold teams_valid in *. rewrite andb_true_iff in Ht. destruct Ht as [Hid Hall].
    cbn [teams_on_delete t_put teams_table teams]. apply andb_true_iff. split.
    + by apply unique_filter.
    + eapply forallb_filter_sub; [|exact Hall]. by intros x _ _ H.
  - unfold team_members_valid in *. rewrite !andb_true_iff in Hm.
    destruct Hm as ((Hid & Hpair) & Hall).
    cbn [teams_on_delete t_put teams_table team_members].
    rewrite !andb_true_iff. split_and!.
    + by apply unique_filter.
    + by apply unique_filter.
    + eapply forallb_filter_sub; [|exact Hall]. intros x _ Hf H.
      unfold team_ids, user_ids in *.
      cbn [teams_on_delete t_put teams_table teams auth_users] in *.
      rewrite !andb_true_iff in H. destruct H as (((Hteam & Hu) & Hr) & Hi).
      rewrite !andb_true_iff. split_and!; try done.
      apply bool_decide_eq_true, Hkept.
      * by apply bool_decide_eq_true in Hteam.
      * apply negb_true_iff, bool_decide_eq_false in Hf. exact Hf.
  - unfold tasks_valid in *. rewrite !andb_true_iff in Hk. destruct Hk as (Hid & Hall).
    cbn [teams_on_delete t_put teams_table tasks].
    rewrite !andb_true_iff. split.
    + by apply unique_filter.
    + eapply forallb_filter_sub; [|exact Hall]. intros x _ Hf H.
      unfold team_ids, user_ids in *.
      cbn [teams_on_delete t_put teams_table teams auth_users] in *.
      rewrite !andb_true_iff in H. destruct H as ((((Hteam & Hs) & Hp') & Ha) & Hc).
      rewrite !andb_true_iff. split_and!; try done.
      apply bool_decide_eq_true, Hkept.
      * by apply bool_decide_eq_true in Hteam.
      * apply negb_true_iff, bool_decide_eq_false in Hf. exact Hf.
Qed.

(** X7: deleting teams.  In a database that satisfies its constraints a
    [DELETE] on [teams] always goes through.  The teams it removes are
    teams the actor owns, each with all its Membership rows and all its
    tasks ([ON DELETE CASCADE]); every other team is still there, in
    place, with its memberships and tasks, and the profiles and the
    accounts stay as they were. *)
Theorem team_delete_cascades db actor cond :
  (db_valid db = true →
   ∃ n db', rls_delete teams_table actor cond db = (Done n, db'))
  ∧ (∀ n db',
       rls_delete teams_table actor cond db = (Done n, db') →
       (∀ t, t ∈ teams db →
             targeted teams_table DELETE actor cond db t = true →
             actor = Some (Teams.owner_id t)
             ∧ (t ∉ teams db')
             ∧ members_of (Teams.id t) db' = []
             ∧ tasks_of (Teams.id t) db' = [])
       ∧ teams db'
         = List.filter (λ t, negb (targeted teams_table DELETE actor cond db t))
                       (teams db)
       ∧ (∀ t, t ∈ teams db →
               (targeted teams_table DELETE actor cond db t = false
                ∨ actor ≠ Some (Teams.owner_id t)) →
               t ∈ teams db')
       ∧ (∀ m, m ∈ team_members db →
               (∀ t, t ∈ teams db → Teams.id t = TeamMembers.team_id m →
                     targeted teams_table DELETE actor cond db t = false) →
               m ∈ team_members db')
       ∧ (∀ k, k ∈ tasks db →
               (∀ t, t ∈ teams db → Teams.id t = Tasks.team_id k →
                     targeted teams_table DELETE actor cond db t = false) →
               k ∈ tasks db')
       ∧ profiles db' = profiles db
       ∧ auth_users db' = auth_users db).
Proof.
  split.
  - intros Hv. unfold rls_delete.
    change (t_on_delete teams_table) with teams_on_delete.
    change (t_rows teams_table db) with (teams db).
    rewrite (team_delete_valid db (targeted teams_table DELETE actor cond db) Hv).
    by eexists _, _.
  - intros n db'. unfold rls_delete.
    destruct (db_valid _); [|discriminate]. intros [= _ <-].
    cbn [t_on_delete t_put t_rows teams_table teams_on_delete
         teams team_members tasks profiles auth_users].
    assert (Hdead : ∀ t, t ∈ teams db →
              targeted teams_table DELETE actor cond db t = true →
              Teams.id t ∈ map Teams.id
                (List.filter (targeted teams_table DELETE actor cond db) (teams db))).
    { intros t Hin Ht. apply list_elem_of_fmap. exists t. split; [done|].
      apply list_elem_of_In, filter_In. split; [by apply list_elem_of_In | done]. }
    assert (Halive : ∀ x,
              (∀ t, t ∈ teams db → Teams.id t = x →
                    targeted teams_table DELETE actor cond db t = false) →
              x ∉ map Teams.id
                (List.filter (targeted teams_table DELETE actor cond db) (teams db))).
    { intros x Hx Hin. apply list_elem_of_fmap in Hin as (t & -> & Hin).
      apply list_elem_of_In, filter_In in Hin as [Hin Ht].
      apply list_elem_of_In in Hin. by rewrite (Hx t Hin eq_refl) in Ht. }
    assert (Howned : ∀ t, targeted teams_table DELETE actor cond db t = true →
                          actor = Some (Teams.owner_id t)).
    { intros t Ht. unfold targeted in Ht. rewrite !andb_true_iff in Ht.
      destruct Ht as [_ Hq]. cbn [t_policies teams_table] in Hq.
      rewrite teams_owner_qual in Hq by (by right). by apply bool_decide_eq_true in Hq. }
    split_and!; [| done | | | |done|done].
    2: { intros t Hin Hkeep. apply list_elem_of_In, filter_In.
         split; [by apply list_elem_of_In|]. apply negb_true_iff.
         destruct Hkeep as [Hk | Hk]; [done|].
         apply not_true_is_false. intros Ht. by apply Hk, Howned. }
    + intros t Hin Ht. split_and!.
      * unfold targeted in Ht. rewrite !andb_true_iff in Ht. destruct Ht as [_ Hq].
        cbn [t_policies teams_table] in Hq.
        rewrite teams_owner_qual in Hq by (by right). by apply bool_decide_eq_true in Hq.
      * intros Hin'. apply list_elem_of_In, filter_In in Hin' as [_ Hneg].
        by rewrite Ht in Hneg.
      * unfold members_of. cbn [team_members]. apply filter_none.
        intros m Hm. apply filter_In in Hm as [_ Hm].
        apply bool_decide_eq_false_2. intros Heq.
        apply negb_true_iff, bool_decide_eq_false in Hm. apply Hm.
        rewrite Heq. by apply Hdead.
      * unfold tasks_of. cbn [tasks]. apply filter_none.
        intros k Hk. apply filter_In in Hk as [_ Hk].
        apply bool_decide_eq_false_2. intros Heq.
        apply negb_true_iff, bool_decide_eq_false in Hk. apply Hk.
        rewrite Heq. by apply Hdead.
    + intros m Hm Hteam. apply list_elem_of_In, filter_In.
      split; [by apply list_elem_of_In|].
      apply negb_true_iff, bool_decide_eq_false_2. by apply Halive.
    + intros k Hk Hteam. apply list_elem_of_In, filter_In.
      split; [by apply list_elem_of_In|].
      apply negb_true_iff, bool_decide_eq_false_2. by apply Halive.
Qed.

(** Alice, who owns "Eng" and "Ops", deletes "Eng": Bob's Membership row
    and the task go with it, "Ops" stays. *)
Lemma team_delete_cascades_witness :
  let is_eng := λ t, bool_decide (Teams.id t = 10%N) in
  ∃ db', rls_delete teams_table (Some 1%N) is_eng db_ops = (Done 1%nat, db')
         ∧ teams db' = [ops] ∧ team_members db' = [] ∧ tasks db' = []
         ∧ profiles db' = profiles db_ops.
Proof.
  intros is_eng.
  destruct (proj1 (team_delete_cascades db_ops (Some 1%N) is_eng))
    as (n & db' & Hrun); [reflexivity|].
  exists db'.
  pose proof (f_equal snd Hrun) as E. cbn [snd] in E.
  rewrite <- E. split_and!; reflexivity.
Defined.

(** ** Memberships *)

Lemma member_delete_valid db (f : TeamMembers.row → bool) :
  db_valid db = true →
  db_valid (t_put team_members_table (List.filter f (team_members db)) db) = true.
Proof.
  intros Hv. unfold db_valid in *. rewrite !andb_true_iff in Hv.
  destruct Hv as ((((Husers & Hp) & Ht) & Hm) & Hk).
  rewrite !andb_true_iff. split_and!; try done.
  unfold team_members_valid in *. rewrite !andb_true_iff in Hm.
  destruct Hm as ((Hid & Hpair) & Hall).
  cbn [t_put team_members_table team_members].
  rewrite !andb_true_iff. split_and!; [by apply unique_filter | by apply unique_filter |].
  eapply forallb_filter_sub; [|exact Hall]. by intros x _ _ H.
Qed.

Lemma tasks_read_by_team db actor team_id :
  rls_select tasks_table actor (λ k, bool_decide (Tasks.team_id k = team_id)) db
  = if is_team_member db actor (Some team_id) then tasks_of team_id db else [].
Proof.
  unfold rls_select, tasks_of. cbn [t_rows t_policies tasks_table].
  destruct (is_team_member db actor (Some team_id)) eqn:Hm.
  - apply filter_ext. intros k. rewrite tasks_select_qual.
    case_bool_decide as Hk; [|done]. by rewrite Hk, Hm.
  - apply filter_none. intros k _. rewrite tasks_select_qual.
    case_bool_decide as Hk; [|done]. by rewrite Hk, Hm.
Qed.

(** X8: only the owner of a team removes or changes its Membership rows.
    The row of a team the actor does not own survives every deletion and
    every update the actor issues, their own row included: a member cannot
    leave a team or change their role.  The owner's removal of a user goes
    through in a database that satisfies its constraints, leaves the other
    rows in place, and the removed user then reads no task of the team. *)
Theorem membership_managed_by_owner_only db actor :
  (∀ m, m ∈ team_members db →
        ¬ owns db actor (TeamMembers.team_id m) →
        (∀ cond, m ∈ team_members (snd (rls_delete team_members_table actor cond db)))
        ∧ (∀ now cond set,
             m ∈ team_members (snd (rls_update team_members_table actor now cond set db))))
  ∧ (∀ team_id user_id,
       db_valid db = true →
       owns db actor team_id →
       let theirs := λ m, bool_decide (TeamMembers.team_id m = team_id)
                          && bool_decide (TeamMembers.user_id m = user_id) in
       ∃ n db',
         rls_delete team_members_table actor theirs db = (Done n, db')
         ∧ ¬ has_membership db' (Some user_id) team_id
         ∧ (∀ m, m ∈ team_members db → theirs m = false → m ∈ team_members db')
         ∧ rls_select tasks_table (Some user_id)
             (λ k, bool_decide (Tasks.team_id k = team_id)) db' = []).
Proof.
  split.
  - intros m Hin Hnot.
    assert (Ho : is_team_owner db actor (Some (TeamMembers.team_id m)) = false).
    { apply not_true_is_false. by rewrite is_team_owner_true. }
    split.
    + intros cond. apply (rls_delete_keeps_denied team_members_table); try done.
      cbn [t_policies team_members_table].
      by rewrite team_members_owner_qual by (by right).
    + intros now cond set. apply (rls_update_keeps_denied team_members_table); try done.
      cbn [t_policies team_members_table].
      by rewrite team_members_owner_qual by (by left).
  - intros team_id user_id Hv Hown theirs.
    apply is_team_owner_true in Hown.
    assert (Htarget : ∀ m, targeted team_members_table DELETE actor theirs db m = theirs m).
    { intros m. unfold targeted. cbn [t_policies team_members_table].
      destruct (theirs m) eqn:Hm; [|done]. unfold theirs in Hm.
      apply andb_true_iff in Hm as [Ht _]. apply bool_decide_eq_true in Ht.
      rewrite team_members_select_qual, team_members_owner_qual by (by right).
      rewrite Ht, Hown. by rewrite orb_true_r. }
    unfold rls_delete. cbn [t_on_delete t_rows team_members_table].
    rewrite (member_delete_valid db
               (λ r, negb (targeted team_members_table DELETE actor theirs db r)) Hv).
    eexists _, _. split; [reflexivity|].
    assert (Hgone : ¬ has_membership
              (t_put team_members_table
                 (List.filter
                    (λ r, negb (targeted team_members_table DELETE actor theirs db r))
                    (team_members db)) db) (Some user_id) team_id).
    { intros (m & Hin & Hu & Ht). cbn [t_put team_members_table team_members] in Hin.
      apply list_elem_of_In, filter_In in Hin as [_ Hneg].
      rewrite Htarget in Hneg. unfold theirs in Hneg.
      injection Hu as Hu.
      by rewrite !bool_decide_eq_true_2 in Hneg by done. }
    split_and!; [done | |].
    + intros m Hin Hm. cbn [t_put team_members_table team_members].
      apply list_elem_of_In, filter_In. split; [by apply list_elem_of_In|].
      by rewrite Htarget, Hm.
    + rewrite tasks_read_by_team.
      destruct (is_team_member _ _ _) eqn:Hmem; [|done].
      by apply is_team_member_true in Hmem.
Qed.

(** Bob cannot leave "Eng"; Alice removes him and he reads no task. *)
Lemma membership_managed_by_owner_only_witness :
  bob_in_eng ∈ team_members (snd (rls_delete team_members_table (Some 2%N) (λ _, true) db_eng))
  ∧ rls_select tasks_table (Some 2%N) (λ k, bool_decide (Tasks.team_id k = 10%N)) db_eng
    = [new_task 20%N 2%N]
  ∧ ∃ n db',
      rls_delete team_members_table (Some 1%N)
        (λ m, bool_decide (TeamMembers.team_id m = 10%N)
              && bool_decide (TeamMembers.user_id m = 2%N)) db_eng
      = (Done n, db')
      ∧ rls_select tasks_table (Some 2%N)
          (λ k, bool_decide (Tasks.team_id k = 10%N)) db' = [].
Proof.
  destruct (membership_managed_by_owner_only db_eng (Some 2%N)) as [Hstay _].
  destruct (membership_managed_by_owner_only db_eng (Some 1%N)) as [_ Hremove].
  split_and!.
  - apply (Hstay bob_in_eng); [apply list_elem_of_here|].
    intros (t & Hin & _ & Ho). apply list_elem_of_singleton in Hin. subst t.
    discriminate Ho.
  - reflexivity.
  - destruct (Hremove 10%N 2%N) as (n & db' & Hrun & _ & _ & Hread).
    + reflexivity.
    + exists eng. split_and!; [apply list_elem_of_here | reflexivity | reflexivity].
    + by exists n, db'.
Defined.

Lemma rls_insert_cases {R} (T : table R) uid returning NEW db :
  rls_insert T uid returning NEW db = (PermissionDenied, db)
  ∨ rls_insert T uid returning NEW db = (ConstraintViolation, db)
  ∨ (rls_insert T uid returning NEW db
     = (Done (if returning then [NEW] else []), t_put T (t_rows T db ++ [NEW]) db)
     ∧ db_valid (t_put T (t_rows T db ++ [NEW]) db) = true).
Proof.
  unfold rls_insert. destruct (_ && _); [|by left].
  destruct (db_valid _); [|by right; left]. by right; right.
Qed.

Lemma db_valid_add_member_inv db (m : TeamMembers.row) :
  db_valid (t_put team_members_table (team_members db ++ [m]) db) = true →
  (TeamMembers.id m ∉ map TeamMembers.id (team_members db))
  ∧ ¬ has_membership db (Some (TeamMembers.user_id m)) (TeamMembers.team_id m)
  ∧ TeamMembers.team_id m ∈ team_ids db
  ∧ TeamMembers.user_id m ∈ user_ids db
  ∧ sql_in (TeamMembers.role m) ["owner"; "admin"; "member"] = true.
Proof.
  intros Hv. unfold db_valid, team_members_valid in Hv.
  cbn [t_put team_members_table team_members] in Hv.
  rewrite !andb_true_iff in Hv.
  destruct Hv as ((_ & ((Hid & Hpair) & Hall)) & _).
  rewrite forallb_app in Hall. apply andb_true_iff in Hall as [_ Hm].
  cbn [forallb] in Hm. rewrite !andb_true_iff in Hm.
  destruct Hm as ((((Ht & Hu) & Hr) & _) & _).
  split_and!.
  - intros Hin. apply list_elem_of_fmap in Hin as (m' & Heq & Hin).
    by apply (unique_snoc_inv _ _ _ Hid m' Hin).
  - intros (m' & Hin & Hu' & Ht').
    apply (unique_snoc_inv _ _ _ Hpair m' Hin). injection Hu' as Hu'. congruence.
  - by apply bool_decide_eq_true in Ht.
  - by apply bool_decide_eq_true in Hu.
  - done.
Qed.

Lemma db_valid_add_task db (k : Tasks.row) :
  db_valid db = true →
  Tasks.id k ∉ map Tasks.id (tasks db) →
  Tasks.team_id k ∈ team_ids db →
  sql_in (Tasks.status k) ["todo"; "in_progress"; "review"; "done"] = true →
  sql_in (Tasks.priority k) ["low"; "medium"; "high"; "urgent"] = true →
  references_opt (Tasks.assigned_to k) (user_ids db) = true →
  Tasks.created_by k ∈ user_ids db →
  db_valid (t_put tasks_table (tasks db ++ [k]) db) = true.
Proof.
  intros Hv Hid Ht Hs Hp Ha Hc.
  unfold db_valid in *. rewrite !andb_true_iff in Hv.
  destruct Hv as ((((Husers & Hpr) & Htm) & Hm) & Hk).
  rewrite !andb_true_iff. split_and!; try done.
  unfold tasks_valid in *. cbn [t_put tasks_table tasks] in *.
  rewrite !andb_true_iff in Hk. destruct Hk as (Hkid & Hall).
  rewrite !andb_true_iff. split.
  - by apply unique_snoc.
  - rewrite forallb_app. apply andb_true_iff. split; [done|].
    cbn [forallb]. rewrite !andb_true_iff. unfold references.
    split_and!; try done; by apply bool_decide_eq_true_2.
Qed.

Lemma db_valid_add_task_inv db (k : Tasks.row) :
  db_valid (t_put tasks_table (tasks db ++ [k]) db) = true →
  (Tasks.id k ∉ map Tasks.id (tasks db))
  ∧ Tasks.team_id k ∈ team_ids db
  ∧ sql_in (Tasks.status k) ["todo"; "in_progress"; "review"; "done"] = true
  ∧ sql_in (Tasks.priority k) ["low"; "medium"; "high"; "urgent"] = true.
Proof.
  intros Hv. unfold db_valid, tasks_valid in Hv.
  cbn [t_put tasks_table tasks] in Hv.
  rewrite !andb_true_iff in Hv. destruct Hv as (_ & Hid & Hall).
  rewrite forallb_app in Hall. apply andb_true_iff in Hall as [_ Hk].
  cbn [forallb] in Hk. rewrite !andb_true_iff in Hk.
  destruct Hk as (((((Ht & Hs) & Hp) & _) & _) & _).
  split_and!; [| by apply bool_decide_eq_true in Ht | done | done].
  intros Hin. apply list_elem_of_fmap in Hin as (k' & Heq & Hin).
  by apply (unique_snoc_inv _ _ _ Hid k' Hin).
Qed.

(** X9: nobody is a member of a team twice.  Where a Membership row for
    the pair exists, inserting another one for it fails, whoever asks and
    whatever its id and role, and the database is as before
    ([UNIQUE(team_id, user_id)]). *)
Theorem second_membership_rejected db actor returning (NEW : TeamMembers.row) :
  has_membership db (Some (TeamMembers.user_id NEW)) (TeamMembers.team_id NEW) →
  (rls_insert team_members_table actor returning NEW db = (PermissionDenied, db)
   ∨ rls_insert team_members_table actor returning NEW db = (ConstraintViolation, db))
  ∧ team_members (snd (rls_insert team_members_table actor returning NEW db))
    = team_members db.
Proof.
  intros Hmem.
  destruct (rls_insert_cases team_members_table actor returning NEW db)
    as [H | [H | [_ Hv]]].
  - rewrite H. by split; [left|].
  - rewrite H. by split; [right|].
  - apply db_valid_add_member_inv in Hv as (_ & Hnot & _). done.
Qed.

(** Bob asks to join "Eng" again, under a new id and as an admin. *)
Lemma second_membership_rejected_witness :
  let again :=
    {| TeamMembers.id := 14%N; TeamMembers.team_id := 10%N;
       TeamMembers.user_id := 2%N; TeamMembers.role := "admin";
       TeamMembers.invited_by := None; TeamMembers.joined_at := 140%Z |} in
  rls_insert team_members_table (Some 2%N) false again db_eng
  = (ConstraintViolation, db_eng)
  ∧ team_members (snd (rls_insert team_members_table (Some 2%N) false again db_eng))
    = [bob_in_eng].
Proof.
  intros again. split; [reflexivity|].
  apply (second_membership_rejected db_eng (Some 2%N) false again).
  exists bob_in_eng. split_and!; [apply list_elem_of_here | reflexivity | reflexivity].
Defined.

(** X10: the enumerations are closed.  A Membership row whose role is not
    one of owner, admin, member, and a task whose status or priority is
    not one of the listed values, are never inserted; and in a database
    that satisfies its constraints no update leaves a task with another
    status or priority. *)
Theorem enumerations_enforced db actor :
  (∀ returning (NEW : TeamMembers.row),
     sql_in (TeamMembers.role NEW) ["owner"; "admin"; "member"] = false →
     rls_insert team_members_table actor returning NEW db = (PermissionDenied, db)
     ∨ rls_insert team_members_table actor returning NEW db = (ConstraintViolation, db))
  ∧ (∀ returning (NEW : Tasks.row),
       sql_in (Tasks.status NEW) ["todo"; "in_progress"; "review"; "done"] = false
       ∨ sql_in (Tasks.priority NEW) ["low"; "medium"; "high"; "urgent"] = false →
       rls_insert tasks_table actor returning NEW db = (PermissionDenied, db)
       ∨ rls_insert tasks_table actor returning NEW db = (ConstraintViolation, db))
  ∧ (db_valid db = true →
     ∀ now cond set k,
       k ∈ tasks (snd (rls_update tasks_table actor now cond set db)) →
       Tasks.status k ∈ ["todo"; "in_progress"; "review"; "done"]
       ∧ Tasks.priority k ∈ ["low"; "medium"; "high"; "urgent"]).
Proof.
  split_and!.
  - intros returning NEW Hrole.
    destruct (rls_insert_cases team_members_table actor returning NEW db)
      as [H | [H | [_ Hv]]]; [by left | by right |].
    apply db_valid_add_member_inv in Hv as (_ & _ & _ & _ & Hr). congruence.
  - intros returning NEW Hbad.
    destruct (rls_insert_cases tasks_table actor returning NEW db)
      as [H | [H | [_ Hv]]]; [by left | by right |].
    apply db_valid_add_task_inv in Hv as (_ & _ & Hs & Hp).
    destruct Hbad; congruence.
  - intros Hv now cond set k Hk.
    destruct (statements_preserve_validity tasks_table db Hv) as (_ & Hupd & _).
    destruct (db_valid_tasks _ (Hupd actor now cond set)) as [_ Hall].
    destruct (Hall k Hk) as (_ & Hs & Hp & _).
    unfold sql_in in Hs, Hp. apply existsb_exists in Hs as (s & Hs & Heq).
    apply existsb_exists in Hp as (p & Hp & Heq').
    apply String.eqb_eq in Heq, Heq'. subst s p.
    by split; apply list_elem_of_In.
Qed.

(** Bob files a task with status "blocked", then tries to set the status
    of the existing task to it. *)
Lemma enumerations_enforced_witness :
  let blocked (k : Tasks.row) :=
    {| Tasks.id := Tasks.id k; Tasks.team_id := Tasks.team_id k;
       Tasks.title := Tasks.title k; Tasks.description := Tasks.description k;
       Tasks.status := "blocked"; Tasks.priority := Tasks.priority k;
       Tasks.due_date := Tasks.due_date k; Tasks.assigned_to := Tasks.assigned_to k;
       Tasks.created_by := Tasks.created_by k;
       Tasks.created_at := Tasks.created_at k; Tasks.updated_at := Tasks.updated_at k |} in
  rls_insert tasks_table (Some 2%N) false (blocked (new_task 23%N 2%N)) db_eng
  = (ConstraintViolation, db_eng)
  ∧ rls_update tasks_table (Some 2%N) 800%Z (λ _, true) blocked db_eng
    = (ConstraintViolation, db_eng)
  ∧ Tasks.status (new_task 20%N 2%N) ∈ ["todo"; "in_progress"; "review"; "done"].
Proof.
  intros blocked. split_and!; [reflexivity | reflexivity |].
  apply (proj2 (proj2 (enumerations_enforced db_eng (Some 2%N)))
           eq_refl 800%Z (λ _, true) blocked (new_task 20%N 2%N)).
  exact (list_elem_of_here _ _).
Defined.

(** ** Working in a team *)

(** X11: a user reads the tasks of the teams they hold a Membership row
    in, all of them and no other: asked for one team's tasks a member gets
    every task of the team, in the order of the table, and everybody else
    gets none. *)
Theorem tasks_read_all_or_nothing db actor :
  (∀ k, k ∈ rls_select tasks_table actor (λ _, true) db
        ↔ k ∈ tasks db ∧ has_membership db actor (Tasks.team_id k))
  ∧ (∀ team_id,
       has_membership db actor team_id →
       rls_select tasks_table actor (λ k, bool_decide (Tasks.team_id k = team_id)) db
       = tasks_of team_id db
       ∧ rls_count tasks_table actor (λ k, bool_decide (Tasks.team_id k = team_id)) db
         = length (tasks_of team_id db))
  ∧ (∀ team_id,
       ¬ has_membership db actor team_id →
       rls_count tasks_table actor (λ k, bool_decide (Tasks.team_id k = team_id)) db
       = 0%nat).
Proof.
  split_and!.
  - intros k. rewrite rls_select_elem. cbn [t_rows t_policies tasks_table].
    rewrite tasks_select_qual, is_team_member_true. tauto.
  - intros team_id Hm. apply is_team_member_true in Hm.
    unfold rls_count. by rewrite tasks_read_by_team, Hm.
  - intros team_id Hm. unfold rls_count. rewrite tasks_read_by_team.
    destruct (is_team_member _ _ _) eqn:Hmem; [|done].
    by apply is_team_member_true in Hmem.
Qed.

Lemma tasks_read_all_or_nothing_witness :
  rls_select tasks_table (Some 2%N) (λ k, bool_decide (Tasks.team_id k = 10%N)) db_eng
  = tasks_of 10%N db_eng
  ∧ rls_count tasks_table (Some 1%N) (λ k, bool_decide (Tasks.team_id k = 10%N)) db_eng
    = 0%nat.
Proof.
  destruct (tasks_read_all_or_nothing db_eng (Some 2%N)) as (_ & Hall & _).
  destruct (tasks_read_all_or_nothing db_eng (Some 1%N)) as (_ & _ & Hnone).
  split.
  - apply Hall. exists bob_in_eng.
    split_and!; [apply list_elem_of_here | reflexivity | reflexivity].
  - apply Hnone. intros (m & Hin & Hu & _). apply list_elem_of_singleton in Hin.
    subst m. discriminate Hu.
Defined.

(** X12: the owner of a team adds anybody.  A Membership row for a team
    the actor owns passes the insert check whoever its [user_id] is; it is
    inserted whenever the account exists, is not yet a member, and the id
    and role are acceptable; and the user added then reads every task of
    the team. *)
Theorem owner_adds_member db actor (NEW : TeamMembers.row) :
  owns db actor (TeamMembers.team_id NEW) →
  with_check team_members_policies INSERT db actor NEW = true
  ∧ (db_valid db = true →
     TeamMembers.id NEW ∉ map TeamMembers.id (team_members db) →
     ¬ has_membership db (Some (TeamMembers.user_id NEW)) (TeamMembers.team_id NEW) →
     TeamMembers.user_id NEW ∈ user_ids db →
     sql_in (TeamMembers.role NEW) ["owner"; "admin"; "member"] = true →
     references_opt (TeamMembers.invited_by NEW) (user_ids db) = true →
     ∃ db',
       rls_insert team_members_table actor false NEW db = (Done [], db')
       ∧ team_members db' = team_members db ++ [NEW]
       ∧ rls_select tasks_table (Some (TeamMembers.user_id NEW))
           (λ k, bool_decide (Tasks.team_id k = TeamMembers.team_id NEW)) db'
         = tasks_of (TeamMembers.team_id NEW) db).
Proof.
  intros Hown.
  assert (Hc : with_check team_members_policies INSERT db actor NEW = true).
  { rewrite team_members_insert_check. apply orb_true_iff. left.
    by apply is_team_owner_true. }
  split; [done|].
  intros Hv Hid Hnew Hu Hrole Hinv.
  assert (Ht : TeamMembers.team_id NEW ∈ team_ids db).
  { destruct Hown as (t & Hin & <- & _). apply list_elem_of_fmap. by exists t. }
  pose proof (db_valid_add_member db NEW Hv Hid Hnew Ht Hu Hrole Hinv) as Hv'.
  eexists. unfold rls_insert.
  change (t_policies team_members_table) with team_members_policies.
  change (t_rows team_members_table db) with (team_members db).
  rewrite Hc, Hv'. cbn [negb orb andb].
  split_and!; [reflexivity | reflexivity |].
  rewrite tasks_read_by_team.
  assert (Hm : is_team_member
                 (t_put team_members_table (team_members db ++ [NEW]) db)
                 (Some (TeamMembers.user_id NEW)) (Some (TeamMembers.team_id NEW)) = true).
  { apply is_team_member_true. exists NEW.
    cbn [t_put team_members_table team_members].
    split_and!; [|done|done]. apply elem_of_app. right. apply list_elem_of_here. }
  by rewrite Hm.
Qed.

(** Alice adds Carol to "Eng", and Carol reads its task. *)
Lemma owner_adds_member_witness :
  let carol_in_eng :=
    {| TeamMembers.id := 12%N; TeamMembers.team_id := 10%N;
       TeamMembers.user_id := 3%N; TeamMembers.role := "member";
       TeamMembers.invited_by := Some 1%N; TeamMembers.joined_at := 130%Z |} in
  ∃ db', rls_insert team_members_table (Some 1%N) false carol_in_eng db_eng
         = (Done [], db')
         ∧ rls_select tasks_table (Some 3%N)
             (λ k, bool_decide (Tasks.team_id k = 10%N)) db'
           = [new_task 20%N 2%N].
Proof.
  intros carol_in_eng.
  destruct (owner_adds_member db_eng (Some 1%N) carol_in_eng) as [_ Hadd].
  - exists eng. split_and!; [apply list_elem_of_here | reflexivity | reflexivity].
  - destruct Hadd as (db' & Hrun & _ & Hread).
    + reflexivity.
    + intros Hin. apply list_elem_of_singleton in Hin. discriminate Hin.
    + intros (m & Hin & Hu & _). apply list_elem_of_singleton in Hin. subst m.
      discriminate Hu.
    + apply list_elem_of_further, list_elem_of_further, list_elem_of_here.
    + reflexivity.
    + reflexivity.
    + exists db'. split; [exact Hrun | exact Hread].
Defined.

(** X13: a member files a task.  A task created by the actor in a team
    the actor holds a Membership row in is inserted whenever its id is
    new, its status and priority are listed values and its assignee, if
    any, is an account; every member of the team then reads it. *)
Theorem member_files_task db actor (NEW : Tasks.row) :
  db_valid db = true →
  has_membership db actor (Tasks.team_id NEW) →
  actor = Some (Tasks.created_by NEW) →
  Tasks.id NEW ∉ map Tasks.id (tasks db) →
  sql_in (Tasks.status NEW) ["todo"; "in_progress"; "review"; "done"] = true →
  sql_in (Tasks.priority NEW) ["low"; "medium"; "high"; "urgent"] = true →
  references_opt (Tasks.assigned_to NEW) (user_ids db) = true →
  ∃ db',
    rls_insert tasks_table actor false NEW db = (Done [], db')
    ∧ tasks db' = tasks db ++ [NEW]
    ∧ ∀ reader,
        has_membership db reader (Tasks.team_id NEW) →
        NEW ∈ rls_select tasks_table reader
                (λ k, bool_decide (Tasks.team_id k = Tasks.team_id NEW)) db'.
Proof.
  intros Hv Hmem Hactor Hid Hs Hp Ha.
  assert (Hc : with_check tasks_policies INSERT db actor NEW = true).
  { rewrite tasks_insert_check, andb_true_iff, bool_decide_eq_true.
    by rewrite is_team_member_true. }
  destruct Hmem as (m & Hin & Hu & Ht).
  destruct (db_valid_team_members db Hv) as (_ & _ & Hall).
  destruct (Hall m Hin) as (Hteam & Huser & _).
  assert (Hcreator : Tasks.created_by NEW ∈ user_ids db).
  { rewrite Hactor in Hu. injection Hu as <-. done. }
  rewrite Ht in Hteam.
  pose proof (db_valid_add_task db NEW Hv Hid Hteam Hs Hp Ha Hcreator) as Hv'.
  eexists. unfold rls_insert.
  change (t_policies tasks_table) with tasks_policies.
  change (t_rows tasks_table db) with (tasks db).
  rewrite Hc, Hv'. cbn [negb orb andb].
  split_and!; [reflexivity | reflexivity |].
  intros reader Hreader. apply rls_select_elem.
  cbn [t_rows t_policies t_put tasks_table tasks]. split_and!.
  - apply elem_of_app. right. apply list_elem_of_here.
  - by apply bool_decide_eq_true_2.
  - rewrite tasks_select_qual. apply is_team_member_true.
    destruct Hreader as (m' & Hin' & Hu' & Ht'). by exists m'.
Qed.

Lemma member_files_task_witness :
  ∃ db', rls_insert tasks_table (Some 2%N) false (new_task 24%N 2%N) db_eng
         = (Done [], db')
         ∧ tasks db' = [new_task 20%N 2%N; new_task 24%N 2%N].
Proof.
  destruct (member_files_task db_eng (Some 2%N) (new_task 24%N 2%N))
    as (db' & Hrun & Hrows & _).
  - reflexivity.
  - exists bob_in_eng. split_and!; [apply list_elem_of_here | reflexivity | reflexivity].
  - reflexivity.
  - intros Hin. apply list_elem_of_singleton in Hin. discriminate Hin.
  - reflexivity.
  - reflexivity.
  - reflexivity.
  - exists db'. split; [exact Hrun | exact Hrows].
Defined.

(** ** Signing up *)

Lemma split_part_no_delimiter d s : occurs d s = false → split_part s d 1 = s.
Proof.
  intros Hs. destruct (split_part_first d s) as [_ [H | (rest & H)]]; [done|].
  exfalso. rewrite H in Hs. clear H.
  induction (split_part s d 1) as [|c h IH].
  - change (occurs d (String d rest) = false) in Hs. cbn [occurs] in Hs.
    by rewrite bool_decide_eq_true_2 in Hs by done.
  - change (occurs d (String c (String.append h (String d rest))) = false) in Hs.
    cbn [occurs] in Hs. apply orb_false_iff in Hs as [_ Hs]. by apply IH.
Qed.

(** X14: where the handle comes from.  A ['username'] in the metadata
    wins over the email address, a JSON string as it is and any other
    non-null value by its text; without metadata, without the key, or with
    a JSON null under it, the handle is the email address up to its first
    ['@'], all of it when it has none; with no email address either there
    is no handle. *)
Theorem handle_derivation (NEW : Users.row) :
  (∀ meta s, Users.raw_user_meta_data NEW = Some meta →
             meta !! "username" = Some (JString s) →
             new_user_username NEW = Some s)
  ∧ (∀ meta s, Users.raw_user_meta_data NEW = Some meta →
               meta !! "username" = Some (JOther s) →
               new_user_username NEW = Some s)
  ∧ ((Users.raw_user_meta_data NEW = None
      ∨ ∃ meta, Users.raw_user_meta_data NEW = Some meta
                ∧ (meta !! "username" = None ∨ meta !! "username" = Some JNull)) →
     (∀ e, Users.email NEW = Some e →
           new_user_username NEW = Some (split_part e "@" 1)
           ∧ part_before "@" e (split_part e "@" 1)
           ∧ (occurs "@" e = false → new_user_username NEW = Some e))
     ∧ (Users.email NEW = None → new_user_username NEW = None)).
Proof.
  unfold new_user_username, json_get_text. split_and!.
  - intros meta s -> Hs. cbn. by rewrite Hs.
  - intros meta s -> Hs. cbn. by rewrite Hs.
  - intros Hmeta.
    assert (Hnone : (m ← Users.raw_user_meta_data NEW;
                     v ← m !! "username";
                     match v with
                     | JNull => None
                     | JString s => Some s
                     | JOther s => Some s
                     end) = None).
    { destruct Hmeta as [-> | (meta & -> & [H | H])]; cbn; by rewrite ?H. }
    rewrite Hnone. cbn [coalesce]. split.
    + intros e ->. cbn. split_and!; [done | apply split_part_first |].
      intros Hno. by rewrite split_part_no_delimiter.
    + by intros ->.
Qed.

Lemma handle_derivation_witness :
  new_user_username bob = Some "bobby"
  ∧ new_user_username alice = Some "alice"
  ∧ new_user_username
      {| Users.id := 5%N; Users.email := None; Users.raw_user_meta_data := None |}
    = None.
Proof.
  split_and!.
  - apply (proj1 (handle_derivation bob) {[ "username" := JString "bobby" ]});
      reflexivity.
  - destruct (proj2 (proj2 (handle_derivation alice)) (or_introl eq_refl)) as [He _].
    exact (proj1 (He "alice@example.org" eq_refl)).
  - destruct (proj2 (proj2 (handle_derivation
               {| Users.id := 5%N; Users.email := None;
                  Users.raw_user_meta_data := None |})) (or_introl eq_refl)) as [_ Hn].
    exact (Hn eq_refl).
Defined.

Lemma unique_snoc_iff {A K} `{EqDecision K} (key : A → K) (l : list A) (x : A) :
  unique key (l ++ [x]) = true ↔ unique key l = true ∧ key x ∉ map key l.
Proof.
  split.
  - intros H. split.
    + unfold unique in *. rewrite bool_decide_eq_true in *.
      rewrite map_app in H. by apply NoDup_app in H as (H & _).
    + intros Hin. apply list_elem_of_fmap in Hin as (y & Heq & Hy).
      by apply (unique_snoc_inv key l x H y Hy).
  - intros [Hl Hx]. by apply unique_snoc.
Qed.

(** X15: when an account can be created.  In a database that satisfies
    its constraints the creation succeeds exactly when the account's id is
    new, a handle can be derived for it, no Profile row carries that
    handle, and the id drawn for the Profile row is not in use.  Otherwise
    it fails with a constraint violation, never with a denial: the
    trigger's insert is not subject to the policies of [profiles]. *)
Theorem create_account_succeeds_iff NEW fresh now db :
  db_valid db = true →
  ((∃ db', create_account NEW fresh now db = (Done (), db'))
   ↔ (Users.id NEW ∉ user_ids db)
     ∧ (fresh ∉ map Profiles.id (profiles db))
     ∧ ∃ handle, new_user_username NEW = Some handle
                 ∧ handle ∉ map Profiles.username (profiles db))
  ∧ ((¬ ∃ db', create_account NEW fresh now db = (Done (), db')) →
     create_account NEW fresh now db = (ConstraintViolation, db)).
Proof.
  intros Hv.
  destruct (db_valid_profiles db Hv) as (Hpid & Hpuser & Hpname & Hpfk).
  assert (Hv0 := Hv).
  unfold db_valid in Hv. rewrite !andb_true_iff in Hv.
  destruct Hv as ((((Husers & Hp) & Ht) & Hm) & Hk).
  set (db1 := {| auth_users := auth_users db ++ [NEW]; profiles := profiles db;
                 teams := teams db; team_members := team_members db;
                 tasks := tasks db |}).
  assert (Hsub : ∀ x l, references x (user_ids db) = true →
                        references x (map Users.id (auth_users db ++ l)) = true).
  { intros x l Hx. unfold references, user_ids in *.
    apply bool_decide_eq_true in Hx. apply bool_decide_eq_true_2.
    rewrite map_app. apply elem_of_app. by left. }
  assert (Hsub' : ∀ x l, references_opt x (user_ids db) = true →
                         references_opt x (map Users.id (auth_users db ++ l)) = true).
  { intros [x|] l Hx; [by apply Hsub | done]. }
  assert (Hv1 : Users.id NEW ∉ user_ids db → db_valid db1 = true).
  { intros Hnew. unfold db_valid. rewrite !andb_true_iff. split_and!.
    - by apply unique_snoc.
    - unfold profiles_valid in *. cbn [db1 profiles]. unfold user_ids. cbn [auth_users].
      apply andb_true_iff in Hp as [Hu Hall].
      apply andb_true_iff. split; [done|].
      rewrite forallb_forall in Hall. apply forallb_forall.
      intros p Hin. by apply Hsub, Hall.
    - unfold teams_valid in *. cbn [db1 teams]. unfold user_ids. cbn [auth_users].
      rewrite !andb_true_iff in Ht. destruct Ht as [Hu Hall].
      apply andb_true_iff. split; [done|].
      rewrite forallb_forall in Hall. apply forallb_forall.
      intros t Hin. by apply Hsub, Hall.
    - unfold team_members_valid in *. cbn [db1 team_members].
      unfold user_ids, team_ids. cbn [auth_users teams].
      apply andb_true_iff in Hm as [Hu Hall].
      apply andb_true_iff. split; [done|].
      rewrite forallb_forall in Hall. apply forallb_forall.
      intros m Hin. specialize (Hall m Hin). rewrite !andb_true_iff in Hall.
      destruct Hall as (((H1 & H2) & H3) & H4).
      rewrite !andb_true_iff. split_and!; [done | by apply Hsub | done | by apply Hsub'].
    - unfold tasks_valid in *. cbn [db1 tasks].
      unfold user_ids, team_ids. cbn [auth_users teams].
      rewrite !andb_true_iff in Hk. destruct Hk as [Hu Hall].
      apply andb_true_iff. split; [done|].
      rewrite forallb_forall in Hall. apply forallb_forall.
      intros k Hin. specialize (Hall k Hin). rewrite !andb_true_iff in Hall.
      destruct Hall as ((((H1 & H2) & H3) & H4) & H5).
      rewrite !andb_true_iff.
      split_and!; [done | done | done | by apply Hsub' | by apply Hsub]. }
  assert (Hv1' : db_valid db1 = true → Users.id NEW ∉ user_ids db).
  { unfold db_valid. rewrite !andb_true_iff. intros ((((Hu & _) & _) & _) & _).
    cbn [db1 auth_users] in Hu. by apply unique_snoc_iff in Hu as [_ Hu]. }
  assert (Hv2 : ∀ handle, db_valid db1 = true →
    (db_valid (t_put profiles_table
       (profiles db1 ++
          [{| Profiles.id := fresh; Profiles.user_id := Users.id NEW;
              Profiles.username := handle;
              Profiles.created_at := now; Profiles.updated_at := now |}]) db1) = true
     ↔ (fresh ∉ map Profiles.id (profiles db))
       ∧ handle ∉ map Profiles.username (profiles db))).
  { intros handle Hdb1. pose proof (Hv1' Hdb1) as Hnew.
    unfold db_valid in Hdb1. rewrite !andb_true_iff in Hdb1.
    destruct Hdb1 as ((((Husers1 & Hp1) & Ht1) & Hm1) & Hk1).
    unfold db_valid. rewrite !andb_true_iff.
    unfold profiles_valid. cbn [t_put profiles_table db1 profiles auth_users].
    rewrite !andb_true_iff, !unique_snoc_iff, forallb_app. cbn [forallb Profiles.id
      Profiles.user_id Profiles.username].
    rewrite !andb_true_iff.
    split.
    - intros ((((_ & (((_ & Hf) & _) & (_ & Hh)) & _) & _) & _) & _). done.
    - intros [Hf Hh]. split_and!; try done.
      + intros Hin. apply list_elem_of_fmap in Hin as (p & Heq & Hin).
        apply Hnew. rewrite Heq. by apply Hpfk.
      + unfold profiles_valid in Hp1. cbn [db1 profiles] in Hp1.
        rewrite !andb_true_iff in Hp1. by destruct Hp1 as [_ Hall].
      + unfold references, user_ids. cbn [auth_users].
        apply bool_decide_eq_true_2. rewrite map_app. apply elem_of_app. right.
        apply list_elem_of_here. }
  assert (Hiff : (∃ db', create_account NEW fresh now db = (Done (), db'))
    ↔ (Users.id NEW ∉ user_ids db)
      ∧ (fresh ∉ map Profiles.id (profiles db))
      ∧ ∃ handle, new_user_username NEW = Some handle
                  ∧ handle ∉ map Profiles.username (profiles db)).
  { unfold create_account, handle_new_user. fold db1. split.
    - intros (db' & Hrun).
      destruct (db_valid db1) eqn:Hdb1; [|discriminate].
      destruct (new_user_username NEW) as [handle|]; [|discriminate].
      destruct (db_valid (t_put _ _ _)) eqn:Hdb2; [|discriminate].
      apply (Hv2 handle eq_refl) in Hdb2 as [Hf Hh].
      split_and!; [by apply Hv1' | done | by exists handle].
    - intros (Hnew & Hf & handle & Hname & Hh).
      rewrite (Hv1 Hnew), Hname.
      rewrite (proj2 (Hv2 handle (Hv1 Hnew)) (conj Hf Hh)). by eexists. }
  split; [exact Hiff|].
  intros Hnot. unfold create_account, handle_new_user in *. fold db1 in Hnot |- *.
  destruct (db_valid db1); [|done].
  destruct (new_user_username NEW) as [handle|]; [|done].
  destruct (db_valid (t_put _ _ _)); [|done].
  exfalso. apply Hnot. by eexists.
Qed.

(** Dave signs up into the sample database with the handle "bobby", which
    Bob carries, then with a handle of his own. *)
Lemma create_account_succeeds_iff_witness :
  let dave' handle :=
    {| Users.id := 4%N; Users.email := Some "dave@example.org";
       Users.raw_user_meta_data := Some {[ "username" := JString handle ]} |} in
  create_account (dave' "bobby") 104%N 40%Z db_eng = (ConstraintViolation, db_eng)
  ∧ ∃ db', create_account (dave' "dave") 104%N 40%Z db_eng = (Done (), db').
Proof.
  intros dave'. split; [reflexivity|].
  apply (proj1 (create_account_succeeds_iff (dave' "dave") 104%N 40%Z db_eng eq_refl)).
  split_and!.
  - intros Hin. apply list_elem_of_In in Hin. cbn in Hin.
    destruct Hin as [H | [H | [H | []]]]; discriminate H.
  - intros Hin. apply list_elem_of_In in Hin. cbn in Hin.
    destruct Hin as [H | [H | [H | []]]]; discriminate H.
  - exists "dave". split; [reflexivity|].
    intros Hin. apply list_elem_of_In in Hin. cbn in Hin.
    destruct Hin as [H | [H | [H | []]]]; discriminate H.
Defined.

Lemma create_account_done_inv NEW fresh now db db' :
  create_account NEW fresh now db = (Done (), db') →
  ∃ handle,
    new_user_username NEW = Some handle
    ∧ auth_users db' = auth_users db ++ [NEW]
    ∧ profiles db'
      = profiles db ++
          [{| Profiles.id := fresh; Profiles.user_id := Users.id NEW;
              Profiles.username := handle;
              Profiles.created_at := now; Profiles.updated_at := now |}]
    ∧ teams db' = teams db
    ∧ team_members db' = team_members db
    ∧ tasks db' = tasks db
    ∧ (Users.id NEW ∉ user_ids db)
    ∧ db_valid db' = true.
Proof.
  unfold create_account, handle_new_user.
  destruct (db_valid _) eqn:Hv1; [|discriminate].
  destruct (new_user_username NEW) as [handle|]; [|discriminate].
  destruct (db_valid (t_put _ _ _)) eqn:Hv2; [|discriminate].
  intros [= <-]. exists handle. split_and!; try done.
  unfold db_valid in Hv1. rewrite !andb_true_iff in Hv1.
  destruct Hv1 as ((((Hu & _) & _) & _) & _). cbn [auth_users] in Hu.
  intros Hin. apply list_elem_of_fmap in Hin as (u & Heq & Hin).
  by apply (unique_snoc_inv _ _ _ Hu u Hin).
Qed.

(** X16: a new account starts with its own profile and nothing else.
    After a successful sign-up into a database that satisfies its
    constraints, the new user reads exactly one Profile row, the one the
    trigger inserted for them, and reads no team, no Membership row and no
    task. *)
Theorem new_account_starts_empty NEW fresh now db db' :
  db_valid db = true →
  create_account NEW fresh now db = (Done (), db') →
  (∃ handle,
     new_user_username NEW = Some handle
     ∧ rls_select profiles_table (Some (Users.id NEW)) (λ _, true) db'
       = [{| Profiles.id := fresh; Profiles.user_id := Users.id NEW;
             Profiles.username := handle;
             Profiles.created_at := now; Profiles.updated_at := now |}])
  ∧ rls_select teams_table (Some (Users.id NEW)) (λ _, true) db' = []
  ∧ rls_select team_members_table (Some (Users.id NEW)) (λ _, true) db' = []
  ∧ rls_select tasks_table (Some (Users.id NEW)) (λ _, true) db' = [].
Proof.
  intros Hv Hrun.
  apply create_account_done_inv in Hrun
    as (handle & Hname & _ & Hprofiles & Hteams & Hmembers & Htasks & Hnew & _).
  destruct (db_valid_profiles db Hv) as (_ & _ & _ & Hpfk).
  destruct (db_valid_teams db Hv) as (_ & Htfk).
  destruct (db_valid_team_members db Hv) as (_ & _ & Hmfk).
  assert (Hnot_member : ∀ team_id,
            is_team_member db' (Some (Users.id NEW)) (Some team_id) = false).
  { intros team_id. apply not_true_is_false. rewrite is_team_member_true.
    intros (m & Hin & Hu & _). rewrite Hmembers in Hin.
    destruct (Hmfk m Hin) as (_ & Huser & _). injection Hu as Hu.
    apply Hnew. by rewrite <- Hu. }
  assert (Hnot_owner : ∀ team_id,
            is_team_owner db' (Some (Users.id NEW)) (Some team_id) = false).
  { intros team_id. apply not_true_is_false. rewrite is_team_owner_true.
    intros (t & Hin & _ & [= Ho]). rewrite Hteams in Hin.
    apply Hnew. rewrite <- Ho. by apply Htfk. }
  split_and!.
  - exists handle. split; [done|].
    unfold rls_select. cbn [t_rows t_policies profiles_table].
    rewrite Hprofiles, List.filter_app. cbn [List.filter andb].
    rewrite profiles_qual by (by left).
    rewrite bool_decide_eq_true_2 by done.
    rewrite filter_none; [done|].
    intros p Hin. cbn [andb]. rewrite profiles_qual by (by left).
    apply bool_decide_eq_false_2. intros [= Heq].
    apply list_elem_of_In in Hin. apply Hnew. rewrite Heq. by apply Hpfk.
  - apply filter_none. intros t Hin. cbn [t_rows t_policies teams_table andb] in *.
    rewrite teams_select_qual, Hnot_member, orb_false_r.
    apply bool_decide_eq_false_2. intros [= Heq].
    rewrite Hteams in Hin. apply list_elem_of_In in Hin.
    apply Hnew. rewrite Heq. by apply Htfk.
  - apply filter_none. intros m _. cbn [t_policies team_members_table andb].
    by rewrite team_members_select_qual, Hnot_member, Hnot_owner.
  - apply filter_none. intros k _. cbn [t_policies tasks_table andb].
    by rewrite tasks_select_qual, Hnot_member.
Qed.

(** Dave signs up into the sample database. *)
Lemma new_account_starts_empty_witness :
  let db' := snd (create_account dave 104%N 40%Z db_eng) in
  rls_select profiles_table (Some 4%N) (λ _, true) db' = [profile_of 104%N 4%N "" 40%Z]
  ∧ rls_select teams_table (Some 4%N) (λ _, true) db' = []
  ∧ rls_select tasks_table (Some 4%N) (λ _, true) db' = [].
Proof.
  intros db'.
  destruct (new_account_starts_empty dave 104%N 40%Z db_eng db')
    as ((handle & Hname & Hread) & Hteams & _ & Htasks).
  - reflexivity.
  - reflexivity.
  - split_and!; [|exact Hteams | exact Htasks]. injection Hname as <-. exact Hread.
Defined.

(** ** The team creation form *)

Lemma references_app {K} `{EqDecision K} (k : K) (l l' : list K) :
  references k l = true → references k (l ++ l') = true.
Proof.
  unfold references. rewrite !bool_decide_eq_true. intros H.
  apply elem_of_app. by left.
Qed.

Lemma references_opt_app {K} `{EqDecision K} (k : option K) (l l' : list K) :
  references_opt k l = true → references_opt k (l ++ l') = true.
Proof. destruct k; [apply references_app | done]. Qed.

Lemma db_valid_add_team db (t : Teams.row) :
  db_valid db = true →
  Teams.id t ∉ team_ids db →
  Teams.owner_id t ∈ user_ids db →
  db_valid (t_put teams_table (teams db ++ [t]) db) = true.
Proof.
  intros Hv Hid Ho. unfold db_valid in *. rewrite !andb_true_iff in Hv.
  destruct Hv as ((((Husers & Hp) & Ht) & Hm) & Hk).
  rewrite !andb_true_iff. split_and!; [done | done | | |].
  - unfold teams_valid in *. cbn [t_put teams_table teams].
    apply andb_true_iff in Ht as [Hu Hall]. apply andb_true_iff. split.
    + by apply unique_snoc.
    + rewrite forallb_app. apply andb_true_iff. split; [done|].
      cbn [forallb]. rewrite andb_true_r. by apply bool_decide_eq_true_2.
  - unfold team_members_valid, team_ids in *. cbn [t_put teams_table team_members teams].
    apply andb_true_iff in Hm as [Hu Hall]. apply andb_true_iff. split; [done|].
    rewrite forallb_forall in Hall. apply forallb_forall. intros m Hin.
    specialize (Hall m Hin). rewrite !andb_true_iff in Hall.
    destruct Hall as (((H1 & H2) & H3) & H4). rewrite !andb_true_iff.
    split_and!; try done. rewrite map_app. by apply references_app.
  - unfold tasks_valid, team_ids in *. cbn [t_put teams_table tasks teams].
    apply andb_true_iff in Hk as [Hu Hall]. apply andb_true_iff. split; [done|].
    rewrite forallb_forall in Hall. apply forallb_forall. intros k Hin.
    specialize (Hall k Hin). rewrite !andb_true_iff in Hall.
    destruct Hall as ((((H1 & H2) & H3) & H4) & H5). rewrite !andb_true_iff.
    split_and!; try done. rewrite map_app. by apply references_app.
Qed.

(** X17: what [handleSubmit] has written, by what it reports.  Without a
    user, with a name that [trim] leaves empty (exactly when the submit
    button would be disabled), or when the team is not inserted, nothing is
    written.  When the team is inserted and the Membership row is not,
    the team stays, owned by the user and without their Membership row:
    the two inserts are not one transaction.  On success the team carries
    the trimmed name, which is not empty, no description when the
    description trims to nothing, and the user's Membership row has the
    role owner.  No other table is touched. *)
Theorem handleSubmit_outcomes user formData fresh_team fresh_member now1 now2 db :
  let result := handleSubmit user formData fresh_team fresh_member now1 now2 db in
  let new_team user_id :=
    {| Teams.id := fresh_team;
       Teams.name := trim (fd_name formData);
       Teams.description :=
         (if bool_decide (trim (fd_description formData) = EmptyString)
          then None else Some (trim (fd_description formData)));
       Teams.owner_id := user_id;
       Teams.created_at := now1; Teams.updated_at := now1 |} in
  match fst result with
  | NotSignedIn => user = None ∧ snd result = db
  | ValidationError =>
      user ≠ None ∧ trim (fd_name formData) = EmptyString ∧ snd result = db
  | TeamError =>
      user ≠ None ∧ trim (fd_name formData) ≠ EmptyString ∧ snd result = db
  | MemberError =>
      ∃ user_id, user = Some user_id
        ∧ trim (fd_name formData) ≠ EmptyString
        ∧ teams (snd result) = teams db ++ [new_team user_id]
        ∧ team_members (snd result) = team_members db
  | TeamCreated team_id =>
      ∃ user_id, user = Some user_id
        ∧ team_id = fresh_team
        ∧ trim (fd_name formData) ≠ EmptyString
        ∧ teams (snd result) = teams db ++ [new_team user_id]
        ∧ team_members (snd result)
          = team_members db ++
              [{| TeamMembers.id := fresh_member; TeamMembers.team_id := fresh_team;
                  TeamMembers.user_id := user_id; TeamMembers.role := "owner";
                  TeamMembers.invited_by := None; TeamMembers.joined_at := now2 |}]
  end
  ∧ auth_users (snd result) = auth_users db
  ∧ profiles (snd result) = profiles db
  ∧ tasks (snd result) = tasks db
  ∧ (fst result = ValidationError
     ↔ user ≠ None ∧ submit_disabled false formData = true).
Proof.
  intros result new_team. subst result. unfold handleSubmit, submit_disabled.
  destruct user as [u|]; [|by split_and!; [ | | | | split; [|intros [? _]]]].
  cbv beta iota zeta. cbn [orb].
  case_bool_decide as Hname.
  { cbn [fst snd]. by split_and!. }
  match goal with |- context [rls_insert teams_table ?a ?b ?c ?d] =>
    destruct (rls_insert_cases teams_table a b c d) as [H | [H | [H Hv1]]];
    rewrite H; clear H
  end.
  1,2: cbn [fst snd]; split_and!; try done; split; [discriminate | by intros [_ ?]].
  cbn [t_rows teams_table Teams.id].
  match goal with |- context [rls_insert team_members_table ?a ?b ?c ?d] =>
    destruct (rls_insert_cases team_members_table a b c d) as [H | [H | [H Hv2]]];
    rewrite H; clear H
  end.
  - cbn [fst snd]. split_and!; try done; [by exists u | split; [discriminate | by intros [_ ?]]].
  - cbn [fst snd]. split_and!; try done; [by exists u | split; [discriminate | by intros [_ ?]]].
  - cbn [fst snd]. split_and!; try done; [by exists u | split; [discriminate | by intros [_ ?]]].
Qed.

(** The id drawn for the Membership row is Bob's row's: the team "Design"
    is left without its owner's row.  A name of one no-break space is
    refused like a blank one. *)
Lemma handleSubmit_outcomes_witness :
  let form := {| fd_name := "  Design "; fd_description := "  " |} in
  let result := handleSubmit (Some 1%N) form 40%N 11%N 400%Z 401%Z db_eng in
  let blank := {| fd_name := no_break_space; fd_description := "" |} in
  fst result = MemberError
  ∧ map Teams.name (teams (snd result)) = ["Eng"; "Design"]
  ∧ team_members (snd result) = [bob_in_eng]
  ∧ trim no_break_space = EmptyString
  ∧ handleSubmit (Some 1%N) blank 40%N 41%N 400%Z 401%Z db_eng
    = (ValidationError, db_eng).
Proof.
  intros form result blank.
  pose proof (handleSubmit_outcomes (Some 1%N) form 40%N 11%N 400%Z 401%Z db_eng) as H.
  cbv zeta in H. fold result in H.
  assert (Hfst : fst result = MemberError) by reflexivity.
  rewrite Hfst in H. destruct H as ((u & Hu & _ & Hteams & Hmembers) & _).
  injection Hu as <-.
  pose proof (handleSubmit_outcomes (Some 1%N) blank 40%N 41%N 400%Z 401%Z db_eng) as H.
  cbv zeta in H.
  assert (Hblank : fst (handleSubmit (Some 1%N) blank 40%N 41%N 400%Z 401%Z db_eng)
                   = ValidationError) by reflexivity.
  rewrite Hblank in H. destruct H as ((_ & Htrim & Hdb) & _).
  split_and!; [exact Hfst | by rewrite Hteams | exact Hmembers | exact Htrim |].
  rewrite (surjective_pairing (handleSubmit _ _ _ _ _ _ _)), Hblank, Hdb. reflexivity.
Defined.

(** X18: when [handleSubmit] succeeds.  For a signed-in user with an
    account, a name that [trim] does not leave empty, and ids that are not
    in use, in a database that satisfies its constraints, both inserts go
    through and the page is sent to the new team. *)
Theorem handleSubmit_succeeds user_id formData fresh_team fresh_member now1 now2 db :
  db_valid db = true →
  user_id ∈ user_ids db →
  trim (fd_name formData) ≠ EmptyString →
  fresh_team ∉ team_ids db →
  fresh_member ∉ map TeamMembers.id (team_members db) →
  fst (handleSubmit (Some user_id) formData fresh_team fresh_member now1 now2 db)
  = TeamCreated fresh_team.
Proof.
  intros Hv Hu Hname Hteam Hmember. unfold handleSubmit.
  rewrite bool_decide_eq_false_2 by done.
  match goal with |- context [rls_insert teams_table _ _ ?t db] => set (new_team := t) end.
  assert (Hv1 : db_valid (t_put teams_table (teams db ++ [new_team]) db) = true)
    by (by apply db_valid_add_team).
  unfold rls_insert at 1.
  change (t_policies teams_table) with teams_policies.
  change (t_rows teams_table db) with (teams db).
  rewrite teams_insert_check, teams_select_qual.
  rewrite !bool_decide_eq_true_2 by done. cbn [negb orb andb]. rewrite Hv1.
  match goal with |- context [rls_insert team_members_table _ _ ?m ?d] =>
    set (new_member := m); set (db1 := d) end.
  assert (Hv2 : db_valid (t_put team_members_table (team_members db1 ++ [new_member]) db1)
                = true).
  { apply db_valid_add_member; try done.
    - intros (m & Hin & _ & Ht). cbn in Hin, Ht.
      destruct (db_valid_team_members db Hv) as (_ & _ & Hall).
      destruct (Hall m Hin) as (Hin' & _). apply Hteam. by rewrite <- Ht.
    - unfold team_ids. cbn. rewrite map_app. apply elem_of_app. right.
      apply list_elem_of_here. }
  unfold rls_insert.
  change (t_policies team_members_table) with team_members_policies.
  rewrite team_members_insert_check.
  rewrite (bool_decide_eq_true_2 (Some user_id = Some _)) by done.
  rewrite orb_true_r. cbn [negb orb andb].
  change (t_rows team_members_table db1) with (team_members db1).
  by rewrite Hv2.
Qed.

Lemma handleSubmit_succeeds_witness :
  fst (handleSubmit (Some 3%N) {| fd_name := "Design"; fd_description := "Logos" |}
         40%N 41%N 400%Z 401%Z db_eng)
  = TeamCreated 40%N.
Proof.
  apply handleSubmit_succeeds.
  - reflexivity.
  - apply list_elem_of_further, list_elem_of_further, list_elem_of_here.
  - discriminate.
  - intros Hin. apply list_elem_of_singleton in Hin. discriminate Hin.
  - intros Hin. apply list_elem_of_singleton in Hin. discriminate Hin.
Defined.

(** ** The dashboard *)

Lemma visible_team_members db uid (t : Teams.row) :
  t ∈ teams db →
  security_qual teams_policies SELECT db uid t = true →
  rls_select team_members_table uid
    (λ m, bool_decide (TeamMembers.team_id m = Teams.id t)) db
  = members_of (Teams.id t) db.
Proof.
  intros Hin Hq. unfold rls_select, members_of. apply filter_ext_in. intros m _.
  destruct (bool_decide _) eqn:Hm; [|done].
  apply bool_decide_eq_true in Hm. cbn [andb t_policies team_members_table].
  by apply (team_visible_members_visible db uid t m).
Qed.

(** X20: the task count attached to a team the user can read is the
    number of the team's tasks for a user who holds a Membership row in
    it, and zero for a user who does not, who is then its owner, however
    many tasks the team has. *)
Theorem dashboard_task_count u db (t : Teams.row) :
  t ∈ rls_select teams_table (Some u) (λ _, true) db →
  (has_membership db (Some u) (Teams.id t) →
   task_count (team_with_counts (Some u) db t) = length (tasks_of (Teams.id t) db))
  ∧ (¬ has_membership db (Some u) (Teams.id t) →
     task_count (team_with_counts (Some u) db t) = 0%nat
     ∧ Teams.owner_id t = u).
Proof.
  intros Hread. apply rls_select_elem in Hread as (Hin & _ & Hq).
  cbn [t_policies teams_table] in Hq. rewrite teams_select_qual in Hq.
  cbn [task_count team_with_counts]. unfold rls_count.
  rewrite tasks_read_by_team. split.
  - intros Hm. apply is_team_member_true in Hm. by rewrite Hm.
  - intros Hnot.
    assert (Hm : is_team_member db (Some u) (Some (Teams.id t)) = false).
    { apply not_true_is_false. by rewrite is_team_member_true. }
    rewrite Hm in Hq |- *. split; [done|].
    rewrite orb_false_r in Hq. apply bool_decide_eq_true in Hq. by injection Hq.
Qed.

(** Alice owns "Eng" without a Membership row: its one task is not
    counted for her. *)
Lemma dashboard_task_count_witness :
  task_count (team_with_counts (Some 1%N) db_eng eng) = 0%nat
  ∧ Teams.owner_id eng = 1%N
  ∧ length (tasks_of 10%N db_eng) = 1%nat.
Proof.
  destruct (dashboard_task_count 1%N db_eng eng (list_elem_of_here _ _)) as [_ Hzero].
  destruct Hzero as [Hcount Howner].
  - intros (m & Hin & Hu & _). apply list_elem_of_singleton in Hin.
    subst m. discriminate Hu.
  - split_and!; [exact Hcount | exact Howner | reflexivity].
Defined.

(** X21: the page's [isTeamOwner] and the database's [is_team_owner]
    agree on every team of the database, when it satisfies its
    constraints: the "Owner" mark is shown exactly on the teams whose
    tasks and memberships the policies let the user delete. *)
Theorem isTeamOwner_agrees u db entry :
  db_valid db = true →
  team entry ∈ teams db →
  isTeamOwner (Some u) entry = is_team_owner db (Some u) (Some (Teams.id (team entry)))
  ∧ isTeamOwner None entry = false.
Proof.
  intros Hv Hin. split; [|done].
  destruct (db_valid_teams db Hv) as [Hu _].
  unfold isTeamOwner. case_bool_decide as Ho; symmetry.
  - apply is_team_owner_true. exists (team entry). by rewrite Ho.
  - apply not_true_is_false. rewrite is_team_owner_true.
    intros (t & Ht & Hid & [= Howner]).
    by rewrite <- (unique_inj Teams.id (teams db) t (team entry) Hu Ht Hin Hid) in Ho.
Qed.

Lemma isTeamOwner_agrees_witness :
  isTeamOwner (Some 1%N) (team_with_counts (Some 1%N) db_eng eng) = true
  ∧ isTeamOwner (Some 2%N) (team_with_counts (Some 2%N) db_eng eng)
    = is_team_owner db_eng (Some 2%N) (Some 10%N).
Proof.
  split; [reflexivity|].
  apply (isTeamOwner_agrees 2%N db_eng (team_with_counts (Some 2%N) db_eng eng));
    [reflexivity | apply list_elem_of_here].
Defined.

Lemma foldl_add_sum {A} (g : A → nat) (l : list A) (a : nat) :
  foldl (λ acc x, acc + g x)%nat a l = (a + sum_list (map g l))%nat.
Proof.
  revert a. induction l as [|x l IH]; intros a; simpl.
  - lia.
  - rewrite IH. lia.
Qed.

Lemma sum_list_map_add {A} (f g : A → nat) (l : list A) :
  sum_list (map (λ x, f x + g x)%nat l)
  = (sum_list (map f l) + sum_list (map g l))%nat.
Proof. induction l as [|x l IH]; simpl; lia. Qed.

Lemma sum_list_map_zero {A} (l : list A) : sum_list (map (λ _, 0%nat) l) = 0%nat.
Proof. induction l as [|x l IH]; simpl; lia. Qed.

Lemma sum_list_one_key {A K} `{EqDecision K} (key : A → K) (x : K) (l : list A) :
  NoDup (map key l) → x ∈ map key l →
  sum_list (map (λ t, if bool_decide (x = key t) then 1 else 0)%nat l) = 1%nat.
Proof.
  induction l as [|y l IH]; intros Hnd Hin.
  - by apply elem_of_nil in Hin.
  - cbn [map] in Hnd, Hin.
    change (((if bool_decide (x = key y) then 1 else 0)
             + sum_list (map (λ t, if bool_decide (x = key t) then 1 else 0) l))%nat
            = 1%nat).
    apply NoDup_cons in Hnd as [Hy Hnd]. case_bool_decide as Hx.
    + subst x. rewrite (map_ext_in _ (λ _, 0%nat)); [by rewrite sum_list_map_zero|].
      intros z Hz. rewrite bool_decide_eq_false_2; [done|].
      intros Heq. apply Hy. rewrite Heq.
      apply list_elem_of_fmap. exists z. split; [done | by apply list_elem_of_In].
    + apply elem_of_cons in Hin as [? | Hin]; [done|]. by rewrite IH.
Qed.

(** Counting the rows of [K] team by team over teams with distinct ids
    counts each row whose team is among them once. *)
Lemma count_by_team (L : list Teams.row) (K : list Tasks.row) (q : Tasks.row → bool) :
  NoDup (map Teams.id L) →
  (∀ k, k ∈ K → q k = true → Tasks.team_id k ∈ map Teams.id L) →
  sum_list (map (λ t, length (List.filter
                   (λ k, bool_decide (Tasks.team_id k = Teams.id t) && q k) K)) L)
  = length (List.filter q K).
Proof.
  intros Hnd. induction K as [|k K IH]; intros Hin.
  - cbn [List.filter length]. apply sum_list_map_zero.
  - rewrite (map_ext _
      (λ t, (if bool_decide (Tasks.team_id k = Teams.id t) && q k then 1 else 0)
            + length (List.filter
                (λ k', bool_decide (Tasks.team_id k' = Teams.id t) && q k') K))%nat).
    2: { intros t. cbn [List.filter]. by destruct (_ && _). }
    rewrite sum_list_map_add, IH.
    2: { intros k' Hk'. by apply Hin, list_elem_of_further. }
    cbn [List.filter]. destruct (q k) eqn:Hq.
    + rewrite (map_ext _
        (λ t, if bool_decide (Tasks.team_id k = Teams.id t) then 1 else 0)%nat).
      2: { intros t. by rewrite andb_true_r. }
      rewrite (sum_list_one_key Teams.id (Tasks.team_id k) L Hnd).
      * done.
      * by apply Hin; [apply list_elem_of_here|].
    + rewrite (map_ext _ (λ _, 0%nat)).
      2: { intros t. by rewrite andb_false_r. }
      by rewrite sum_list_map_zero.
Qed.

Lemma filter_filter {A} (f g : A → bool) (l : list A) :
  List.filter f (List.filter g l) = List.filter (λ x, g x && f x) l.
Proof.
  induction l as [|x l IH]; [done|]. cbn [List.filter].
  destruct (g x); cbn [List.filter andb]; [|done]. by rewrite IH.
Qed.

(** X22: the "Quick Stats" cards, computed from the entries built for any
    answered teams.  They are shown exactly when the list is not empty.
    "Teams Owned" counts the listed teams whose [owner_id] is the user and
    never exceeds "Teams Joined"; and when each team is listed once,
    "Total Tasks" is the number of task rows the user can read that belong
    to the listed teams. *)
Theorem quick_stats_totals u db (rows : list Teams.row) :
  let shown := map (team_with_counts (Some u) db) rows in
  (quickStats (Some u) shown = None ↔ rows = [])
  ∧ (∀ stats,
       quickStats (Some u) shown = Some stats →
       teams_joined stats = length rows
       ∧ teams_owned stats
         = length (List.filter (λ t, bool_decide (Teams.owner_id t = u)) rows)
       ∧ (teams_owned stats ≤ teams_joined stats)%nat
       ∧ (NoDup (map Teams.id rows) →
          total_tasks stats
          = length (List.filter
                      (λ k, bool_decide (Tasks.team_id k ∈ map Teams.id rows))
                      (rls_select tasks_table (Some u) (λ _, true) db)))).
Proof.
  intros shown. subst shown. split.
  - unfold quickStats. destruct rows; [done|]. cbn. split; discriminate.
  - intros stats. unfold quickStats. destruct (Nat.ltb _ _); [|discriminate].
    intros [= <-]. cbn [teams_joined teams_owned total_tasks]. split_and!.
    + by rewrite length_map.
    + induction rows as [|t rows IH]; [done|].
      cbn [List.filter map isTeamOwner team team_with_counts].
      destruct (bool_decide _); cbn [length]; by rewrite IH.
    + rewrite length_map. induction rows as [|t rows IH]; [done|].
      cbn [List.filter map]. destruct (isTeamOwner _ _); cbn [length]; lia.
    + intros Hnd. rewrite foldl_add_sum. cbn [Nat.add]. rewrite map_map.
      set (q := security_qual tasks_policies SELECT db (Some u)).
      set (q' := λ k, q k && bool_decide (Tasks.team_id k ∈ map Teams.id rows)).
      rewrite (map_ext_in _
        (λ t, length (List.filter
                (λ k, bool_decide (Tasks.team_id k = Teams.id t) && q' k) (tasks db)))).
      2: { intros t Ht. cbn [task_count team_with_counts]. unfold rls_count, rls_select.
           cbn [t_rows t_policies tasks_table]. f_equal. apply filter_ext. intros k.
           unfold q'. fold q. case_bool_decide as Hk; [|done]. cbn [andb].
           rewrite bool_decide_eq_true_2; [by rewrite andb_true_r|].
           rewrite Hk. apply list_elem_of_fmap. exists t.
           split; [done | by apply list_elem_of_In]. }
      rewrite (count_by_team rows (tasks db) q' Hnd).
      * unfold rls_select. cbn [t_rows t_policies tasks_table].
        rewrite filter_filter. f_equal.
      * intros k _ Hk. unfold q' in Hk. apply andb_true_iff in Hk as [_ Hk].
        by apply bool_decide_eq_true in Hk.
Qed.

(** Bob's cards for the entries built from an answer that lists "Eng":
    one team joined, its one task, no team owned. *)
Lemma quick_stats_totals_witness :
  quickStats (Some 2%N) (map (team_with_counts (Some 2%N) db_eng) [eng])
  = Some {| teams_joined := 1; total_tasks := 1; teams_owned := 0 |}
  ∧ (1 = length (List.filter
                   (λ k, bool_decide (Tasks.team_id k ∈ map Teams.id [eng]))
                   (rls_select tasks_table (Some 2%N) (λ _, true) db_eng)))%nat.
Proof.
  split; [reflexivity|].
  destruct (quick_stats_totals 2%N db_eng [eng]) as [_ H].
  destruct (H {| teams_joined := 1; total_tasks := 1; teams_owned := 0 |} eq_refl)
    as (_ & _ & _ & Htotal).
  apply Htotal. apply NoDup_singleton.
Defined.

(** ** Who sees a team, who creates rows *)

(** X23: a team is visible to its owner and to the users who hold a
    Membership row in it, and to nobody else; the same users, the owner
    included even without a row of their own, read all the Membership rows
    of the team, and everybody else reads none of them. *)
Theorem team_and_members_visibility db actor :
  (∀ t, t ∈ rls_select teams_table actor (λ _, true) db
        ↔ t ∈ teams db
          ∧ (actor = Some (Teams.owner_id t) ∨ has_membership db actor (Teams.id t)))
  ∧ (∀ team_id,
       has_membership db actor team_id ∨ owns db actor team_id →
       rls_select team_members_table actor
         (λ m, bool_decide (TeamMembers.team_id m = team_id)) db
       = members_of team_id db)
  ∧ (∀ team_id,
       ¬ has_membership db actor team_id →
       ¬ owns db actor team_id →
       rls_select team_members_table actor
         (λ m, bool_decide (TeamMembers.team_id m = team_id)) db
       = []).
Proof.
  split_and!.
  - intros t. rewrite rls_select_elem. cbn [t_rows t_policies teams_table].
    rewrite teams_select_qual, orb_true_iff, bool_decide_eq_true, is_team_member_true.
    tauto.
  - intros team_id Hwho. unfold rls_select, members_of. apply filter_ext_in.
    intros m _. case_bool_decide as Hm; [|done].
    cbn [andb t_policies team_members_table].
    rewrite team_members_select_qual, Hm. apply orb_true_iff.
    destruct Hwho as [H | H]; [left; by apply is_team_member_true
                              | right; by apply is_team_owner_true].
  - intros team_id Hm Ho. apply filter_none. intros m _.
    case_bool_decide as Hteam; [|done].
    cbn [andb t_policies team_members_table].
    rewrite team_members_select_qual, Hteam. apply orb_false_iff. split.
    + apply not_true_is_false. by rewrite is_team_member_true.
    + apply not_true_is_false. by rewrite is_team_owner_true.
Qed.

(** Alice, owner of "Eng" without a row of her own, reads its member
    list; Carol reads nothing of it. *)
Lemma team_and_members_visibility_witness :
  rls_select team_members_table (Some 1%N)
    (λ m, bool_decide (TeamMembers.team_id m = 10%N)) db_eng = [bob_in_eng]
  ∧ rls_select team_members_table (Some 3%N)
      (λ m, bool_decide (TeamMembers.team_id m = 10%N)) db_eng = [].
Proof.
  destruct (team_and_members_visibility db_eng (Some 1%N)) as (_ & Hall & _).
  destruct (team_and_members_visibility db_eng (Some 3%N)) as (_ & _ & Hnone).
  split.
  - apply (Hall 10%N). right. exists eng.
    split_and!; [apply list_elem_of_here | reflexivity | reflexivity].
  - apply (Hnone 10%N).
    + intros (m & Hin & Hu & _). apply list_elem_of_singleton in Hin. subst m.
      discriminate Hu.
    + intros (t & Hin & _ & Ho). apply list_elem_of_singleton in Hin. subst t.
      discriminate Ho.
Defined.

(** X24: teams and profiles are created in one's own name only.  A team
    whose [owner_id], or a profile whose [user_id], is not the actor is
    refused; so every team and profile a request inserts belongs to the
    one who asked. *)
Theorem rows_created_in_own_name db actor returning :
  (∀ NEW, actor ≠ Some (Teams.owner_id NEW) →
          rls_insert teams_table actor returning NEW db = (PermissionDenied, db))
  ∧ (∀ NEW rows db',
       rls_insert teams_table actor returning NEW db = (Done rows, db') →
       actor = Some (Teams.owner_id NEW) ∧ owns db' actor (Teams.id NEW))
  ∧ (∀ NEW, actor ≠ Some (Profiles.user_id NEW) →
            rls_insert profiles_table actor returning NEW db = (PermissionDenied, db))
  ∧ (∀ NEW rows db',
       rls_insert profiles_table actor returning NEW db = (Done rows, db') →
       actor = Some (Profiles.user_id NEW)).
Proof.
  split_and!.
  - intros NEW Hother. apply rls_insert_denied. cbn [t_policies teams_table].
    rewrite teams_insert_check. by apply bool_decide_eq_false_2.
  - intros NEW rows db' Hrun.
    apply rls_insert_done in Hrun as (-> & _ & _ & Hc).
    cbn [t_policies teams_table] in Hc. rewrite teams_insert_check in Hc.
    apply bool_decide_eq_true in Hc. split; [done|].
    exists NEW. cbn [t_put t_rows teams_table teams].
    split_and!; [|done|done]. apply elem_of_app. right. apply list_elem_of_here.
  - intros NEW Hother. apply rls_insert_denied. cbn [t_policies profiles_table].
    rewrite profiles_check by (by left). by apply bool_decide_eq_false_2.
  - intros NEW rows db' Hrun.
    apply rls_insert_done in Hrun as (_ & _ & _ & Hc).
    cbn [t_policies profiles_table] in Hc. rewrite profiles_check in Hc by (by left).
    by apply bool_decide_eq_true in Hc.
Qed.

(** Bob tries to create "Ops" in Alice's name. *)
Lemma rows_created_in_own_name_witness :
  rls_insert teams_table (Some 2%N) true ops db_eng = (PermissionDenied, db_eng).
Proof.
  apply (proj1 (rows_created_in_own_name db_eng (Some 2%N) true) ops). discriminate.
Defined.
